(** * Product image fetcher: the resolution pipeline of [script.py]

    A shallow embedding of [ProductImageFetcher] and the properties of its
    name normaliser, placeholder generator, URL validator, per-product
    pipeline and batch driver.

    Conventions of the embedding.
    - A Python [str] is a Rocq [string].  The development covers ASCII text:
      [lower], the character classes [\w], [\s], [\d] and the [re.IGNORECASE]
      comparison follow Python on code points below 128 and leave the other
      bytes alone.
    - The four search methods and [session.head] talk to the network.  They
      are the fields of a record [Http] acting on an abstract [World]; every
      theorem quantifies over that record, so it holds for every behaviour of
      the network, including one that answers the same request differently
      the second time.
    - An exception of class [Exception] is the outcome [Raise]; a [try] block
      is a [match] on the outcome.
    - [print] is not modelled.  The list [calls] of the state records which
      collaborators were invoked, in order; nothing in the program reads it.
    - The four search methods are modelled a second time, in [Search], from
      the response on: [session.get], the HTML parser and the JSON decoder
      are the collaborators ([Web], [Page]), and what the methods do with
      the parsed page or the decoded JSON is followed statement by
      statement, with the exceptions Python raises on values of the wrong
      shape. *)

From Stdlib Require Import Bool Arith ZArith List Ascii String Lia.
Import ListNotations.
Local Open Scope string_scope.
Local Open Scope nat_scope.

(* ================================================================= *)
(** ** Python string primitives *)

Module PyStr.

Definition code (c : ascii) : nat := nat_of_ascii c.

Definition between (lo hi : nat) (c : ascii) : bool :=
  (lo <=? code c) && (code c <=? hi).

Definition is_upper (c : ascii) : bool := between 65 90 c.
Definition is_lower (c : ascii) : bool := between 97 122 c.
Definition is_digit (c : ascii) : bool := between 48 57 c.

(** [str.isspace] on ASCII: TAB, LF, VT, FF, CR, FS, GS, RS, US, SPACE.
    The same set is what [\s] matches and what [str.strip()] removes. *)
Definition is_space (c : ascii) : bool :=
  between 9 13 c || between 28 32 c.

(** [\w] on ASCII. *)
Definition is_word (c : ascii) : bool :=
  is_upper c || is_lower c || is_digit c || (code c =? 95).

Definition lower_char (c : ascii) : ascii :=
  if is_upper c then ascii_of_nat (code c + 32) else c.

(** [s.lower()] *)
Fixpoint lower (s : string) : string :=
  match s with
  | EmptyString => EmptyString
  | String c s' => String (lower_char c) (lower s')
  end.

(** [s.startswith(p)] *)
Fixpoint startswith (p s : string) : bool :=
  match p, s with
  | EmptyString, _ => true
  | String a p', String b s' => Ascii.eqb a b && startswith p' s'
  | String _ _, EmptyString => false
  end.

(** [sub in s] *)
Fixpoint contains (sub s : string) : bool :=
  startswith sub s ||
  match s with
  | EmptyString => false
  | String _ s' => contains sub s'
  end.

(** [s.lstrip()], [s.rstrip()], [s.strip()] *)
Fixpoint lstrip (s : string) : string :=
  match s with
  | String c s' => if is_space c then lstrip s' else s
  | EmptyString => EmptyString
  end.

Fixpoint rstrip (s : string) : string :=
  match s with
  | EmptyString => EmptyString
  | String c s' =>
      match rstrip s' with
      | EmptyString => if is_space c then EmptyString else String c EmptyString
      | r => String c r
      end
  end.

Definition strip (s : string) : string := rstrip (lstrip s).

(** [s.replace(a, b)] for one-character [a] and [b]. *)
Fixpoint replace_char (a b : ascii) (s : string) : string :=
  match s with
  | EmptyString => EmptyString
  | String c s' =>
      String (if Ascii.eqb c a then b else c) (replace_char a b s')
  end.

(** [s[:n]] *)
Fixpoint take (n : nat) (s : string) : string :=
  match n, s with
  | S n', String c s' => String c (take n' s')
  | _, _ => EmptyString
  end.

(** [not s] for a string: the empty string is falsy. *)
Definition is_empty (s : string) : bool :=
  match s with EmptyString => true | _ => false end.

(** [urllib.parse.quote_plus]: letters, digits and [_.-~] are kept, a
    space becomes [+], every other byte becomes [%XX] in upper-case hex. *)
Definition hex_digit (n : nat) : ascii :=
  if n <? 10 then ascii_of_nat (48 + n) else ascii_of_nat (55 + n).

Definition is_unreserved (c : ascii) : bool :=
  is_upper c || is_lower c || is_digit c ||
  (code c =? 95) || (code c =? 46) || (code c =? 45) || (code c =? 126).

Fixpoint quote_plus (s : string) : string :=
  match s with
  | EmptyString => EmptyString
  | String c s' =>
      if is_unreserved c then String c (quote_plus s')
      else if code c =? 32 then String "+" (quote_plus s')
      else String "%" (String (hex_digit (code c / 16))
                        (String (hex_digit (code c mod 16)) (quote_plus s')))
  end.

End PyStr.

(* ================================================================= *)
(** ** The fragment of Python's [re] the program uses *)

Module Re.
Import PyStr.

(** Patterns.  [Chr p] is one character of a class; [Plus r] is the greedy
    [r+]; [Bol] is [^] and [Eol] is [$], both without [re.MULTILINE]. *)
Inductive regex : Type :=
| Eps : regex
| Chr : (ascii -> bool) -> regex
| Seq : regex -> regex -> regex
| Alt : regex -> regex -> regex
| Plus : regex -> regex
| Bol : regex
| Eol : regex.

(** A literal character; under [re.IGNORECASE] it is compared after
    lowering both sides. *)
Definition lit_char (ignorecase : bool) (c : ascii) : regex :=
  Chr (fun x =>
         if ignorecase then Ascii.eqb (lower_char x) (lower_char c)
         else Ascii.eqb x c).

Fixpoint lit (ignorecase : bool) (w : string) : regex :=
  match w with
  | EmptyString => Eps
  | String c w' => Seq (lit_char ignorecase c) (lit ignorecase w')
  end.

Fixpoint alts (rs : list regex) : regex :=
  match rs with
  | [] => Chr (fun _ => false)
  | [r] => r
  | r :: rs' => Alt r (alts rs')
  end.

(** The backtracking matcher, in continuation-passing style.  A position
    is the index [pos] in the subject and the text [s] from there on.
    [k] is what has to match after [r]; the first alternative that lets
    the whole match succeed wins, as in [re].  [Plus] tries one more round
    before it tries to stop (greedy); a round that consumes nothing ends
    the repetition. *)
Fixpoint rmatch (r : regex) (pos : nat) (s : string)
         (k : nat -> string -> option nat) : option nat :=
  match r with
  | Eps => k pos s
  | Chr p =>
      match s with
      | String c s' => if p c then k (S pos) s' else None
      | EmptyString => None
      end
  | Seq a b => rmatch a pos s (fun pos' s' => rmatch b pos' s' k)
  | Alt a b =>
      match rmatch a pos s k with
      | Some e => Some e
      | None => rmatch b pos s k
      end
  | Plus a =>
      (fix rounds (fuel : nat) (pos : nat) (s : string) : option nat :=
         match fuel with
         | O => None
         | S fuel' =>
             rmatch a pos s
               (fun pos' s' =>
                  if pos <? pos' then
                    match rounds fuel' pos' s' with
                    | Some e => Some e
                    | None => k pos' s'
                    end
                  else k pos' s')
         end) (S (String.length s)) pos s
  | Bol => if pos =? 0 then k pos s else None
  | Eol =>
      match s with
      | EmptyString => k pos s
      | String c EmptyString => if code c =? 10 then k pos s else None
      | _ => None
      end
  end.

(** [pattern.match(subject, pos)]: the end of the match that starts at
    [pos], if there is one. *)
Definition match_at (r : regex) (pos : nat) (s : string) : option nat :=
  rmatch r pos s (fun e _ => Some e).

(** [re.search]: the leftmost position at which the pattern matches, with
    the end of that match. *)
Fixpoint search_from (r : regex) (pos : nat) (s : string)
  : option (nat * nat) :=
  match match_at r pos s with
  | Some e => Some (pos, e)
  | None =>
      match s with
      | EmptyString => None
      | String _ s' => search_from r (S pos) s'
      end
  end.

Definition search (r : regex) (s : string) : option (nat * nat) :=
  search_from r 0 s.

(** [re.sub(r, repl, s)] for a pattern that matches no empty string, which
    is the case of all four patterns below: every match, leftmost first
    and not overlapping, is replaced by [repl].  [skip] counts the
    characters of the current match still to be dropped. *)
Fixpoint sub_from (r : regex) (repl : string) (pos skip : nat) (s : string)
  : string :=
  match skip with
  | S skip' =>
      match s with
      | EmptyString => EmptyString
      | String _ s' => sub_from r repl (S pos) skip' s'
      end
  | O =>
      match s with
      | EmptyString => EmptyString
      | String c s' =>
          match match_at r pos s with
          | Some e =>
              if pos <? e
              then repl ++ sub_from r repl (S pos) (e - pos - 1) s'
              else String c (sub_from r repl (S pos) 0 s')
          | None => String c (sub_from r repl (S pos) 0 s')
          end
      end
  end.

Definition sub (r : regex) (repl : string) (s : string) : string :=
  sub_from r repl 0 0 s.

End Re.

(* ================================================================= *)
(** ** [ProductImageFetcher]: the functions that do no I/O *)

Module Fetcher.
Import PyStr Re.

(** [@dataclass ProductImage] *)
Record ProductImage : Type := mkProductImage {
  name : string;
  image_url : string;
  source : string;
  alt_text : string
}.

(** [self.image_extensions] *)
Definition image_extensions : list string :=
  [".jpg"; ".jpeg"; ".png"; ".gif"; ".webp"; ".bmp"].

(** [any(ext in s for ext in self.image_extensions)] *)
Definition any_extension_in (s : string) : bool :=
  existsb (fun ext => contains ext s) image_extensions.

(** *** [clean_product_name] *)

(** [r'^(Set Of \d+|Large|Medium|Small)\s+'] with [re.IGNORECASE] *)
Definition prefix_pattern : regex :=
  Seq Bol
    (Seq (alts [ Seq (lit true "Set Of ") (Plus (Chr is_digit));
                 lit true "Large"; lit true "Medium"; lit true "Small" ])
         (Plus (Chr is_space))).

(** [r'\s+(Design|Style|Holder|Metal|Sign)$'] with [re.IGNORECASE] *)
Definition suffix_pattern : regex :=
  Seq (Plus (Chr is_space))
    (Seq (alts [ lit true "Design"; lit true "Style"; lit true "Holder";
                 lit true "Metal"; lit true "Sign" ])
         Eol).

Definition clean_product_name (name : string) : string :=
  let cleaned := Re.sub prefix_pattern "" name in
  let cleaned := Re.sub suffix_pattern "" cleaned in
  strip cleaned.

(** *** [generate_smart_placeholder] *)

Record Style : Type := mkStyle { bg : string; text : string }.

(** The dictionary [themes], in its insertion order, which is the order
    [themes.items()] iterates in.  The ['icon'] entries are never read. *)
Definition themes : list (string * Style) :=
  [ ("kitchen",   mkStyle "2C3E50" "ECF0F1");
    ("storage",   mkStyle "3498DB" "FFFFFF");
    ("christmas", mkStyle "C0392B" "FFFFFF");
    ("toy",       mkStyle "F39C12" "FFFFFF");
    ("bottle",    mkStyle "8E44AD" "FFFFFF");
    ("home",      mkStyle "27AE60" "FFFFFF");
    ("tea",       mkStyle "16A085" "FFFFFF");
    ("metal",     mkStyle "7F8C8D" "FFFFFF") ].

Definition keywords : list (string * list string) :=
  [ ("kitchen",   ["mug"; "tea"; "coffee"; "sugar"; "dispenser"; "jar";
                   "cake"; "tin"]);
    ("storage",   ["storage"; "box"; "crate"; "tin"; "holder"; "container"]);
    ("christmas", ["christmas"; "star"; "stocking"; "xmas"]);
    ("toy",       ["toy"; "dolly"; "spaceboy"; "bubbles"; "children"]);
    ("bottle",    ["bottle"; "water"; "hot"]);
    ("home",      ["door"; "wall"; "clock"; "sign"; "hanger"]);
    ("tea",       ["tea"; "coffee"]);
    ("metal",     ["metal"; "sign"; "zinc"; "wire"]) ].

(** [d[key]] and [d.get(key, default)] on a dictionary with string keys *)
Fixpoint dict_get {A : Type} (d : list (string * A)) (key : string)
         (default : A) : A :=
  match d with
  | [] => default
  | (k, v) :: d' => if String.eqb k key then v else dict_get d' key default
  end.

(** The condition of the [if] inside the loop over [themes.items()] *)
Definition theme_matches (category product_lower : string) : bool :=
  contains category product_lower ||
  existsb (fun word => contains word product_lower)
          (dict_get keywords category []).

(** The [for category, style in themes.items()] loop with its [break];
    [theme] is the value the variable has when the loop is entered. *)
Fixpoint pick_theme (items : list (string * Style)) (product_lower : string)
         (theme : Style) : Style :=
  match items with
  | [] => theme
  | (category, style) :: items' =>
      if theme_matches category product_lower then style
      else pick_theme items' product_lower theme
  end.

(** [r'[^\w\s-]'] *)
Definition punctuation_pattern : regex :=
  Chr (fun c => negb (is_word c || is_space c || (code c =? 45))).

(** [r'[\s_-]+'] *)
Definition separator_pattern : regex :=
  Plus (Chr (fun c => is_space c || (code c =? 95) || (code c =? 45))).

Definition placeholder_text (product_name : string) : string :=
  let text := Re.sub punctuation_pattern "" product_name in
  take 25 (Re.sub separator_pattern "+" text).

Definition placeholder_theme (product_name : string) : Style :=
  let theme := dict_get themes "home" (mkStyle "" "") in
  let product_lower := lower product_name in
  pick_theme themes product_lower theme.

Definition generate_smart_placeholder (product_name : string) : string :=
  let text := placeholder_text product_name in
  let theme := placeholder_theme product_name in
  "https://via.placeholder.com/400x300/" ++ bg theme ++ "/" ++
  Fetcher.text theme ++ "?text=" ++ quote_plus text.

End Fetcher.

(* ================================================================= *)
(** ** Outcomes, the network and the monad of the effectful methods *)

(** What a call does: it returns a value, or it raises an exception of class
    [Exception]. *)
Inductive outcome (A : Type) : Type :=
| Ret : A -> outcome A
| Raise : outcome A.
Arguments Ret {A} _.
Arguments Raise {A}.

(** What the validator reads of a [requests.Response]: [status_code] and
    the [content-type] header, [None] when the header is absent. *)
Record Response : Type := mkResponse {
  status_code : Z;
  content_type : option string
}.

(** The four search methods of the class. *)
Inductive method : Type :=
| duckduckgo_images
| bing_images
| shopping_sites
| direct_product_search.

(** One entry of the call log. *)
Inductive call : Type :=
| CallSearch : method -> string -> call
| CallHead : string -> call
| CallPlaceholder : string -> call
| CallSleep : call.

(** The network as the pipeline sees it.  A search method takes the product
    name and returns [Optional[str]]; [head] is [self.session.head(url,
    timeout=10)]; [pause] is [random.uniform] on [self.delay_range] followed
    by [time.sleep(delay)], which return normally for a delay range that is
    not negative, as the default [(3.0, 6.0)], and raise [ValueError] on a
    negative delay. *)
Record Http (World : Type) : Type := mkHttp {
  duckduckgo : string -> World -> outcome (option string) * World;
  bing : string -> World -> outcome (option string) * World;
  shopping : string -> World -> outcome (option string) * World;
  wikimedia : string -> World -> outcome (option string) * World;
  head : string -> World -> outcome Response * World;
  pause : World -> outcome unit * World
}.
Arguments duckduckgo {World} _ _ _.
Arguments bing {World} _ _ _.
Arguments shopping {World} _ _ _.
Arguments wikimedia {World} _ _ _.
Arguments head {World} _ _ _.
Arguments pause {World} _ _.

Module Eff.

Record state (World : Type) : Type := mkState {
  world : World;
  calls : list call
}.
Arguments mkState {World} _ _.
Arguments world {World} _.
Arguments calls {World} _.

Definition M (World A : Type) : Type :=
  state World -> outcome A * state World.

Definition ret {World A : Type} (a : A) : M World A :=
  fun st => (Ret a, st).

Definition bind {World A B : Type} (m : M World A) (k : A -> M World B)
  : M World B :=
  fun st =>
    match m st with
    | (Ret a, st') => k a st'
    | (Raise, st') => (Raise, st')
    end.

(** [try: m / except Exception: ...] seen from the handler: the outcome of
    [m] as a value. *)
Definition attempt {World A : Type} (m : M World A)
  : M World (outcome A) :=
  fun st => let (r, st') := m st in (Ret r, st').

(** A call to a collaborator: it acts on the world and is logged. *)
Definition perform {World A : Type} (c : call)
           (f : World -> outcome A * World) : M World A :=
  fun st =>
    let (r, w) := f (world st) in
    (r, mkState w (calls st ++ [c])).

End Eff.

Declare Scope eff_scope.
Delimit Scope eff_scope with eff.
Notation "x <- m ;; k" := (Eff.bind m (fun x => k))
  (at level 61, m at next level, right associativity) : eff_scope.
Notation "m ;;; k" := (Eff.bind m (fun _ => k))
  (at level 61, right associativity) : eff_scope.

(* ================================================================= *)
(** ** The validator, the per-product pipeline and the batch driver *)

Module Pipeline.
Import PyStr Fetcher Eff.
Local Open Scope eff_scope.

Section WithHttp.

Context {World : Type}.
Variable http : Http World.

Local Abbreviation M := (Eff.M World).

Definition search_duckduckgo_images (product_name : string)
  : M (option string) :=
  perform (CallSearch duckduckgo_images product_name)
          (duckduckgo http product_name).

Definition search_bing_images (product_name : string)
  : M (option string) :=
  perform (CallSearch bing_images product_name) (bing http product_name).

Definition search_shopping_sites (product_name : string)
  : M (option string) :=
  perform (CallSearch shopping_sites product_name)
          (shopping http product_name).

Definition search_direct_product_search (product_name : string)
  : M (option string) :=
  perform (CallSearch direct_product_search product_name)
          (wikimedia http product_name).

Definition session_head (url : string) : M Response :=
  perform (CallHead url) (head http url).

(** [response.headers.get('content-type', '')] *)
Definition header_content_type (response : Response) : string :=
  match content_type response with
  | Some v => v
  | None => ""
  end.

(** The [return] expression of [validate_image_url] *)
Definition plausible_image (url : string) (response : Response) : bool :=
  let content_type := lower (header_content_type response) in
  (status_code response =? 200)%Z &&
  (contains "image" content_type || any_extension_in (lower url)).

(** *** [validate_image_url] *)
Definition validate_image_url (url : string) : M bool :=
  r <- attempt (response <- session_head url ;;
                ret (plausible_image url response)) ;;
  match r with
  | Ret b => ret b
  | Raise => ret false          (* except: return False *)
  end.

(** [if image_url] on an [Optional[str]] *)
Definition truthy (image_url : option string) : bool :=
  match image_url with
  | Some u => negb (is_empty u)
  | None => false
  end.

(** [method_name.lower().replace(' ', '_')] *)
Definition source_of (method_name : string) : string :=
  replace_char " " "_" (lower method_name).

(** The bound method a [method] stands for. *)
Definition invoke (m : method) : string -> M (option string) :=
  match m with
  | duckduckgo_images => search_duckduckgo_images
  | bing_images => search_bing_images
  | shopping_sites => search_shopping_sites
  | direct_product_search => search_direct_product_search
  end.

(** The list [search_methods] of [fetch_product_image] *)
Definition search_methods : list (string * method) :=
  [ ("DuckDuckGo", duckduckgo_images);
    ("Bing Images", bing_images);
    ("Shopping Sites", shopping_sites);
    ("Direct Search", direct_product_search) ].

(** How one round of the [for] loop ends. *)
Inductive flow : Type :=
| Continue (image_url : option string) (source : string)
| Break (image_url : option string) (source : string).

(** The body of [for method_name, method in search_methods].  The
    variables [image_url] and [source] come in with the values the
    earlier rounds left.  When [method] raises, the assignment to
    [image_url] has not happened. *)
Definition try_method (cleaned_name : string)
           (entry : string * method)
           (image_url : option string) (source : string) : M flow :=
  let (method_name, method) := entry in
  r <- attempt (invoke method cleaned_name) ;;
  match r with
  | Raise => ret (Continue image_url source)
  | Ret image_url =>
      match image_url with
      | Some url =>
          if negb (is_empty url) then
            v <- attempt (validate_image_url url) ;;
            match v with
            | Ret true => ret (Break image_url (source_of method_name))
            | Ret false => ret (Continue image_url source)
            | Raise => ret (Continue image_url source)
            end
          else ret (Continue image_url source)
      | None => ret (Continue image_url source)
      end
  end.

Fixpoint for_methods (cleaned_name : string)
         (methods : list (string * method))
         (image_url : option string) (source : string) : M flow :=
  match methods with
  | [] => ret (Continue image_url source)
  | entry :: methods' =>
      f <- try_method cleaned_name entry image_url source ;;
      match f with
      | Break u s => ret (Break u s)
      | Continue u s => for_methods cleaned_name methods' u s
      end
  end.

(** The value of an [Optional[str]] that passed [if image_url]. *)
Definition str_value (image_url : option string) : string :=
  match image_url with
  | Some u => u
  | None => ""
  end.

(** [self.generate_smart_placeholder(product_name)], logged. *)
Definition call_placeholder (product_name : string) : M string :=
  perform (CallPlaceholder product_name)
          (fun w => (Ret (generate_smart_placeholder product_name), w)).

(** *** [fetch_product_image] *)
Definition fetch_product_image (product_name : string) : M ProductImage :=
  let cleaned_name := clean_product_name product_name in
  f <- for_methods cleaned_name search_methods None "placeholder" ;;
  let (image_url, source) :=
    match f with Continue u s => (u, s) | Break u s => (u, s) end in
  p <- (if negb (truthy image_url) then
          url <- call_placeholder product_name ;;
          ret (url, "smart_placeholder")
        else ret (str_value image_url, source)) ;;
  ret (mkProductImage product_name (fst p) (snd p)
                      ("Image of " ++ product_name)).

(** *** [fetch_all_images] *)

Definition sleep : M unit :=
  perform CallSleep (pause http).

(** The [except Exception] branch of the batch loop: the placeholder entry
    is appended to [results] as the [try] block left it. *)
Definition on_error (product_name : string) (results : list ProductImage)
  : M (list ProductImage) :=
  url <- call_placeholder product_name ;;
  ret (results ++ [mkProductImage product_name url "error_placeholder"
                     ("Placeholder for " ++ product_name)])%list.

(** The body of [for i, product_name in enumerate(product_names, 1)].
    [fetch] is [self.fetch_product_image]; [results] is the list built so
    far and the value returned is the list after this round.  The [try]
    block covers the call, [results.append] and the sleep: when the sleep
    raises, the record of the product is already in [results]. *)
Definition batch_round (fetch : string -> M ProductImage)
           (total i : nat) (product_name : string)
           (results : list ProductImage) : M (list ProductImage) :=
  r <- attempt (fetch (strip product_name)) ;;
  match r with
  | Ret product_image =>
      let results := (results ++ [product_image])%list in
      if i <? total then
        d <- attempt sleep ;;
        match d with
        | Ret _ => ret results
        | Raise => on_error product_name results
        end
      else ret results
  | Raise => on_error product_name results
  end.

Fixpoint batch_loop (fetch : string -> M ProductImage)
         (total i : nat) (product_names : list string)
         (results : list ProductImage) : M (list ProductImage) :=
  match product_names with
  | [] => ret results
  | product_name :: rest =>
      results' <- batch_round fetch total i product_name results ;;
      batch_loop fetch total (S i) rest results'
  end.

(** [fetch_all_images] with the per-product method as a parameter, the
    way the call [self.fetch_product_image(...)] is dispatched. *)
Definition fetch_all_images_with (fetch : string -> M ProductImage)
           (product_names : list string) : M (list ProductImage) :=
  let results := [] in
  let total := List.length product_names in
  batch_loop fetch total 1 product_names results.

Definition fetch_all_images (product_names : list string)
  : M (list ProductImage) :=
  fetch_all_images_with fetch_product_image product_names.

End WithHttp.
End Pipeline.

(* ================================================================= *)
(** ** Scripted networks, to run the pipeline on *)

Module Scenario.
Import Fetcher Eff Pipeline.

(** The world counts the requests made so far. *)
Definition answers {A : Type} (r : outcome A)
  : string -> nat -> outcome A * nat :=
  fun _ n => (r, S n).

(** A network whose four search methods answer [d], [b], [s], [w] and whose
    HEAD requests are answered by [h]. *)
Definition network (d b s w : outcome (option string))
           (h : string -> outcome Response) : Http nat :=
  mkHttp nat (answers d) (answers b) (answers s) (answers w)
         (fun url n => (h url, S n)) (fun n => (Ret tt, n)).

Definition start : state nat := mkState 0 [].

Definition not_found : outcome (option string) := Ret None.

Definition found (url : string) : outcome (option string) :=
  Ret (Some url).

(** Every search comes back empty-handed. *)
Definition silent : Http nat :=
  network not_found not_found not_found not_found (fun _ => Raise).

(** Wikimedia Commons has a file; its [Special:FilePath] URL answers the
    HEAD request with a redirect. *)
Definition commons_url : string :=
  "https://commons.wikimedia.org/wiki/Special:FilePath/Popcorn.jpg".

Definition commons_redirect : Http nat :=
  network not_found not_found not_found (found commons_url)
          (fun _ => Ret (mkResponse 302 (Some "text/html; charset=UTF-8"))).

(** DuckDuckGo finds a page that is gone, Bing finds a picture. *)
Definition gone_url : string := "https://shop.example/img/old.jpg".
Definition good_url : string := "https://cdn.example/img/mug".

Definition second_try : Http nat :=
  network (found gone_url) (found good_url) not_found not_found
          (fun url =>
             if String.eqb url gone_url
             then Ret (mkResponse 404 (Some "text/html"))
             else Ret (mkResponse 200 (Some "Image/PNG"))).

(** A HEAD request answered [204 No Content] with an image type. *)
Definition no_content : Http nat :=
  network not_found not_found not_found not_found
          (fun _ => Ret (mkResponse 204 (Some "image/png"))).

(** Every search comes back empty-handed, and the fetcher was built with
    a negative delay range, so that [time.sleep] raises. *)
Definition negative_delay : Http nat :=
  mkHttp nat (answers not_found) (answers not_found) (answers not_found)
         (answers not_found) (fun _ n => (Raise, S n))
         (fun n => (Raise, n)).


End Scenario.

(* ================================================================= *)
(** ** Vocabulary of the statements *)

Module Spec.
Import PyStr Re Fetcher Eff Pipeline.

(** The URL the generator builds for a name classified as [storage]. *)
Definition storage_url (product_name : string) : string :=
  "https://via.placeholder.com/400x300/3498DB/FFFFFF?text=" ++
  quote_plus (placeholder_text product_name).

(** The URL the generator builds for a name classified as [kitchen]. *)
Definition kitchen_url (product_name : string) : string :=
  "https://via.placeholder.com/400x300/2C3E50/ECF0F1?text=" ++
  quote_plus (placeholder_text product_name).

(** The category name and the keywords that select the [kitchen] theme,
    the entry of [themes] that is tried before [storage]. *)
Definition kitchen_words : list string :=
  "kitchen" :: dict_get keywords "kitchen" [].

(** An HTTP status of the 2xx class. *)
Definition success_status (code : Z) : Prop := (200 <= code < 300)%Z.

(** Some entry of [image_extensions] occurs in the lower-cased URL. *)
Definition extension_in (url : string) : Prop :=
  exists ext, In ext image_extensions /\ contains ext (lower url) = true.

(** What the validator answers to an outcome of the HEAD request. *)
Definition verdict (url : string) (r : outcome Response) : bool :=
  match r with
  | Ret response => plausible_image url response
  | Raise => false
  end.

(** The log entries a run over the methods [ms] may write: a search by one
    of these methods for the cleaned name, or a HEAD request. *)
Definition logged_by (ms : list (string * method)) (cleaned_name : string)
           (c : call) : Prop :=
  match c with
  | CallSearch m arg => In m (map snd ms) /\ arg = cleaned_name
  | CallHead _ => True
  | CallPlaceholder _ => False
  | CallSleep => False
  end.

(** What a run of the loop guarantees about the variables it leaves: a
    round that does not [break] keeps [source]; a [break] happens on a
    non-empty URL and sets [source] from the name of a method of [ms]. *)
Definition flow_ok (ms : list (string * method)) (source : string)
           (f : flow) : Prop :=
  match f with
  | Continue _ s' => s' = source
  | Break u' s' =>
      truthy u' = true /\
      exists method_name m, In (method_name, m) ms /\
                            s' = source_of method_name
  end.

(** The value the variable [image_url] has when the loop is left. *)
Definition flow_url (f : flow) : option string :=
  match f with
  | Continue u _ => u
  | Break u _ => u
  end.

(** [url] was discovered in the run of [fetch_product_image] on
    [product_name] that starts in the state [st]: the loop went through the
    methods [pre] without a [break], and the next method, called with the
    cleaned name in the state this left, returned [url]. *)
Definition discovered {World : Type} (http : Http World)
           (product_name : string) (st : state World) (url : string)
  : Prop :=
  exists pre method_name m post u s st_a st_b,
    search_methods = (pre ++ (method_name, m) :: post)%list /\
    for_methods http (clean_product_name product_name) pre
                None "placeholder" st = (Ret (Continue u s), st_a) /\
    invoke http m (clean_product_name product_name) st_a
    = (Ret (Some url), st_b).

(** The values of [source] the specification documents: the names of
    the four methods, lower-cased and underscored, and the two
    placeholder paths. *)
Definition documented_sources : list string :=
  (map (fun entry => source_of (fst entry)) search_methods
   ++ ["smart_placeholder"; "error_placeholder"])%list.

(** The record the [except] branch of the batch loop appends. *)
Definition error_record (product_name : string) : ProductImage :=
  mkProductImage product_name
                 (generate_smart_placeholder product_name)
                 "error_placeholder"
                 ("Placeholder for " ++ product_name).

(** A record of the pipeline for the input [raw] of a batch: the name is
    the stripped input, the alt text is built from it, and the source is
    not that of the [except] branch. *)
Definition pipeline_record (raw : string) (r : ProductImage) : Prop :=
  name r = strip raw /\
  alt_text r = "Image of " ++ strip raw /\
  source r <> "error_placeholder".

(** The records one round of the batch adds for the input [raw]: the
    record of the pipeline, alone or followed by the error record. *)
Definition round_records (raw : string) (g : list ProductImage) : Prop :=
  exists r, pipeline_record raw r /\
            (g = [r] \/ g = [r; error_record raw]).

(** The sleep between two products never raises. *)
Definition calm {World : Type} (http : Http World) : Prop :=
  forall w, fst (pause http w) = Ret tt.

End Spec.

(* ================================================================= *)
(** ** Decoded JSON and the Python operations the search methods apply *)

Module Json.
Import PyStr.

(** What [response.json()] and [json.loads] return.  Numbers are kept
    abstract: the program only ever tests one for truth. *)
#[local] Unset Elimination Schemes.
Inductive json (Num : Type) : Type :=
| JNull : json Num
| JBool : bool -> json Num
| JNum : Num -> json Num
| JStr : string -> json Num
| JArr : list (json Num) -> json Num
| JObj : list (string * json Num) -> json Num.
#[local] Set Elimination Schemes.
Arguments JNull {Num}.
Arguments JBool {Num} _.
Arguments JNum {Num} _.
Arguments JStr {Num} _.
Arguments JArr {Num} _.
Arguments JObj {Num} _.

(** Sequencing of computations that may raise. *)
Definition and_then {A B : Type} (r : outcome A) (k : A -> outcome B)
  : outcome B :=
  match r with
  | Ret a => k a
  | Raise => Raise
  end.

Section Ops.
Context {Num : Type}.

(** [d[key]] on a [dict]: the value, [None] here when the key is absent. *)
Fixpoint lookup (kvs : list (string * json Num)) (key : string)
  : option (json Num) :=
  match kvs with
  | [] => None
  | (k, v) :: kvs' => if String.eqb k key then Some v else lookup kvs' key
  end.

(** [v == key] for a string [key] *)
Definition is_str (key : string) (v : json Num) : bool :=
  match v with
  | JStr s => String.eqb s key
  | _ => false
  end.

(** [key in v] for a string [key]: a key of a dict, an element of a list,
    a substring of a string; a [TypeError] on anything else. *)
Definition py_in (key : string) (v : json Num) : outcome bool :=
  match v with
  | JObj kvs => Ret (existsb (fun kv => String.eqb (fst kv) key) kvs)
  | JArr xs => Ret (existsb (is_str key) xs)
  | JStr s => Ret (contains key s)
  | JNull => Raise
  | JBool _ => Raise
  | JNum _ => Raise
  end.

(** [v[key]] for a string [key]: the value in a dict, a [KeyError] when the
    key is absent, a [TypeError] on anything that is not a dict. *)
Definition py_getitem (v : json Num) (key : string) : outcome (json Num) :=
  match v with
  | JObj kvs =>
      match lookup kvs key with
      | Some x => Ret x
      | None => Raise
      end
  | _ => Raise
  end.

Fixpoint chars (s : string) : list (json Num) :=
  match s with
  | EmptyString => []
  | String c s' => JStr (String c EmptyString) :: chars s'
  end.

(** [for x in v]: the elements of a list, the characters of a string, the
    keys of a dict; a [TypeError] on anything else. *)
Definition py_iter (v : json Num) : outcome (list (json Num)) :=
  match v with
  | JArr xs => Ret xs
  | JStr s => Ret (chars s)
  | JObj kvs => Ret (map (fun kv => JStr (fst kv)) kvs)
  | JNull => Raise
  | JBool _ => Raise
  | JNum _ => Raise
  end.

(** [v[:3]]: defined on lists and strings; an exception on anything else. *)
Definition py_first3 (v : json Num) : outcome (json Num) :=
  match v with
  | JArr xs => Ret (JArr (firstn 3 xs))
  | JStr s => Ret (JStr (take 3 s))
  | _ => Raise
  end.

(** [if v], given the truth value of numbers. *)
Definition py_truth (num_truth : Num -> bool) (v : json Num) : bool :=
  match v with
  | JNull => false
  | JBool b => b
  | JNum n => num_truth n
  | JStr s => negb (is_empty s)
  | JArr xs => match xs with [] => false | _ => true end
  | JObj kvs => match kvs with [] => false | _ => true end
  end.

(** [v.replace(old, '')]: an [AttributeError] unless [v] is a string. *)
Definition py_remove (v : json Num) (old : string) : outcome string :=
  match v with
  | JStr s => Ret (Re.sub (Re.lit false old) "" s)
  | _ => Raise
  end.

End Ops.
End Json.

(* ================================================================= *)
(** ** The four search methods, from the decoded response on *)

(** What the search methods read of the response to a GET request.
    [page_imgs] is [soup.find_all('img', {'src': True})] with
    [img.get('src', '')] taken of each element; [page_links] is
    [soup.find_all('a', {'class': 'm'})] with [container.get('m', '')] taken
    of each; [page_select sel] is [soup.select(sel)] with the pair
    [(img.get('src'), img.get('data-src'))] taken of each.  Where parsing can
    fail the field is an outcome. *)
Record Page (Num : Type) : Type := mkPage {
  page_status : Z;
  page_text : string;
  page_json : outcome (Json.json Num);
  page_imgs : outcome (list string);
  page_links : outcome (list string);
  page_select : string -> outcome (list (option string * option string))
}.
Arguments mkPage {Num} _ _ _ _ _ _.
Arguments page_status {Num} _.
Arguments page_text {Num} _.
Arguments page_json {Num} _.
Arguments page_imgs {Num} _.
Arguments page_links {Num} _.
Arguments page_select {Num} _ _.

(** [self.session.get(url, params=..., timeout=...)], the decoder
    [json.loads] and the truth value of a decoded number. *)
Record Web (World Num : Type) : Type := mkWeb {
  get : string -> list (string * string) -> World
        -> outcome (Page Num) * World;
  json_loads : string -> outcome (Json.json Num);
  num_truth : Num -> bool
}.
Arguments get {World Num} _ _ _ _.
Arguments json_loads {World Num} _ _.
Arguments num_truth {World Num} _ _.

Module Search.
Import PyStr Re Fetcher Eff Json.
Local Open Scope eff_scope.

(** The double quote character. *)
Definition dquote : ascii := ascii_of_nat 34.

(** The pattern [vqd=Q([^Q]+)Q] of the source, where [Q] stands for the
    double quote. *)
Definition vqd_pattern : regex :=
  Seq (lit false "vqd=")
      (Seq (Chr (Ascii.eqb dquote))
           (Seq (Plus (Chr (fun c => negb (Ascii.eqb c dquote))))
                (Chr (Ascii.eqb dquote)))).

(** [re.search] of that pattern in [text] and [group(1)] of the match: the
    text between the two quotes. *)
Definition vqd_token (text : string) : option string :=
  match Re.search vqd_pattern text with
  | Some (b, e) => Some (substring (b + 5) (e - b - 6) text)
  | None => None
  end.

(** [a or b] on two [Optional[str]] *)
Definition py_or (a b : option string) : option string :=
  match a with
  | Some s => if is_empty s then b else a
  | None => b
  end.

Section WithWeb.

Context {World Num : Type}.
Variable web : Web World Num.

Local Abbreviation M := (Eff.M World).

Definition session_get (url : string) (params : list (string * string))
  : M (Page Num) :=
  fun st =>
    let (r, w) := get web url params (world st) in
    (r, mkState w (calls st)).

(** A computation without network access that may raise. *)
Definition pure {A : Type} (r : outcome A) : M A :=
  fun st => (r, st).

(** [try: body / except Exception: handler] *)
Definition try_except {A : Type} (body handler : M A) : M A :=
  r <- attempt body ;;
  match r with
  | Ret a => ret a
  | Raise => handler
  end.

(** *** [search_duckduckgo_images] *)

(** [for result in ...: if 'image' in result: return result['image']];
    [None] when the loop ends without returning. *)
Fixpoint first_image (results : list (json Num))
  : outcome (option (json Num)) :=
  match results with
  | [] => Ret None
  | result :: results' =>
      and_then (py_in "image" result) (fun has =>
      if has then and_then (py_getitem result "image")
                           (fun v => Ret (Some v))
      else first_image results')
  end.

(** The statement [if 'results' in data and data['results']: for ...] *)
Definition results_image (data : json Num) : outcome (option (json Num)) :=
  and_then (py_in "results" data) (fun has =>
  if has then
    and_then (py_getitem data "results") (fun results =>
    if py_truth (num_truth web) results then
      and_then (py_first3 results) (fun first3 =>
      and_then (py_iter first3) first_image)
    else Ret None)
  else Ret None).

(** The value returned is a Python value: [JNull] is [None]. *)
Definition search_duckduckgo_images (product_name : string)
  : M (json Num) :=
  try_except
    (let query := quote_plus product_name in
     let search_url :=
       "https://duckduckgo.com/?q=" ++ query ++ "&iax=images&ia=images" in
     response <- session_get search_url [] ;;
     if (page_status response =? 200)%Z then
       match vqd_token (page_text response) with
       | None => ret JNull
       | Some vqd =>
           let img_url := "https://duckduckgo.com/i.js" in
           let params := [ ("l", "us-en"); ("o", "json");
                           ("q", product_name); ("vqd", vqd);
                           ("f", ",,,"); ("p", "1"); ("v7exp", "a") ] in
           img_response <- session_get img_url params ;;
           if (page_status img_response =? 200)%Z then
             (* try: data = img_response.json() ...
                except json.JSONDecodeError: pass *)
             decoded <- attempt (pure (page_json img_response)) ;;
             match decoded with
             | Raise => ret JNull
             | Ret data =>
                 found <- pure (results_image data) ;;
                 match found with
                 | Some v => ret v
                 | None => ret JNull
                 end
             end
           else ret JNull
       end
     else ret JNull)
    (ret JNull).

(** *** [search_bing_images] *)

(** The two nested [if]s of the loop over [img_elements] *)
Definition bing_src_ok (src : string) : bool :=
  (negb (is_empty src) && any_extension_in (lower src)) &&
  (contains "http" src && negb (contains "bing.com" src)).

(** [for img in img_elements: ... return src] *)
Fixpoint first_bing_src (srcs : list string) : option string :=
  match srcs with
  | [] => None
  | src :: srcs' => if bing_src_ok src then Some src else first_bing_src srcs'
  end.

(** The body of the inner [try] of the loop over [img_containers]:
    [None] when it falls through without returning. *)
Definition murl_of (m_attr : string) : outcome (option (json Num)) :=
  and_then (json_loads web m_attr) (fun data =>
  and_then (py_in "murl" data) (fun has =>
  if has then and_then (py_getitem data "murl") (fun v => Ret (Some v))
  else Ret None)).

(** [for container in img_containers[:3]: ...]; the bare [except] of the
    inner [try] goes on with the next container. *)
Fixpoint first_murl (m_attrs : list string) : option (json Num) :=
  match m_attrs with
  | [] => None
  | m_attr :: m_attrs' =>
      if negb (is_empty m_attr) then
        match murl_of m_attr with
        | Ret (Some v) => Some v
        | Ret None => first_murl m_attrs'
        | Raise => first_murl m_attrs'
        end
      else first_murl m_attrs'
  end.

Definition search_bing_images (product_name : string) : M (json Num) :=
  try_except
    (let query := quote_plus (product_name ++ " product buy shopping") in
     let url := "https://www.bing.com/images/search?q=" ++ query
                ++ "&form=HDRSC2&first=1&tsc=ImageHoverTitle" in
     response <- session_get url [] ;;
     if (page_status response =? 200)%Z then
       img_elements <- pure (page_imgs response) ;;
       match first_bing_src img_elements with
       | Some src => ret (JStr src)
       | None =>
           img_containers <- pure (page_links response) ;;
           match first_murl (firstn 3 img_containers) with
           | Some v => ret v
           | None => ret JNull
           end
       end
     else ret JNull)
    (ret JNull).

(** *** [search_shopping_sites] *)

Record Site : Type := mkSite {
  site_name : string;
  site_url : string;
  img_selector : string
}.

Definition shopping_sites (product_name : string) : list Site :=
  [ mkSite "Amazon"
           ("https://www.amazon.com/s?k=" ++ quote_plus product_name)
           ".s-image";
    mkSite "eBay"
           ("https://www.ebay.com/sch/i.html?_nkw=" ++ quote_plus product_name)
           ".s-item__image img" ].

(** The two nested [if]s of the loop over [imgs[:3]] *)
Definition shop_src_ok (src : option string) : bool :=
  match src with
  | Some s =>
      (negb (is_empty s) && contains "http" s
       && any_extension_in (lower s)) &&
      (negb (contains "thumb" (lower s)) && negb (contains "50x50" s))
  | None => false
  end.

(** [for img in imgs[:3]: src = img.get('src') or img.get('data-src') ...] *)
Fixpoint first_shop_src (imgs : list (option string * option string))
  : option string :=
  match imgs with
  | [] => None
  | (src, data_src) :: imgs' =>
      let src := py_or src data_src in
      if shop_src_ok src then src else first_shop_src imgs'
  end.

(** The body of the [try] for one site: [None] when it falls through. *)
Definition try_site (site : Site) : M (option string) :=
  response <- session_get (site_url site) [] ;;
  if (page_status response =? 200)%Z then
    imgs <- pure (page_select response (img_selector site)) ;;
    ret (first_shop_src (firstn 3 imgs))
  else ret None.

(** [for site in shopping_sites: try: ... except Exception: continue] *)
Fixpoint for_sites (sites : list Site) : M (option string) :=
  match sites with
  | [] => ret None
  | site :: sites' =>
      r <- attempt (try_site site) ;;
      match r with
      | Ret (Some src) => ret (Some src)
      | Ret None => for_sites sites'
      | Raise => for_sites sites'
      end
  end.

Definition search_shopping_sites (product_name : string)
  : M (option string) :=
  for_sites (shopping_sites product_name).

(** *** [search_direct_product_search] *)

Definition file_path_prefix : string :=
  "https://commons.wikimedia.org/wiki/Special:FilePath/".

(** The statement [if 'query' in data and 'search' in data['query']: for
    result in data['query']['search']: ...].  The body of the loop returns
    or raises in its first round. *)
Definition first_file_url (data : json Num) : outcome (option string) :=
  and_then (py_in "query" data) (fun has_query =>
  if has_query then
    and_then (py_getitem data "query") (fun query =>
    and_then (py_in "search" query) (fun has_search =>
    if has_search then
      and_then (py_getitem query "search") (fun hits =>
      and_then (py_iter hits) (fun results =>
      match results with
      | [] => Ret None
      | result :: _ =>
          and_then (py_getitem result "title") (fun t =>
          and_then (py_remove t "File:") (fun title =>
          Ret (Some (file_path_prefix ++ quote_plus title))))
      end))
    else Ret None))
  else Ret None).

(** The unused local [query] of the source is left out. *)
Definition search_direct_product_search (product_name : string)
  : M (option string) :=
  try_except
    (let commons_url := "https://commons.wikimedia.org/w/api.php" in
     let params := [ ("action", "query"); ("format", "json");
                     ("list", "search"); ("srsearch", product_name);
                     ("srnamespace", "6"); ("srlimit", "3") ] in
     response <- session_get commons_url params ;;
     if (page_status response =? 200)%Z then
       data <- pure (page_json response) ;;
       pure (first_file_url data)
     else ret None)
    (ret None).

End WithWeb.
End Search.

(* ================================================================= *)
(** ** The summary printed by [main] *)

Module Summary.
Import PyStr Fetcher.

(** [sum(1 for r in results if 'placeholder' not in r.source)] *)
Definition real_images (results : list ProductImage) : nat :=
  List.length
    (filter (fun r => negb (contains "placeholder" (source r))) results).

(** [sum(1 for r in results if 'placeholder' in r.source)] *)
Definition placeholders (results : list ProductImage) : nat :=
  List.length (filter (fun r => contains "placeholder" (source r)) results).

(** [d[key] = value] on a dictionary kept in insertion order *)
Fixpoint dict_set (d : list (string * nat)) (key : string) (value : nat)
  : list (string * nat) :=
  match d with
  | [] => [(key, value)]
  | (k, v) :: d' =>
      if String.eqb k key then (k, value) :: d'
      else (k, v) :: dict_set d' key value
  end.

(** [for result in results:
       sources[result.source] = sources.get(result.source, 0) + 1],
    from the dictionary [sources] on. *)
Fixpoint tally (results : list ProductImage) (sources : list (string * nat))
  : list (string * nat) :=
  match results with
  | [] => sources
  | result :: results' =>
      tally results'
            (dict_set sources (source result)
                      (dict_get sources (source result) 0 + 1))
  end.

Definition sources_breakdown (results : list ProductImage)
  : list (string * nat) :=
  tally results [].

End Summary.

(* ================================================================= *)
(** ** Vocabulary of the further statements *)

Module Terms.
Import PyStr Re Fetcher Eff Pipeline Spec.

(** Every character of [s] satisfies [p]. *)
Fixpoint all_chars (p : ascii -> bool) (s : string) : bool :=
  match s with
  | EmptyString => true
  | String c s' => p c && all_chars p s'
  end.

Definition is_alnum (c : ascii) : bool :=
  is_upper c || is_lower c || is_digit c.

(** A letter, a digit or [+]. *)
Definition is_alnum_or_plus (c : ascii) : bool :=
  is_alnum c || (code c =? 43).

(** A letter, a digit or one of [: / . ? = %]. *)
Definition is_url_char (c : ascii) : bool :=
  is_alnum c || (code c =? 58) || (code c =? 47) || (code c =? 46)
  || (code c =? 63) || (code c =? 61) || (code c =? 37).

(** The rounds of the greedy repetition [[q]+] as [rmatch] runs them when
    nothing has to match after the repetition. *)
Definition class_rounds (q : ascii -> bool)
  : nat -> nat -> string -> option nat :=
  fix rounds (fuel : nat) (pos : nat) (s : string) : option nat :=
    match fuel with
    | O => None
    | S fuel' =>
        rmatch (Chr q) pos s
               (fun pos' s' =>
                  if pos <? pos' then
                    match rounds fuel' pos' s' with
                    | Some e => Some e
                    | None => Some pos'
                    end
                  else Some pos')
    end.

(** The same rounds when [k] has to match after the repetition. *)
Definition class_rounds_then (q : ascii -> bool)
           (k : nat -> string -> option nat)
  : nat -> nat -> string -> option nat :=
  fix rounds (fuel : nat) (pos : nat) (s : string) : option nat :=
    match fuel with
    | O => None
    | S fuel' =>
        rmatch (Chr q) pos s
               (fun pos' s' =>
                  if pos <? pos' then
                    match rounds fuel' pos' s' with
                    | Some e => Some e
                    | None => k pos' s'
                    end
                  else k pos' s')
    end.

(** [s] does not start with a character of the class [q]. *)
Definition no_head (q : ascii -> bool) (s : string) : Prop :=
  match s with
  | EmptyString => True
  | String c _ => q c = false
  end.

(** What the leading pattern of [clean_product_name] takes off, up to the
    whitespace that follows: "Large", "Medium" or "Small", or "Set Of "
    and a number, in any case of the letters. *)
Definition is_size_prefix (p : string) : Prop :=
  In (lower p) ["large"; "medium"; "small"] \/
  exists w d, p = w ++ d /\ lower w = "set of " /\
              d <> "" /\ all_chars is_digit d = true.

(** The colours of the [home] theme, the default. *)
Definition home_url (product_name : string) : string :=
  "https://via.placeholder.com/400x300/27AE60/FFFFFF?text=" ++
  quote_plus (placeholder_text product_name).

(** The values of [source] that name a search method. *)
Definition method_sources : list string :=
  map (fun entry => source_of (fst entry)) search_methods.

(** The values of [source] [fetch_product_image] can produce. *)
Definition pipeline_sources : list string :=
  (method_sources ++ ["smart_placeholder"; "placeholder"])%list.

Definition is_search (c : call) : bool :=
  match c with CallSearch _ _ => true | _ => false end.

Definition is_head (c : call) : bool :=
  match c with CallHead _ => true | _ => false end.

Definition is_sleep (c : call) : bool :=
  match c with CallSleep => true | _ => false end.

(** A search method comes back without a usable URL: it raised, returned
    [None] or returned the empty string. *)
Definition finds_nothing (r : outcome (option string)) : Prop :=
  match r with
  | Raise => True
  | Ret None => True
  | Ret (Some u) => u = ""
  end.

(** No search of the network [http] ever finds anything. *)
Definition barren {World : Type} (http : Http World) : Prop :=
  forall (arg : string) (w : World),
    finds_nothing (fst (duckduckgo http arg w)) /\
    finds_nothing (fst (bing http arg w)) /\
    finds_nothing (fst (shopping http arg w)) /\
    finds_nothing (fst (wikimedia http arg w)).

(** The number of records of [results] whose source is [s]. *)
Definition count_source (s : string) (results : list ProductImage) : nat :=
  List.length (filter (fun r => String.eqb (source r) s) results).

(** The sum of the counts of a tally. *)
Definition total_count (d : list (string * nat)) : nat :=
  fold_right (fun kv acc => snd kv + acc) 0 d.

(** DuckDuckGo finds a picture straight away. *)
Definition first_hit : Http nat :=
  Scenario.network (Scenario.found Scenario.good_url)
                   (Scenario.found Scenario.gone_url)
                   Scenario.not_found Scenario.not_found
                   (fun _ => Ret (mkResponse 200 (Some "image/jpeg"))).

End Terms.

(* ================================================================= *)
(** ** Scripted web pages, to run the search methods on *)

Module Pages.
Import PyStr Fetcher Eff Json Search.

(** A page on which nothing is found. *)
Definition blank : Page unit :=
  mkPage 200 "" Raise (Ret []) (Ret []) (fun _ => Ret []).

Definition serve (f : string -> outcome (Page unit)) : Web nat unit :=
  mkWeb nat unit (fun url _ n => (f url, S n)) (fun _ => Raise)
        (fun _ => true).

(** A shop whose result page shows a thumbnail first and a picture second. *)
Definition picture : string := "https://img.example/I/71abc.JPG".
Definition thumbnail : string := "https://img.example/thumb/71abc.jpg".

Definition shelf : Page unit :=
  mkPage 200 "" Raise (Ret []) (Ret [])
         (fun _ => Ret [(Some thumbnail, None); (None, Some picture)]).

(** Every site answers with the shelf. *)
Definition shops_up : Web nat unit := serve (fun _ => Ret shelf).

(** Amazon cannot be reached, eBay answers with the shelf. *)
Definition amazon_down : Web nat unit :=
  serve (fun url =>
           if startswith "https://www.amazon.com/" url then Raise
           else Ret shelf).

(** The answer of the Commons search API with two hits. *)
Definition commons_hits : Page unit :=
  mkPage 200 ""
         (Ret (JObj [("batchcomplete", JStr "");
                     ("query",
                      JObj [("search",
                             JArr [JObj [("ns", JNum tt);
                                         ("title",
                                          JStr "File:Popcorn bowl.jpg")];
                                   JObj [("title",
                                          JStr "File:Other.png")]])])]))
         (Ret []) (Ret []) (fun _ => Ret []).

Definition commons_up : Web nat unit := serve (fun _ => Ret commons_hits).

(** The DuckDuckGo result page, with its token, and the answer of the
    image endpoint. *)
Definition token_page : Page unit :=
  mkPage 200
         ("<script>x('/d.js?q=mug&vqd="
          ++ String dquote ("4-1234567" ++ String dquote "&p=1');</script>"))
         Raise (Ret []) (Ret []) (fun _ => Ret []).

Definition image_answer : Page unit :=
  mkPage 200 ""
         (Ret (JObj [("results",
                      JArr [JObj [("title", JStr "no picture")];
                            JObj [("image", JStr picture)];
                            JObj [("image", JStr thumbnail)]])]))
         (Ret []) (Ret []) (fun _ => Ret []).

Definition duck_up : Web nat unit :=
  serve (fun url =>
           if String.eqb url "https://duckduckgo.com/i.js"
           then Ret image_answer else Ret token_page).

End Pages.

(* ================================================================= *)
(** ** Properties of the name normaliser *)

Module NormalizerFacts.
Import PyStr Re Fetcher.

(** [re.sub] leaves a subject alone in which the pattern matches nowhere
    from [pos] on. *)
Lemma sub_from_no_match (r : regex) (repl : string) :
  forall (s : string) (pos : nat),
    search_from r pos s = None -> sub_from r repl pos 0 s = s.
Proof.
  induction s as [|c s IH]; intros pos Hnone.
  - reflexivity.
  - cbn [search_from] in Hnone. cbn [sub_from].
    destruct (match_at r pos (String c s)) as [e|]; [discriminate|].
    now rewrite IH.
Qed.

Lemma sub_no_match (r : regex) (repl s : string) :
  search r s = None -> sub r repl s = s.
Proof. apply sub_from_no_match. Qed.

(** C8, as the code has it: [clean_product_name] is a total function; on a
    name in which neither the leading quantity/size pattern nor the
    trailing descriptor pattern matches it returns the name with the
    surrounding whitespace stripped, hence the name itself when the name
    has no surrounding whitespace; it maps "Popcorn Holder" to "Popcorn",
    and cleaning that result again changes nothing. *)
Theorem clean_product_name_no_match :
  (forall name : string,
      search prefix_pattern name = None ->
      search suffix_pattern name = None ->
      clean_product_name name = strip name /\
      (strip name = name -> clean_product_name name = name)) /\
  clean_product_name "Popcorn Holder" = "Popcorn" /\
  clean_product_name (clean_product_name "Popcorn Holder")
  = clean_product_name "Popcorn Holder".
Proof.
  split; [|split; reflexivity].
  intros name Hpre Hsuf. unfold clean_product_name.
  rewrite (sub_no_match _ _ _ Hpre), (sub_no_match _ _ _ Hsuf).
  split; [reflexivity | intros ->; reflexivity].
Qed.

Lemma clean_product_name_no_match_witness :
  clean_product_name "Gumball Coat Rack" = strip "Gumball Coat Rack" /\
  (strip "Gumball Coat Rack" = "Gumball Coat Rack" ->
   clean_product_name "Gumball Coat Rack" = "Gumball Coat Rack").
Proof.
  apply (proj1 clean_product_name_no_match "Gumball Coat Rack");
    reflexivity.
Defined.

(** C8 as stated fails: in " Popcorn" no pattern matches, and the result
    is not the input, because of the final [strip()]. *)
Lemma clean_product_name_strips_unmatched :
  search prefix_pattern " Popcorn" = None /\
  search suffix_pattern " Popcorn" = None /\
  clean_product_name " Popcorn" = "Popcorn" /\
  clean_product_name " Popcorn" <> " Popcorn".
Proof. repeat split; try reflexivity. discriminate. Qed.

(** Names of the program's own product list, run through the normaliser. *)
Example clean_set_of_twelve :
  clean_product_name "Set Of 12 Fairy Cake Baking Cases"
  = "Fairy Cake Baking Cases".
Proof. reflexivity. Qed.

Example clean_large_and_style :
  clean_product_name "Large Chinese Style Scissor" = "Chinese Style Scissor".
Proof. reflexivity. Qed.

Example clean_set_of_needs_a_number :
  clean_product_name "Set Of Tea Coffee Sugar Tins Pantry"
  = "Set Of Tea Coffee Sugar Tins Pantry".
Proof. reflexivity. Qed.

(** Only one trailing descriptor is removed per call, so the normaliser is
    not idempotent on every name. *)
Example clean_metal_sign_twice :
  clean_product_name "Chocolate This Way Metal Sign"
  = "Chocolate This Way Metal" /\
  clean_product_name (clean_product_name "Chocolate This Way Metal Sign")
  = "Chocolate This Way".
Proof. split; reflexivity. Qed.

End NormalizerFacts.

(* ================================================================= *)
(** ** Properties of the placeholder generator *)

Module PlaceholderFacts.
Import PyStr Re Fetcher Spec.

Lemma kitchen_no_match (product_lower : string) :
  (forall w, In w kitchen_words -> contains w product_lower = false) ->
  theme_matches "kitchen" product_lower = false.
Proof.
  intros H. unfold theme_matches.
  rewrite (H "kitchen") by (left; reflexivity). cbn [orb].
  apply not_true_is_false. intros Hex.
  apply existsb_exists in Hex. destruct Hex as [w [Hin Hw]].
  rewrite (H w) in Hw by (right; exact Hin). discriminate.
Qed.

(** The generated URL always starts with the scheme of the placeholder
    service, so it is never empty. *)
Lemma generate_smart_placeholder_not_empty (product_name : string) :
  is_empty (generate_smart_placeholder product_name) = false.
Proof. reflexivity. Qed.

Lemma kitchen_match (product_lower : string) :
  (exists w, In w kitchen_words /\ contains w product_lower = true) ->
  theme_matches "kitchen" product_lower = true.
Proof.
  intros (w & Hin & Hw). unfold theme_matches.
  destruct Hin as [<-|Hin].
  - rewrite Hw. reflexivity.
  - apply orb_true_iff. right. apply existsb_exists. eauto.
Qed.

(** C3, as the code has it: a name whose lower-case form contains
    "storage" and contains neither "kitchen" nor any keyword of the
    kitchen theme (mug, tea, coffee, sugar, dispenser, jar, cake, tin) gets
    the storage colours 3498DB/FFFFFF; a name whose lower-case form
    contains "kitchen" or one of these keywords gets the kitchen colours
    2C3E50/ECF0F1, whether it contains "storage" or not. *)
Theorem storage_theme_unless_kitchen (product_name : string) :
  (contains "storage" (lower product_name) = true ->
   (forall w, In w kitchen_words ->
              contains w (lower product_name) = false) ->
   generate_smart_placeholder product_name = storage_url product_name) /\
  ((exists w, In w kitchen_words /\
              contains w (lower product_name) = true) ->
   generate_smart_placeholder product_name = kitchen_url product_name).
Proof.
  split.
  - intros Hstorage Hkitchen.
    unfold generate_smart_placeholder, placeholder_theme, storage_url.
    assert (Hpick : forall theme,
               pick_theme themes (lower product_name) theme
               = mkStyle "3498DB" "FFFFFF").
    { intros theme. unfold themes. cbn [pick_theme].
      rewrite (kitchen_no_match _ Hkitchen).
      unfold theme_matches. rewrite Hstorage. reflexivity. }
    rewrite Hpick. reflexivity.
  - intros Hkitchen.
    unfold generate_smart_placeholder, placeholder_theme, kitchen_url.
    assert (Hpick : forall theme,
               pick_theme themes (lower product_name) theme
               = mkStyle "2C3E50" "ECF0F1").
    { intros theme. unfold themes. cbn [pick_theme].
      rewrite (kitchen_match _ Hkitchen). reflexivity. }
    rewrite Hpick. reflexivity.
Qed.

Lemma storage_theme_unless_kitchen_witness :
  generate_smart_placeholder "Wooden Storage Box"
  = storage_url "Wooden Storage Box" /\
  generate_smart_placeholder "Storage Tin Vintage Leaf"
  = kitchen_url "Storage Tin Vintage Leaf".
Proof.
  split.
  - apply (proj1 (storage_theme_unless_kitchen "Wooden Storage Box")).
    + reflexivity.
    + intros w Hin. unfold kitchen_words in Hin. cbn in Hin.
      repeat (destruct Hin as [<- | Hin]; [reflexivity|]).
      destruct Hin.
  - apply (proj2 (storage_theme_unless_kitchen "Storage Tin Vintage Leaf")).
    exists "tin". split; [|reflexivity].
    unfold kitchen_words. cbn. tauto.
Defined.

(** C3 as stated fails on the name the specification gives as its
    example: "Storage Tin Vintage Leaf" contains "tin", a keyword of the
    kitchen theme, which comes first in [themes]. *)
Lemma storage_tin_gets_kitchen_theme :
  contains "storage" (lower "Storage Tin Vintage Leaf") = true /\
  generate_smart_placeholder "Storage Tin Vintage Leaf"
  = "https://via.placeholder.com/400x300/2C3E50/ECF0F1?text=Storage%2BTin%2BVintage%2BLeaf" /\
  contains "3498DB/FFFFFF"
           (generate_smart_placeholder "Storage Tin Vintage Leaf") = false /\
  generate_smart_placeholder "Storage Tin Vintage Leaf"
  <> storage_url "Storage Tin Vintage Leaf".
Proof. repeat split; try reflexivity. discriminate. Qed.

Example placeholder_door_hanger :
  generate_smart_placeholder "Door Hanger Mum + Dads Room"
  = "https://via.placeholder.com/400x300/27AE60/FFFFFF?text=Door%2BHanger%2BMum%2BDads%2BRoom".
Proof. reflexivity. Qed.

Example placeholder_text_is_cut_at_25 :
  placeholder_text "Small Folding Scissor(Pointed Edge)"
  = "Small+Folding+ScissorPoin".
Proof. reflexivity. Qed.

End PlaceholderFacts.

(* ================================================================= *)
(** ** Properties of the URL validator *)

Module ValidatorFacts.
Import PyStr Fetcher Eff Pipeline Spec.

Section WithHttp.
Context {World : Type} (http : Http World).

(** One run of the validator: exactly one HEAD request, and a normal
    return whatever that request does. *)
Lemma validate_image_url_run (url : string) (st : state World) :
  validate_image_url http url st
  = (Ret (verdict url (fst (head http url (world st)))),
     mkState (snd (head http url (world st)))
             (calls st ++ [CallHead url])).
Proof.
  unfold validate_image_url, session_head, attempt, bind, perform, ret.
  destruct (head http url (world st)) as [[response|] w]; reflexivity.
Qed.

Lemma plausible_image_true (url : string) (response : Response) :
  plausible_image url response = true ->
  status_code response = 200%Z /\
  (contains "image" (lower (header_content_type response)) = true \/
   extension_in url).
Proof.
  unfold plausible_image. intros H.
  apply andb_true_iff in H. destruct H as [Hcode Hkind].
  split; [now apply Z.eqb_eq|].
  apply orb_true_iff in Hkind. destruct Hkind as [Hct|Hext].
  - now left.
  - right. unfold any_extension_in in Hext.
    apply existsb_exists in Hext. exact Hext.
Qed.

(** C6: the validator always returns a boolean and never raises; it
    returns [True] only after a HEAD response whose status is a success
    status and whose content type contains "image" or whose URL contains
    one of the image extensions; when the HEAD request raises it returns
    [False]. *)
Theorem validate_image_url_sound (url : string) (st : state World) :
  (exists b st', validate_image_url http url st = (Ret b, st')) /\
  (forall st',
      validate_image_url http url st = (Ret true, st') ->
      exists response w,
        head http url (world st) = (Ret response, w) /\
        success_status (status_code response) /\
        (contains "image" (lower (header_content_type response)) = true \/
         extension_in url)) /\
  (forall w,
      head http url (world st) = (Raise, w) ->
      validate_image_url http url st
      = (Ret false, mkState w (calls st ++ [CallHead url]))).
Proof.
  rewrite validate_image_url_run. repeat split.
  - eauto.
  - intros st' H. injection H as Hv _.
    destruct (head http url (world st)) as [[response|] w];
      cbn in Hv; [|discriminate].
    apply plausible_image_true in Hv. destruct Hv as [Hcode Hkind].
    exists response, w. repeat split; try assumption.
    all: rewrite Hcode; lia.
  - intros w H. rewrite H. reflexivity.
Qed.

(** C10: a HEAD response whose status code is not exactly 200 is
    rejected, whatever its content type and whatever the URL. *)
Theorem validate_image_url_only_200 (url : string) (st : state World)
        (response : Response) (w : World) :
  head http url (world st) = (Ret response, w) ->
  status_code response <> 200%Z ->
  validate_image_url http url st
  = (Ret false, mkState w (calls st ++ [CallHead url])).
Proof.
  intros Hhead Hcode. rewrite validate_image_url_run, Hhead. cbn.
  unfold plausible_image.
  apply Z.eqb_neq in Hcode. rewrite Hcode. reflexivity.
Qed.

End WithHttp.

Lemma validate_image_url_sound_witness :
  (exists response w,
      head Scenario.second_try Scenario.good_url 0
      = (Ret response, w) /\
      success_status (status_code response) /\
      (contains "image" (lower (header_content_type response)) = true \/
       extension_in Scenario.good_url)) /\
  validate_image_url Scenario.silent "http://shop.example/a.jpg"
                     Scenario.start
  = (Ret false, mkState 1 [CallHead "http://shop.example/a.jpg"]).
Proof.
  split.
  - apply (proj1 (proj2 (validate_image_url_sound
                           Scenario.second_try Scenario.good_url
                           Scenario.start))
                 (mkState 1 [CallHead Scenario.good_url])).
    reflexivity.
  - apply (proj2 (proj2 (validate_image_url_sound
                           Scenario.silent "http://shop.example/a.jpg"
                           Scenario.start)) 1).
    reflexivity.
Defined.

Lemma validate_image_url_only_200_witness :
  validate_image_url Scenario.no_content "https://cdn.example/a.jpg"
                     Scenario.start
  = (Ret false, mkState 1 [CallHead "https://cdn.example/a.jpg"]).
Proof.
  apply (validate_image_url_only_200
           Scenario.no_content "https://cdn.example/a.jpg" Scenario.start
           (mkResponse 204 (Some "image/png")) 1).
  - reflexivity.
  - discriminate.
Defined.

End ValidatorFacts.

(* ================================================================= *)
(** ** Properties of the per-product pipeline *)

Module PipelineFacts.
Import PyStr Fetcher Eff Pipeline Spec ValidatorFacts PlaceholderFacts.

Lemma logged_by_incl (ms ms' : list (string * method)) (cleaned : string) :
  incl ms ms' ->
  forall l, Forall (logged_by ms cleaned) l ->
            Forall (logged_by ms' cleaned) l.
Proof.
  intros Hincl l Hl. eapply Forall_impl; [|exact Hl].
  intros [m arg|url|n|]; cbn; try tauto.
  intros [Hin Harg]. split; [|exact Harg].
  apply in_map_iff in Hin. destruct Hin as [[n' m'] [Heq Hin]].
  cbn in Heq. subst m'. apply in_map_iff. exists (n', m). split; auto.
Qed.

Lemma logged_no_placeholder (ms : list (string * method))
      (cleaned : string) (l : list call) :
  Forall (logged_by ms cleaned) l ->
  forall n, ~ In (CallPlaceholder n) l.
Proof.
  intros Hl n Hin. rewrite Forall_forall in Hl.
  exact (Hl _ Hin).
Qed.

Lemma logged_search_in (ms : list (string * method))
      (cleaned : string) (l : list call) (m : method) :
  Forall (logged_by ms cleaned) l ->
  In (CallSearch m cleaned) l -> In m (map snd ms).
Proof.
  intros Hl Hin. rewrite Forall_forall in Hl.
  exact (proj1 (Hl _ Hin)).
Qed.

Section WithHttp.
Context {World : Type} (http : Http World).

(** A search method makes one logged call and leaves the rest of the
    log alone. *)
Lemma invoke_log (m : method) (arg : string) (st : state World) :
  calls (snd (invoke http m arg st)) = (calls st ++ [CallSearch m arg])%list.
Proof.
  destruct m; cbn;
    unfold search_duckduckgo_images, search_bing_images,
           search_shopping_sites, search_direct_product_search, perform.
  - destruct (duckduckgo http arg (world st)); reflexivity.
  - destruct (bing http arg (world st)); reflexivity.
  - destruct (shopping http arg (world st)); reflexivity.
  - destruct (wikimedia http arg (world st)); reflexivity.
Qed.

Lemma validate_log (url : string) (st st' : state World) (b : bool) :
  validate_image_url http url st = (Ret b, st') ->
  calls st' = (calls st ++ [CallHead url])%list.
Proof.
  rewrite validate_image_url_run. intros H. injection H as _ <-.
  reflexivity.
Qed.

(** One round of the loop, case by case. *)
Lemma try_method_run (cleaned method_name : string) (m : method)
      (image_url : option string) (source : string) (st : state World) :
  try_method http cleaned (method_name, m) image_url source st
  = match invoke http m cleaned st with
    | (Raise, st1) => (Ret (Continue image_url source), st1)
    | (Ret None, st1) => (Ret (Continue None source), st1)
    | (Ret (Some url), st1) =>
        if is_empty url then (Ret (Continue (Some url) source), st1)
        else
          match validate_image_url http url st1 with
          | (Ret true, st2) =>
              (Ret (Break (Some url) (source_of method_name)), st2)
          | (_, st2) => (Ret (Continue (Some url) source), st2)
          end
    end.
Proof.
  unfold try_method, bind, attempt, ret.
  destruct (invoke http m cleaned st) as [[[url|]|] st1];
    cbn; try reflexivity.
  destruct (is_empty url); cbn; try reflexivity.
  destruct (validate_image_url http url st1) as [[[|]|] st2];
    reflexivity.
Qed.

Lemma try_method_spec (cleaned method_name : string) (m : method)
      (image_url : option string) (source : string) (st : state World) :
  exists f st' l,
    try_method http cleaned (method_name, m) image_url source st
    = (Ret f, st') /\
    calls st' = (calls st ++ l)%list /\
    Forall (logged_by [(method_name, m)] cleaned) l /\
    flow_ok [(method_name, m)] source f.
Proof.
  rewrite try_method_run.
  pose proof (invoke_log m cleaned st) as Hlog.
  assert (Hsearch : logged_by [(method_name, m)] cleaned
                              (CallSearch m cleaned))
    by (cbn; auto).
  destruct (invoke http m cleaned st) as [[[url|]|] st1]; cbn in Hlog.
  - destruct (is_empty url) eqn:Hempty.
    + exists (Continue (Some url) source), st1, [CallSearch m cleaned].
      repeat split; auto.
    + rewrite validate_image_url_run. cbn [calls].
      set (st2 := mkState _ _).
      assert (Hst2 : calls st2
                     = (calls st ++ [CallSearch m cleaned; CallHead url])%list).
      { unfold st2. cbn. rewrite Hlog, <- app_assoc. reflexivity. }
      assert (Hl : Forall (logged_by [(method_name, m)] cleaned)
                          [CallSearch m cleaned; CallHead url]).
      { repeat constructor; auto. }
      destruct (verdict url _).
      * exists (Break (Some url) (source_of method_name)), st2,
          [CallSearch m cleaned; CallHead url].
        repeat split; auto.
        -- cbn. now rewrite Hempty.
        -- exists method_name, m. cbn. auto.
      * exists (Continue (Some url) source), st2,
          [CallSearch m cleaned; CallHead url].
        repeat split; auto.
  - exists (Continue None source), st1, [CallSearch m cleaned].
    repeat split; auto.
  - exists (Continue image_url source), st1, [CallSearch m cleaned].
    repeat split; auto.
Qed.

(** The loop over any list of methods returns normally, logs only the
    searches of these methods and HEAD requests, and leaves [source]
    alone unless it breaks. *)
Lemma for_methods_spec (cleaned : string) :
  forall (ms : list (string * method)) (image_url : option string)
         (source : string) (st : state World),
  exists f st' l,
    for_methods http cleaned ms image_url source st = (Ret f, st') /\
    calls st' = (calls st ++ l)%list /\
    Forall (logged_by ms cleaned) l /\
    flow_ok ms source f.
Proof.
  induction ms as [|[method_name m] ms IH]; intros image_url source st.
  - exists (Continue image_url source), st, [].
    cbn. rewrite app_nil_r. repeat split; auto.
  - cbn [for_methods]. unfold bind.
    destruct (try_method_spec cleaned method_name m image_url source st)
      as (f & st1 & l1 & Hrun & Hlog1 & Hl1 & Hf).
    rewrite Hrun.
    apply (logged_by_incl _ ((method_name, m) :: ms)) in Hl1;
      [|intros x [<-|[]]; left; reflexivity].
    destruct f as [u s|u s].
    + cbn in Hf. subst s.
      destruct (IH u source st1) as (f & st2 & l2 & Hrun2 & Hlog2 & Hl2 & Hf2).
      exists f, st2, (l1 ++ l2)%list. rewrite Hrun2.
      repeat split.
      * rewrite Hlog2, Hlog1, app_assoc. reflexivity.
      * apply Forall_app. split; [exact Hl1|].
        eapply logged_by_incl; [|exact Hl2].
        intros x Hx. right. exact Hx.
      * destruct f as [u' s'|u' s']; cbn in *; [exact Hf2|].
        destruct Hf2 as [Ht (n' & m' & Hin & Hs)].
        split; [exact Ht|]. exists n', m'. auto.
    + exists (Break u s), st1, l1. unfold ret.
      repeat split; auto.
      * apply Hf.
      * destruct Hf as [_ (n' & m' & [Heq|[]] & Hs)].
        exists n', m'. split; [left; exact Heq | exact Hs].
Qed.

(** The loop over [a ++ b] is the loop over [a] followed, unless it
    broke, by the loop over [b]. *)
Lemma for_methods_app (cleaned : string) :
  forall (a b : list (string * method)) (image_url : option string)
         (source : string) (st : state World),
    for_methods http cleaned (a ++ b) image_url source st
    = match for_methods http cleaned a image_url source st with
      | (Ret (Continue u s), st') => for_methods http cleaned b u s st'
      | other => other
      end.
Proof.
  induction a as [|[method_name m] a IH]; intros b image_url source st.
  - reflexivity.
  - cbn [app for_methods]. unfold bind.
    destruct (try_method http cleaned (method_name, m) image_url source st)
      as [[[u s|u s]|] st1]; cbn; try reflexivity.
    apply IH.
Qed.

(** [fetch_product_image] after its loop. *)
Lemma fetch_product_image_run (product_name : string)
      (st st1 : state World) (f : flow) :
  for_methods http (clean_product_name product_name) search_methods
              None "placeholder" st = (Ret f, st1) ->
  fetch_product_image http product_name st
  = let (image_url, source) :=
      match f with Continue u s => (u, s) | Break u s => (u, s) end in
    if truthy image_url then
      (Ret (mkProductImage product_name (str_value image_url) source
                           ("Image of " ++ product_name)), st1)
    else
      (Ret (mkProductImage product_name
                           (generate_smart_placeholder product_name)
                           "smart_placeholder"
                           ("Image of " ++ product_name)),
       mkState (world st1) (calls st1 ++ [CallPlaceholder product_name])).
Proof.
  intros Hloop. unfold fetch_product_image, bind. rewrite Hloop.
  destruct f as [u s|u s]; destruct (truthy u); reflexivity.
Qed.

(** Where the value of [image_url] comes from when the loop is left: it is
    the value the loop was entered with, or what one of the methods
    returned, called in the state the methods before it left. *)
Lemma for_methods_origin (cleaned : string) :
  forall (ms : list (string * method)) (u0 : option string) (s0 : string)
         (st st' : state World) (f : flow),
    for_methods http cleaned ms u0 s0 st = (Ret f, st') ->
    flow_url f = u0 \/
    exists pre method_name m post u s st_a st_b,
      ms = (pre ++ (method_name, m) :: post)%list /\
      for_methods http cleaned pre u0 s0 st = (Ret (Continue u s), st_a) /\
      invoke http m cleaned st_a = (Ret (flow_url f), st_b).
Proof.
  induction ms as [|[method_name m] ms IH]; intros u0 s0 st st' f Hrun.
  - cbn in Hrun. injection Hrun as <- <-. left. reflexivity.
  - assert (Hhere : forall st_b,
               invoke http m cleaned st = (Ret (flow_url f), st_b) ->
               exists pre method_name0 m0 post u s st_a st_b0,
                 (method_name, m) :: ms
                 = (pre ++ (method_name0, m0) :: post)%list /\
                 for_methods http cleaned pre u0 s0 st
                 = (Ret (Continue u s), st_a) /\
                 invoke http m0 cleaned st_a = (Ret (flow_url f), st_b0)).
    { intros st_b H. exists [], method_name, m, ms, u0, s0, st, st_b.
      repeat split. exact H. }
    assert (Hlater : forall u1 st1,
               try_method http cleaned (method_name, m) u0 s0 st
               = (Ret (Continue u1 s0), st1) ->
               (exists pre method_name0 m0 post u s st_a st_b0,
                   ms = (pre ++ (method_name0, m0) :: post)%list /\
                   for_methods http cleaned pre u1 s0 st1
                   = (Ret (Continue u s), st_a) /\
                   invoke http m0 cleaned st_a = (Ret (flow_url f), st_b0)) ->
               exists pre method_name0 m0 post u s st_a st_b0,
                 (method_name, m) :: ms
                 = (pre ++ (method_name0, m0) :: post)%list /\
                 for_methods http cleaned pre u0 s0 st
                 = (Ret (Continue u s), st_a) /\
                 invoke http m0 cleaned st_a = (Ret (flow_url f), st_b0)).
    { intros u1 st1 Htry (pre & n0 & m0 & post & u & s & st_a & st_b & -> & Hpre & Hinv).
      exists ((method_name, m) :: pre), n0, m0, post, u, s, st_a, st_b.
      split; [reflexivity|]. split; [|exact Hinv].
      cbn [for_methods]. unfold bind. rewrite Htry. exact Hpre. }
    cbn [for_methods] in Hrun. unfold bind in Hrun.
    pose proof (try_method_run cleaned method_name m u0 s0 st) as Htry.
    destruct (invoke http m cleaned st) as [[[url|]|] st1] eqn:Hinv.
    + destruct (is_empty url) eqn:Hempty.
      * rewrite Htry in Hrun.
        destruct (IH _ _ _ _ _ Hrun) as [Hu|Hex].
        -- right. apply (Hhere st1). now rewrite Hu.
        -- right. exact (Hlater _ _ Htry Hex).
      * destruct (validate_image_url http url st1) as [[[|]|] st2] eqn:Hval;
          rewrite Htry in Hrun.
        -- unfold ret in Hrun. injection Hrun as <- <-.
           right. apply (Hhere st1). reflexivity.
        -- destruct (IH _ _ _ _ _ Hrun) as [Hu|Hex].
           ++ right. apply (Hhere st1). now rewrite Hu.
           ++ right. exact (Hlater _ _ Htry Hex).
        -- destruct (IH _ _ _ _ _ Hrun) as [Hu|Hex].
           ++ right. apply (Hhere st1). now rewrite Hu.
           ++ right. exact (Hlater _ _ Htry Hex).
    + rewrite Htry in Hrun.
      destruct (IH _ _ _ _ _ Hrun) as [Hu|Hex].
      * right. apply (Hhere st1). now rewrite Hu.
      * right. exact (Hlater _ _ Htry Hex).
    + rewrite Htry in Hrun.
      destruct (IH _ _ _ _ _ Hrun) as [Hu|Hex].
      * left. exact Hu.
      * right. exact (Hlater _ _ Htry Hex).
Qed.

(** C4: whatever the network does, [fetch_product_image] returns a
    record; the [image_url] of that record is not the empty string, and it
    is either the generated placeholder URL for the name as given, with the
    source "smart_placeholder", or a URL that one of the search methods
    returned in this run. *)
Theorem fetch_product_image_url_not_empty (product_name : string)
        (st : state World) :
  exists r st',
    fetch_product_image http product_name st = (Ret r, st') /\
    image_url r <> "" /\
    ((source r = "smart_placeholder" /\
      image_url r = generate_smart_placeholder product_name) \/
     discovered http product_name st (image_url r)).
Proof.
  destruct (for_methods_spec (clean_product_name product_name)
                             search_methods None "placeholder" st)
    as (f & st1 & l & Hloop & _ & _ & _).
  rewrite (fetch_product_image_run _ _ _ _ Hloop).
  assert (Hvalue : forall u, truthy u = true ->
                             u = Some (str_value u) /\ str_value u <> "").
  { intros [[|c u]|]; cbn; try discriminate. intros _. split; congruence. }
  assert (Hthen : forall u s,
             flow_url f = u -> truthy u = true ->
             exists r st',
               (Ret (mkProductImage product_name (str_value u) s
                                    ("Image of " ++ product_name)), st1)
               = (Ret r, st') /\
               image_url r <> "" /\
               ((source r = "smart_placeholder" /\
                 image_url r = generate_smart_placeholder product_name) \/
                discovered http product_name st (image_url r))).
  { intros u s Hf Ht. destruct (Hvalue u Ht) as [Hu Hne].
    eexists _, _. split; [reflexivity|]. cbn [image_url source].
    split; [exact Hne|]. right.
    destruct (for_methods_origin _ _ _ _ _ _ _ Hloop) as [Hnone|Hex].
    - rewrite Hf in Hnone. rewrite Hnone in Ht. discriminate Ht.
    - destruct Hex as (pre & n & m & post & u' & s' & st_a & st_b
                       & Hsplit & Hpre & Hinv).
      rewrite Hf, Hu in Hinv.
      exists pre, n, m, post, u', s', st_a, st_b. auto. }
  destruct f as [u s|u s]; destruct (truthy u) eqn:Ht;
    try exact (Hthen u s eq_refl Ht);
    eexists _, _; (split; [reflexivity|]); cbn [image_url source];
    (split; [discriminate|left; split; reflexivity]).
Qed.

(** C9: when the first three methods have not resolved the product, the
    fourth returns a URL and the validator rejects it, the record
    carries that URL with the source "placeholder", which is none of the
    documented sources, and the placeholder generator has not been
    called. *)
Theorem rejected_last_candidate_is_emitted (product_name : string)
        (st0 st1 st2 st3 : state World) (u : option string)
        (s url : string) :
  for_methods http (clean_product_name product_name)
              (firstn 3 search_methods) None "placeholder" st0
  = (Ret (Continue u s), st1) ->
  search_direct_product_search http (clean_product_name product_name) st1
  = (Ret (Some url), st2) ->
  url <> "" ->
  validate_image_url http url st2 = (Ret false, st3) ->
  fetch_product_image http product_name st0
  = (Ret (mkProductImage product_name url "placeholder"
                         ("Image of " ++ product_name)), st3) /\
  ~ In "placeholder" documented_sources /\
  exists l, calls st3 = (calls st0 ++ l)%list /\
            forall n, ~ In (CallPlaceholder n) l.
Proof.
  intros Hpre Hsearch Hurl Hval.
  set (cleaned := clean_product_name product_name) in *.
  destruct (for_methods_spec cleaned (firstn 3 search_methods)
                             None "placeholder" st0)
    as (f & st1' & l1 & Hrun & Hlog1 & Hl1 & Hf).
  rewrite Hpre in Hrun. injection Hrun as <- <-. cbn in Hf. subst s.
  assert (Hempty : is_empty url = false)
    by (destruct url; [contradiction|reflexivity]).
  assert (Hloop : for_methods http cleaned search_methods
                              None "placeholder" st0
                  = (Ret (Continue (Some url) "placeholder"), st3)).
  { change search_methods
      with (firstn 3 search_methods
            ++ [("Direct Search", direct_product_search)])%list.
    rewrite for_methods_app, Hpre.
    cbn [for_methods]. unfold bind. rewrite try_method_run.
    cbn [invoke]. rewrite Hsearch, Hempty, Hval. reflexivity. }
  split; [|split].
  - rewrite (fetch_product_image_run _ _ _ _ Hloop). cbn.
    rewrite Hempty. reflexivity.
  - cbn. intuition discriminate.
  - exists (l1 ++ [CallSearch direct_product_search cleaned;
                   CallHead url])%list.
    split.
    + rewrite (validate_log _ _ _ _ Hval).
      pose proof (invoke_log direct_product_search cleaned st1)
        as Hlog2.
      cbn [invoke] in Hlog2. rewrite Hsearch in Hlog2. cbn in Hlog2.
      rewrite Hlog2, Hlog1, <- !app_assoc. reflexivity.
    + intros n Hin. apply in_app_or in Hin. destruct Hin as [Hin|Hin].
      * exact (logged_no_placeholder _ _ _ Hl1 n Hin).
      * cbn in Hin. intuition discriminate.
Qed.

Lemma search_methods_nodup : NoDup (map snd search_methods).
Proof. cbn. repeat constructor; cbn; intuition discriminate. Qed.

(** C5: let the methods before the [i]-th not resolve the product, the
    [i]-th return a URL the validator rejects, the methods between the
    [i]-th and the [j]-th not resolve it, and the [j]-th return a URL
    the validator accepts.  Then the record has the [j]-th method's
    source and URL, and the log of the run holds exactly one search by
    the [i]-th method. *)
Theorem rejected_candidate_advances (product_name : string)
        (pre mid post : list (string * method))
        (ni nj : string) (mi mj : method)
        (st0 st1 st2 st3 st4 st5 st6 : state World)
        (u0 u1 : option string) (s0 s1 ui uj : string) :
  search_methods = (pre ++ (ni, mi) :: mid ++ (nj, mj) :: post)%list ->
  for_methods http (clean_product_name product_name) pre
              None "placeholder" st0 = (Ret (Continue u0 s0), st1) ->
  invoke http mi (clean_product_name product_name) st1
  = (Ret (Some ui), st2) ->
  ui <> "" ->
  validate_image_url http ui st2 = (Ret false, st3) ->
  for_methods http (clean_product_name product_name) mid
              (Some ui) s0 st3 = (Ret (Continue u1 s1), st4) ->
  invoke http mj (clean_product_name product_name) st4
  = (Ret (Some uj), st5) ->
  uj <> "" ->
  validate_image_url http uj st5 = (Ret true, st6) ->
  fetch_product_image http product_name st0
  = (Ret (mkProductImage product_name uj (source_of nj)
                         ("Image of " ++ product_name)), st6) /\
  exists l1 l2,
    calls st6
    = (calls st0 ++ l1
         ++ CallSearch mi (clean_product_name product_name) :: l2)%list /\
    ~ In (CallSearch mi (clean_product_name product_name)) l1 /\
    ~ In (CallSearch mi (clean_product_name product_name)) l2.
Proof.
  intros Hsplit Hpre Hmi Hui Hrej Hmid Hmj Huj Hacc.
  set (cleaned := clean_product_name product_name) in *.
  assert (Hei : is_empty ui = false)
    by (destruct ui; [contradiction|reflexivity]).
  assert (Hej : is_empty uj = false)
    by (destruct uj; [contradiction|reflexivity]).
  assert (Hloop : for_methods http cleaned search_methods
                              None "placeholder" st0
                  = (Ret (Break (Some uj) (source_of nj)), st6)).
  { rewrite Hsplit, for_methods_app, Hpre.
    cbn [for_methods]. unfold bind at 1.
    rewrite try_method_run, Hmi, Hei, Hrej.
    rewrite for_methods_app, Hmid.
    cbn [for_methods]. unfold bind.
    rewrite try_method_run, Hmj, Hej, Hacc. reflexivity. }
  split.
  { rewrite (fetch_product_image_run _ _ _ _ Hloop). cbn.
    rewrite Hej. reflexivity. }
  destruct (for_methods_spec cleaned pre None "placeholder" st0)
    as (f & st1' & l1 & Hrun & Hlog1 & Hl1 & _).
  rewrite Hpre in Hrun. injection Hrun as <- <-.
  destruct (for_methods_spec cleaned mid (Some ui) s0 st3)
    as (f & st4' & l3 & Hrun & Hlog3 & Hl3 & _).
  rewrite Hmid in Hrun. injection Hrun as <- <-.
  pose proof (invoke_log mi cleaned st1) as Hlog_i.
  rewrite Hmi in Hlog_i. cbn in Hlog_i.
  pose proof (invoke_log mj cleaned st4) as Hlog_j.
  rewrite Hmj in Hlog_j. cbn in Hlog_j.
  pose proof search_methods_nodup as Hnodup.
  rewrite Hsplit, map_app in Hnodup. cbn [map] in Hnodup.
  rewrite map_app in Hnodup. cbn [map] in Hnodup.
  pose proof (NoDup_remove_2 _ _ _ Hnodup) as Hfresh.
  exists l1, ([CallHead ui] ++ l3 ++ [CallSearch mj cleaned; CallHead uj])%list.
  split; [|split].
  - rewrite (validate_log _ _ _ _ Hacc), Hlog_j, Hlog3.
    rewrite (validate_log _ _ _ _ Hrej), Hlog_i, Hlog1.
    repeat (rewrite <- app_assoc; cbn [app]). reflexivity.
  - intros Hin. apply Hfresh. apply in_or_app. left.
    exact (logged_search_in _ _ _ _ Hl1 Hin).
  - intros Hin. apply Hfresh. apply in_or_app. right.
    cbn in Hin. destruct Hin as [Hin|Hin]; [discriminate|].
    apply in_app_or in Hin. destruct Hin as [Hin|Hin].
    + apply in_or_app. left.
      exact (logged_search_in _ _ _ _ Hl3 Hin).
    + apply in_or_app. right. cbn in Hin.
      destruct Hin as [Hin|[Hin|[]]]; [|discriminate].
      injection Hin as <-. left. reflexivity.
Qed.

End WithHttp.

Lemma rejected_last_candidate_is_emitted_witness :
  fetch_product_image Scenario.commons_redirect "Popcorn Holder"
                      Scenario.start
  = (Ret (mkProductImage "Popcorn Holder" Scenario.commons_url
                         "placeholder" "Image of Popcorn Holder"),
     mkState 5 [CallSearch duckduckgo_images "Popcorn";
                CallSearch bing_images "Popcorn";
                CallSearch shopping_sites "Popcorn";
                CallSearch direct_product_search "Popcorn";
                CallHead Scenario.commons_url]) /\
  ~ In "placeholder" documented_sources /\
  exists l,
    [CallSearch duckduckgo_images "Popcorn";
     CallSearch bing_images "Popcorn";
     CallSearch shopping_sites "Popcorn";
     CallSearch direct_product_search "Popcorn";
     CallHead Scenario.commons_url] = ([] ++ l)%list /\
    forall n, ~ In (CallPlaceholder n) l.
Proof.
  apply (rejected_last_candidate_is_emitted
           Scenario.commons_redirect "Popcorn Holder" Scenario.start
           (mkState 3 [CallSearch duckduckgo_images "Popcorn";
                       CallSearch bing_images "Popcorn";
                       CallSearch shopping_sites "Popcorn"])
           (mkState 4 [CallSearch duckduckgo_images "Popcorn";
                       CallSearch bing_images "Popcorn";
                       CallSearch shopping_sites "Popcorn";
                       CallSearch direct_product_search "Popcorn"])
           (mkState 5 [CallSearch duckduckgo_images "Popcorn";
                       CallSearch bing_images "Popcorn";
                       CallSearch shopping_sites "Popcorn";
                       CallSearch direct_product_search "Popcorn";
                       CallHead Scenario.commons_url])
           None "placeholder" Scenario.commons_url).
  - reflexivity.
  - reflexivity.
  - discriminate.
  - reflexivity.
Defined.

Lemma rejected_candidate_advances_witness :
  fetch_product_image Scenario.second_try "Large Mug" Scenario.start
  = (Ret (mkProductImage "Large Mug" Scenario.good_url "bing_images"
                         "Image of Large Mug"),
     mkState 4 [CallSearch duckduckgo_images "Mug";
                CallHead Scenario.gone_url;
                CallSearch bing_images "Mug";
                CallHead Scenario.good_url]) /\
  exists l1 l2,
    [CallSearch duckduckgo_images "Mug"; CallHead Scenario.gone_url;
     CallSearch bing_images "Mug"; CallHead Scenario.good_url]
    = ([] ++ l1 ++ CallSearch duckduckgo_images "Mug" :: l2)%list /\
    ~ In (CallSearch duckduckgo_images "Mug") l1 /\
    ~ In (CallSearch duckduckgo_images "Mug") l2.
Proof.
  apply (rejected_candidate_advances
           Scenario.second_try "Large Mug"
           [] [] [("Shopping Sites", shopping_sites);
                  ("Direct Search", direct_product_search)]
           "DuckDuckGo" "Bing Images" duckduckgo_images bing_images
           Scenario.start Scenario.start
           (mkState 1 [CallSearch duckduckgo_images "Mug"])
           (mkState 2 [CallSearch duckduckgo_images "Mug";
                       CallHead Scenario.gone_url])
           (mkState 2 [CallSearch duckduckgo_images "Mug";
                       CallHead Scenario.gone_url])
           (mkState 3 [CallSearch duckduckgo_images "Mug";
                       CallHead Scenario.gone_url;
                       CallSearch bing_images "Mug"])
           (mkState 4 [CallSearch duckduckgo_images "Mug";
                       CallHead Scenario.gone_url;
                       CallSearch bing_images "Mug";
                       CallHead Scenario.good_url])
           None (Some Scenario.gone_url) "placeholder" "placeholder"
           Scenario.gone_url Scenario.good_url).
  - reflexivity.
  - reflexivity.
  - reflexivity.
  - discriminate.
  - reflexivity.
  - reflexivity.
  - reflexivity.
  - discriminate.
  - reflexivity.
Defined.

(** C2 does not hold of the code.  Here the first three methods find
    nothing and the validator rejects the URL the fourth returns, so no
    method has produced a candidate that passes validation; the record
    nevertheless keeps the rejected URL, with the source "placeholder",
    and the placeholder generator is not used. *)
Theorem rejected_last_candidate_not_smart_placeholder :
  let http := Scenario.commons_redirect in
  let st1 := mkState 3 [CallSearch duckduckgo_images "Popcorn";
                        CallSearch bing_images "Popcorn";
                        CallSearch shopping_sites "Popcorn"] in
  let st2 := mkState 4 (calls st1
                        ++ [CallSearch direct_product_search "Popcorn"]) in
  for_methods http "Popcorn" (firstn 3 search_methods) None "placeholder"
              Scenario.start = (Ret (Continue None "placeholder"), st1) /\
  search_direct_product_search http "Popcorn" st1
  = (Ret (Some Scenario.commons_url), st2) /\
  fst (validate_image_url http Scenario.commons_url st2) = Ret false /\
  exists r st',
    fetch_product_image http "Popcorn Holder" Scenario.start
    = (Ret r, st') /\
    source r = "placeholder" /\
    source r <> "smart_placeholder" /\
    image_url r = Scenario.commons_url /\
    image_url r <> generate_smart_placeholder "Popcorn Holder" /\
    ~ In (CallPlaceholder "Popcorn Holder") (calls st').
Proof.
  cbv zeta.
  split; [vm_compute; reflexivity|].
  split; [vm_compute; reflexivity|].
  split; [vm_compute; reflexivity|].
  eexists _, _. split; [vm_compute; reflexivity|].
  cbn [source image_url calls].
  split; [reflexivity|].
  split; [discriminate|].
  split; [reflexivity|].
  split; [vm_compute; discriminate|].
  cbn. intuition discriminate.
Qed.

(** When the loop ends without a [break] on a value of [image_url] that
    is [None] or empty, the record is the smart placeholder for the name
    as given. *)
Lemma unresolved_gives_smart_placeholder {World : Type} (http : Http World)
      (product_name : string) (st st1 : state World)
      (u : option string) (s : string) :
  for_methods http (clean_product_name product_name) search_methods
              None "placeholder" st = (Ret (Continue u s), st1) ->
  truthy u = false ->
  fetch_product_image http product_name st
  = (Ret (mkProductImage product_name
                         (generate_smart_placeholder product_name)
                         "smart_placeholder"
                         ("Image of " ++ product_name)),
     mkState (world st1) (calls st1 ++ [CallPlaceholder product_name])).
Proof.
  intros Hloop Hu.
  rewrite (fetch_product_image_run _ _ _ _ _ Hloop). cbn.
  rewrite Hu. reflexivity.
Qed.

End PipelineFacts.

(* ================================================================= *)
(** ** Properties of the batch driver *)

Module BatchFacts.
Import PyStr Fetcher Eff Pipeline Spec PipelineFacts.

Section WithHttp.
Context {World : Type} (http : Http World).

(** The record [fetch_product_image] returns carries the name it was
    given and the alt text built from it, and its source is not that of the
    [except] branch of the batch. *)
Lemma fetch_product_image_name (product_name : string)
      (st : state World) :
  exists r st',
    fetch_product_image http product_name st = (Ret r, st') /\
    name r = product_name /\
    alt_text r = "Image of " ++ product_name /\
    source r <> "error_placeholder".
Proof.
  destruct (for_methods_spec http (clean_product_name product_name)
                             search_methods None "placeholder" st)
    as (f & st1 & l & Hloop & _ & _ & Hf).
  rewrite (fetch_product_image_run _ _ _ _ _ Hloop).
  destruct f as [u s|u s]; cbn in Hf.
  - subst s. destruct (truthy u);
      eexists _, _; repeat split; cbn [source]; discriminate.
  - destruct Hf as [Ht (n & m & Hin & ->)]. rewrite Ht.
    eexists _, _. repeat split. cbn [source].
    cbn in Hin. destruct Hin as [Hin|[Hin|[Hin|[Hin|[]]]]];
      injection Hin as <- _; discriminate.
Qed.





End WithHttp.


(** C1 does not hold of the code.  The [try] block of the batch loop
    covers [results.append] and the sleep that follows it.  Here every
    search comes back empty-handed and the sleep raises, as [time.sleep]
    does on a negative delay: the record of the first product is already in
    the list when the [except] branch adds the error record for the same
    product, and the batch returns three records for two names. *)
Theorem raising_sleep_adds_a_second_record :
  fst (fetch_all_images Scenario.negative_delay ["Mug"; "Toy Tidy"]
                        Scenario.start)
  = Ret [ mkProductImage "Mug" (generate_smart_placeholder "Mug")
                         "smart_placeholder" "Image of Mug";
          error_record "Mug";
          mkProductImage "Toy Tidy" (generate_smart_placeholder "Toy Tidy")
                         "smart_placeholder" "Image of Toy Tidy" ] /\
  source (error_record "Mug") = "error_placeholder" /\
  List.length
    [ mkProductImage "Mug" (generate_smart_placeholder "Mug")
                     "smart_placeholder" "Image of Mug";
      error_record "Mug";
      mkProductImage "Toy Tidy" (generate_smart_placeholder "Toy Tidy")
                     "smart_placeholder" "Image of Toy Tidy" ]
  <> List.length ["Mug"; "Toy Tidy"].
Proof.
  split; [vm_compute; reflexivity|].
  split; [reflexivity|]. cbn. discriminate.
Qed.

End BatchFacts.

(* ================================================================= *)
(** ** Further properties of the normaliser and the placeholder generator *)

Module TextFacts.
Import PyStr Re Fetcher Spec Terms.

(** *** Stripping *)

Lemma rstrip_cons (c : ascii) (s : string) :
  rstrip (String c s)
  = match rstrip s with
    | EmptyString => if is_space c then EmptyString else String c EmptyString
    | String d r => String c (String d r)
    end.
Proof. cbn [rstrip]. destruct (rstrip s); reflexivity. Qed.

Lemma rstrip_rstrip (s : string) : rstrip (rstrip s) = rstrip s.
Proof.
  induction s as [|c s IH]; [reflexivity|].
  rewrite rstrip_cons. destruct (rstrip s) as [|d r] eqn:Hr.
  - destruct (is_space c) eqn:Hc; [reflexivity|].
    rewrite rstrip_cons. cbn [rstrip]. now rewrite Hc.
  - rewrite rstrip_cons, IH. reflexivity.
Qed.

Lemma lstrip_head (s : string) :
  lstrip s = EmptyString \/
  exists c t, lstrip s = String c t /\ is_space c = false.
Proof.
  induction s as [|c s IH]; [now left|].
  cbn [lstrip]. destruct (is_space c) eqn:Hc; [exact IH|].
  right. exists c, s. auto.
Qed.

Lemma rstrip_keeps_head (c : ascii) (t : string) :
  is_space c = false -> exists t', rstrip (String c t) = String c t'.
Proof.
  intros Hc. rewrite rstrip_cons. destruct (rstrip t) as [|d r].
  - rewrite Hc. eauto.
  - eauto.
Qed.

Lemma lstrip_strip (s : string) : lstrip (strip s) = strip s.
Proof.
  unfold strip. destruct (lstrip_head s) as [->|(c & t & -> & Hc)].
  - reflexivity.
  - destruct (rstrip_keeps_head c t Hc) as (t' & ->).
    cbn [lstrip]. now rewrite Hc.
Qed.

Lemma strip_length (s : string) : String.length (strip s) <= String.length s.
Proof.
  unfold strip.
  assert (Hr : forall t, String.length (rstrip t) <= String.length t).
  { induction t as [|c t IH]; [cbn; lia|].
    rewrite rstrip_cons. destruct (rstrip t) as [|d r].
    - destruct (is_space c); cbn; lia.
    - cbn in *. lia. }
  assert (Hl : String.length (lstrip s) <= String.length s).
  { induction s as [|c s IH]; [cbn; lia|].
    cbn [lstrip]. destruct (is_space c); cbn in *; lia. }
  specialize (Hr (lstrip s)). lia.
Qed.

(** X1: the cleaned name has no leading and no trailing whitespace:
    stripping it again, on either side, changes nothing. *)
Theorem clean_product_name_is_stripped (name : string) :
  lstrip (clean_product_name name) = clean_product_name name /\
  rstrip (clean_product_name name) = clean_product_name name /\
  strip (clean_product_name name) = clean_product_name name.
Proof.
  unfold clean_product_name.
  set (t := Re.sub suffix_pattern "" (Re.sub prefix_pattern "" name)).
  assert (Hl : lstrip (strip t) = strip t) by apply lstrip_strip.
  assert (Hr : rstrip (strip t) = strip t)
    by (unfold strip; apply rstrip_rstrip).
  repeat split; try assumption.
  unfold strip at 1. now rewrite Hl, Hr.
Qed.

(** *** Substitution by the empty string *)

Lemma sub_from_empty_length (r : regex) :
  forall (s : string) (pos skip : nat),
    String.length (sub_from r "" pos skip s) <= String.length s.
Proof.
  induction s as [|c s IH]; intros pos skip.
  - destruct skip; cbn; lia.
  - destruct skip as [|skip]; cbn [sub_from].
    + destruct (match_at r pos (String c s)) as [e|].
      * destruct (pos <? e).
        -- cbn [append String.length].
           specialize (IH (S pos) (e - pos - 1)). lia.
        -- cbn [String.length]. specialize (IH (S pos) 0). lia.
      * cbn [String.length]. specialize (IH (S pos) 0). lia.
    + cbn [String.length]. specialize (IH (S pos) skip). lia.
Qed.

(** X2: cleaning never makes a name longer. *)
Theorem clean_product_name_length (name : string) :
  String.length (clean_product_name name) <= String.length name.
Proof.
  unfold clean_product_name.
  pose proof (strip_length
                (Re.sub suffix_pattern "" (Re.sub prefix_pattern "" name))).
  pose proof (sub_from_empty_length suffix_pattern
                (Re.sub prefix_pattern "" name) 0 0).
  pose proof (sub_from_empty_length prefix_pattern name 0 0).
  unfold Re.sub in *. lia.
Qed.

(** *** Characters of the placeholder text *)

Lemma all_chars_impl (p p' : ascii -> bool) :
  (forall c, p c = true -> p' c = true) ->
  forall s, all_chars p s = true -> all_chars p' s = true.
Proof.
  intros Himpl. induction s as [|c s IH]; [reflexivity|].
  cbn [all_chars]. intros H. apply andb_true_iff in H. destruct H as [Hc Hs].
  rewrite (Himpl c Hc), (IH Hs). reflexivity.
Qed.

Lemma all_chars_app (p : ascii -> bool) (a b : string) :
  all_chars p (a ++ b) = all_chars p a && all_chars p b.
Proof.
  induction a as [|c a IH]; [reflexivity|].
  cbn [append all_chars]. rewrite IH. apply andb_assoc.
Qed.

Lemma all_chars_take (p : ascii -> bool) (n : nat) :
  forall s, all_chars p s = true -> all_chars p (take n s) = true.
Proof.
  induction n as [|n IH]; intros [|c s]; try reflexivity.
  cbn [take all_chars]. intros H. apply andb_true_iff in H.
  destruct H as [Hc Hs]. rewrite Hc, (IH s Hs). reflexivity.
Qed.

Lemma take_length (n : nat) : forall s, String.length (take n s) <= n.
Proof.
  induction n as [|n IH]; intros [|c s]; cbn; try lia.
  specialize (IH s). lia.
Qed.

(** Deleting the characters of a class leaves none of them. *)
Lemma sub_class_deleted (p : ascii -> bool) :
  forall (s : string) (pos : nat),
    all_chars (fun c => negb (p c)) (sub_from (Chr p) "" pos 0 s) = true.
Proof.
  induction s as [|c s IH]; intros pos; [reflexivity|].
  cbn [sub_from]. unfold match_at. cbn [rmatch].
  destruct (p c) eqn:Hp.
  - assert (Hlt : (pos <? S pos) = true) by (apply Nat.ltb_lt; lia).
    rewrite Hlt. replace (S pos - pos - 1) with 0 by lia.
    cbn [append]. apply IH.
  - cbn [all_chars]. rewrite Hp, IH. reflexivity.
Qed.

Lemma match_at_plus_class (q : ascii -> bool) (pos : nat) (s : string) :
  match_at (Plus (Chr q)) pos s = class_rounds q (S (String.length s)) pos s.
Proof. reflexivity. Qed.

Lemma class_rounds_step (q : ascii -> bool) (fuel pos : nat) (s : string) :
  class_rounds q (S fuel) pos s
  = match s with
    | String c s' =>
        if q c then
          if pos <? S pos then
            match class_rounds q fuel (S pos) s' with
            | Some e => Some e
            | None => Some (S pos)
            end
          else Some (S pos)
        else None
    | EmptyString => None
    end.
Proof. destruct s; reflexivity. Qed.

Lemma class_rounds_forward (q : ascii -> bool) :
  forall (fuel pos : nat) (s : string) (e : nat),
    class_rounds q fuel pos s = Some e -> pos < e.
Proof.
  induction fuel as [|fuel IH]; intros pos s e H; [discriminate|].
  rewrite class_rounds_step in H.
  destruct s as [|c s]; [discriminate|].
  destruct (q c); [|discriminate].
  destruct (pos <? S pos); [|injection H as <-; lia].
  destruct (class_rounds q fuel (S pos) s) as [e'|] eqn:He.
  - injection H as <-. apply IH in He. lia.
  - injection H as <-. lia.
Qed.

(** [[q]+] matches wherever a character of the class stands. *)
Lemma match_at_plus_class_some (q : ascii -> bool) (pos : nat)
      (c : ascii) (s : string) :
  q c = true ->
  exists e, match_at (Plus (Chr q)) pos (String c s) = Some e /\ pos < e.
Proof.
  intros Hq. rewrite match_at_plus_class, class_rounds_step, Hq.
  assert (Hlt : (pos <? S pos) = true) by (apply Nat.ltb_lt; lia).
  rewrite Hlt.
  destruct (class_rounds q (String.length (String c s)) (S pos) s)
    as [e|] eqn:He.
  - exists e. split; [reflexivity|]. apply class_rounds_forward in He. lia.
  - exists (S pos). split; [reflexivity|lia].
Qed.

(** Replacing the runs of a class by [+] leaves [+] and the characters
    outside the class. *)
Lemma sub_runs_replaced (q P : ascii -> bool) :
  forall (s : string) (pos skip : nat),
    all_chars P s = true ->
    all_chars (fun c => (code c =? 43) || (negb (q c) && P c))
              (sub_from (Plus (Chr q)) "+" pos skip s) = true.
Proof.
  induction s as [|c s IH]; intros pos skip HP.
  - destruct skip; reflexivity.
  - cbn [all_chars] in HP. apply andb_true_iff in HP.
    destruct HP as [Hc Hs].
    destruct skip as [|skip]; cbn [sub_from]; [|now apply IH].
    destruct (q c) eqn:Hq.
    + destruct (match_at_plus_class_some q pos c s Hq) as (e & -> & Hlt).
      apply Nat.ltb_lt in Hlt. rewrite Hlt.
      cbn [append all_chars]. now apply IH.
    + assert (Hkeep : all_chars
                        (fun c => (code c =? 43) || (negb (q c) && P c))
                        (String c (sub_from (Plus (Chr q)) "+" (S pos) 0 s))
                      = true).
      { cbn [all_chars]. rewrite Hq, Hc, (IH (S pos) 0 Hs).
        cbn. now rewrite orb_true_r. }
      destruct (match_at (Plus (Chr q)) pos (String c s)) as [e|];
        [destruct (pos <? e) eqn:Hlt|]; try exact Hkeep.
      cbn [append all_chars]. now apply IH.
Qed.

Lemma text_char_class (c : ascii) :
  (code c =? 43)
  || (negb (is_space c || (code c =? 95) || (code c =? 45))
      && negb (negb (is_word c || is_space c || (code c =? 45)))) = true ->
  is_alnum_or_plus c = true.
Proof.
  destruct c as [[] [] [] [] [] [] [] []]; vm_compute; intros H;
    first [reflexivity | discriminate H].
Qed.

Lemma placeholder_text_chars (product_name : string) :
  all_chars is_alnum_or_plus (placeholder_text product_name) = true.
Proof.
  unfold placeholder_text.
  apply all_chars_take.
  eapply all_chars_impl; [exact text_char_class|].
  unfold Re.sub, separator_pattern.
  apply (sub_runs_replaced
           (fun c => is_space c || (code c =? 95) || (code c =? 45))
           (fun c => negb (negb (is_word c || is_space c || (code c =? 45))))).
  apply (sub_class_deleted
           (fun c => negb (is_word c || is_space c || (code c =? 45)))).
Qed.

(** X4: the text put on the placeholder consists of letters, digits and
    [+] only, and has at most 25 characters. *)
Theorem placeholder_text_shape (product_name : string) :
  all_chars is_alnum_or_plus (placeholder_text product_name) = true /\
  String.length (placeholder_text product_name) <= 25.
Proof.
  split; [apply placeholder_text_chars|].
  unfold placeholder_text. apply take_length.
Qed.

(** *** The generated URL *)

Lemma quote_plus_cons (c : ascii) (s : string) :
  quote_plus (String c s) = quote_plus (String c EmptyString) ++ quote_plus s.
Proof.
  cbn [quote_plus]. destruct (is_unreserved c); [reflexivity|].
  destruct (code c =? 32); reflexivity.
Qed.

Lemma append_length (a b : string) :
  String.length (a ++ b) = String.length a + String.length b.
Proof.
  induction a as [|c a IH]; [reflexivity|].
  cbn [append String.length]. now rewrite IH.
Qed.

Lemma quote_plus_text_char (c : ascii) :
  is_alnum_or_plus c = true ->
  all_chars is_url_char (quote_plus (String c EmptyString)) = true /\
  String.length (quote_plus (String c EmptyString)) <= 3.
Proof.
  destruct c as [[] [] [] [] [] [] [] []]; vm_compute; intros H;
    first [discriminate H | split; [reflexivity | lia]].
Qed.

Lemma quote_plus_text (t : string) :
  all_chars is_alnum_or_plus t = true ->
  all_chars is_url_char (quote_plus t) = true /\
  String.length (quote_plus t) <= 3 * String.length t.
Proof.
  induction t as [|c t IH]; [intros _; split; [reflexivity|cbn; lia]|].
  cbn [all_chars]. intros H. apply andb_true_iff in H. destruct H as [Hc Ht].
  destruct (quote_plus_text_char c Hc) as [Hsafe Hlen].
  destruct (IH Ht) as [IHsafe IHlen].
  rewrite quote_plus_cons, all_chars_app, Hsafe, IHsafe.
  split; [reflexivity|].
  rewrite append_length.
  change (String.length (String c t)) with (S (String.length t)). lia.
Qed.

(** The condition under which the kitchen theme is taken, written out. *)
Lemma kitchen_matches_eq (l : string) :
  theme_matches "kitchen" l
  = contains "kitchen" l
    || (contains "mug" l || (contains "tea" l || (contains "coffee" l
    || (contains "sugar" l || (contains "dispenser" l || (contains "jar" l
    || (contains "cake" l || (contains "tin" l || false)))))))).
Proof. reflexivity. Qed.

Lemma tea_matches_eq (l : string) :
  theme_matches "tea" l
  = contains "tea" l || (contains "tea" l || (contains "coffee" l || false)).
Proof. reflexivity. Qed.

(** Whatever selects the tea theme selects the kitchen theme, which is
    tried first. *)
Lemma tea_is_shadowed (l : string) :
  theme_matches "kitchen" l = false -> theme_matches "tea" l = false.
Proof.
  rewrite kitchen_matches_eq, tea_matches_eq. intros H.
  destruct (contains "tea" l); [|destruct (contains "coffee" l)];
    [| |reflexivity];
    repeat rewrite ?orb_true_r, ?orb_true_l in H; discriminate H.
Qed.

Lemma placeholder_theme_cases (product_name : string) :
  In (placeholder_theme product_name)
     [ mkStyle "2C3E50" "ECF0F1"; mkStyle "3498DB" "FFFFFF";
       mkStyle "C0392B" "FFFFFF"; mkStyle "F39C12" "FFFFFF";
       mkStyle "8E44AD" "FFFFFF"; mkStyle "27AE60" "FFFFFF";
       mkStyle "7F8C8D" "FFFFFF" ].
Proof.
  unfold placeholder_theme. set (l := lower product_name).
  unfold themes. cbn [pick_theme dict_get].
  destruct (theme_matches "kitchen" l) eqn:Hk; [cbn; tauto|].
  rewrite (tea_is_shadowed l Hk).
  destruct (theme_matches "storage" l); [cbn; tauto|].
  destruct (theme_matches "christmas" l); [cbn; tauto|].
  destruct (theme_matches "toy" l); [cbn; tauto|].
  destruct (theme_matches "bottle" l); [cbn; tauto|].
  destruct (theme_matches "home" l); [cbn; tauto|].
  destruct (theme_matches "metal" l); cbn; tauto.
Qed.

(** X5: the colours of the placeholder are always those of an entry of
    [themes], and never those of the tea entry: each of its keywords is a
    keyword of the kitchen entry, which is looked at first. *)
Theorem tea_theme_is_never_chosen (product_name : string) :
  In (placeholder_theme product_name) (map snd themes) /\
  placeholder_theme product_name <> mkStyle "16A085" "FFFFFF" /\
  In ("tea", mkStyle "16A085" "FFFFFF") themes.
Proof.
  pose proof (placeholder_theme_cases product_name) as H.
  split; [|split].
  - cbn in H |- *. tauto.
  - intros Heq. rewrite Heq in H. cbn in H.
    repeat (destruct H as [H|H]; [discriminate H|]). exact H.
  - cbn. tauto.
Qed.

(** X6: the generated URL starts with the address of the placeholder
    service, consists of letters, digits and the characters [: / . ? = %]
    only, and has at most 130 characters. *)
Theorem generated_url_shape (product_name : string) :
  startswith "https://via.placeholder.com/400x300/"
             (generate_smart_placeholder product_name) = true /\
  all_chars is_url_char (generate_smart_placeholder product_name) = true /\
  String.length (generate_smart_placeholder product_name) <= 130.
Proof.
  pose proof (placeholder_text_chars product_name) as Hchars.
  assert (Hlen : String.length (placeholder_text product_name) <= 25)
    by (unfold placeholder_text; apply take_length).
  destruct (quote_plus_text _ Hchars) as [Hsafe Hqlen].
  split; [reflexivity|].
  unfold generate_smart_placeholder.
  set (q := quote_plus (placeholder_text product_name)) in *.
  pose proof (placeholder_theme_cases product_name) as Hcase.
  cbn [In] in Hcase.
  repeat (destruct Hcase as [<-|Hcase];
          [cbn [bg Fetcher.text append all_chars String.length];
           split; [exact Hsafe|lia]|]).
  destruct Hcase.
Qed.

(** X7: a name in which neither a category nor a keyword of any theme
    occurs gets the colours of the home theme. *)
Theorem unmatched_name_gets_home_theme (product_name : string) :
  (forall category, In category (map fst themes) ->
                    theme_matches category (lower product_name) = false) ->
  generate_smart_placeholder product_name = home_url product_name.
Proof.
  intros H. unfold generate_smart_placeholder, home_url.
  assert (Htheme : placeholder_theme product_name
                   = mkStyle "27AE60" "FFFFFF").
  { unfold placeholder_theme, themes. cbn [pick_theme].
    rewrite !H by (cbn; tauto). reflexivity. }
  rewrite Htheme. reflexivity.
Qed.

Lemma unmatched_name_gets_home_theme_witness :
  generate_smart_placeholder "Gumball Coat Rack"
  = home_url "Gumball Coat Rack".
Proof.
  apply (unmatched_name_gets_home_theme "Gumball Coat Rack").
  intros category Hin. cbn in Hin.
  repeat (destruct Hin as [<-|Hin]; [reflexivity|]).
  destruct Hin.
Defined.

End TextFacts.

(* ================================================================= *)
(** ** Further properties of the validator and the pipeline *)

Module PipelineMore.
Import PyStr Fetcher Eff Pipeline Spec Terms.
Import ValidatorFacts PipelineFacts.

(** X8: after a HEAD response, the validator answers [True] exactly when
    the status is 200 and the content type, lower-cased, contains "image"
    or the lower-cased URL contains one of the image extensions. *)
Theorem validate_image_url_exact {World : Type} (http : Http World)
        (url : string) (st : state World) (response : Response) (w : World) :
  head http url (world st) = (Ret response, w) ->
  (fst (validate_image_url http url st) = Ret true <->
   status_code response = 200%Z /\
   (contains "image" (lower (header_content_type response)) = true \/
    extension_in url)).
Proof.
  intros Hhead. rewrite validate_image_url_run, Hhead. cbn [fst snd verdict].
  split.
  - intros H. injection H as H. now apply plausible_image_true.
  - intros [Hcode Hkind]. f_equal. unfold plausible_image.
    rewrite Hcode. cbn [Z.eqb Pos.eqb andb].
    destruct Hkind as [->|(ext & Hin & Hext)]; [reflexivity|].
    apply orb_true_iff. right. unfold any_extension_in.
    apply existsb_exists. eauto.
Qed.

Lemma validate_image_url_exact_witness :
  fst (validate_image_url Scenario.second_try Scenario.good_url
                          Scenario.start) = Ret true <->
  status_code (mkResponse 200 (Some "Image/PNG")) = 200%Z /\
  (contains "image"
            (lower (header_content_type (mkResponse 200 (Some "Image/PNG"))))
   = true \/
   extension_in Scenario.good_url).
Proof.
  apply (validate_image_url_exact Scenario.second_try Scenario.good_url
                                  Scenario.start _ 1).
  reflexivity.
Defined.

Section WithHttp.
Context {World : Type} (http : Http World).

(** The log of one round: the search, then at most one HEAD request. *)
Lemma try_method_shape (cleaned method_name : string) (m : method)
      (image_url : option string) (source : string) (st : state World) :
  exists f st' hs,
    try_method http cleaned (method_name, m) image_url source st
    = (Ret f, st') /\
    calls st' = (calls st ++ CallSearch m cleaned :: hs)%list /\
    (hs = [] \/ exists url, hs = [CallHead url]) /\
    match f with
    | Continue _ s' => s' = source
    | Break u s' =>
        s' = source_of method_name /\
        exists url st_a,
          u = Some url /\
          validate_image_url http url st_a = (Ret true, st')
    end.
Proof.
  rewrite try_method_run.
  pose proof (invoke_log http m cleaned st) as Hlog.
  destruct (invoke http m cleaned st) as [[[url|]|] st1]; cbn [snd] in Hlog.
  - destruct (is_empty url).
    + exists (Continue (Some url) source), st1, []. auto.
    + destruct (validate_image_url http url st1) as [[[|]|] st2] eqn:Hval.
      * exists (Break (Some url) (source_of method_name)), st2,
          [CallHead url].
        rewrite (validate_log http _ _ _ _ Hval), Hlog, <- app_assoc.
        repeat split; eauto.
      * exists (Continue (Some url) source), st2, [CallHead url].
        rewrite (validate_log http _ _ _ _ Hval), Hlog, <- app_assoc.
        repeat split; eauto.
      * rewrite validate_image_url_run in Hval. discriminate Hval.
  - exists (Continue None source), st1, []. auto.
  - exists (Continue image_url source), st1, []. auto.
Qed.

(** The log of the loop: the searches are those of the first [k] methods,
    in the order of the list, and there are at most [k] HEAD requests. *)
Lemma for_methods_trace (cleaned : string) :
  forall (ms : list (string * method)) (image_url : option string)
         (source : string) (st : state World),
  exists f st' l k,
    for_methods http cleaned ms image_url source st = (Ret f, st') /\
    calls st' = (calls st ++ l)%list /\
    k <= List.length ms /\
    filter is_search l
    = map (fun entry => CallSearch (snd entry) cleaned) (firstn k ms) /\
    List.length (filter is_head l) <= k /\
    Forall (fun c => is_search c || is_head c = true) l /\
    match f with
    | Continue _ s' => s' = source
    | Break u s' =>
        (exists method_name m, In (method_name, m) ms /\
                               s' = source_of method_name) /\
        exists url st_a,
          u = Some url /\
          validate_image_url http url st_a = (Ret true, st')
    end.
Proof.
  induction ms as [|[method_name m] ms IH]; intros image_url source st.
  - exists (Continue image_url source), st, [], 0. cbn.
    rewrite app_nil_r. repeat split; auto.
  - cbn [for_methods]. unfold bind.
    destruct (try_method_shape cleaned method_name m image_url source st)
      as (f & st1 & hs & Hrun & Hlog & Hhs & Hf).
    rewrite Hrun.
    assert (Hround :
              filter is_search (CallSearch m cleaned :: hs)
              = [CallSearch m cleaned] /\
              List.length (filter is_head (CallSearch m cleaned :: hs)) <= 1 /\
              Forall (fun c => is_search c || is_head c = true)
                     (CallSearch m cleaned :: hs)).
    { destruct Hhs as [->|[url ->]]; cbn; repeat split;
        repeat constructor. }
    destruct Hround as (Hs1 & Hh1 & Hall1).
    destruct f as [u s|u s].
    + subst s.
      destruct (IH u source st1)
        as (f & st2 & l & k & Hrun2 & Hlog2 & Hk & Hs2 & Hh2 & Hall2 & Hf2).
      exists f, st2, ((CallSearch m cleaned :: hs) ++ l)%list, (S k).
      rewrite Hrun2. split; [reflexivity|].
      split; [rewrite Hlog2, Hlog, <- app_assoc; reflexivity|].
      split; [cbn; lia|].
      split; [rewrite filter_app, Hs1, Hs2; reflexivity|].
      split; [rewrite filter_app, length_app; lia|].
      split; [apply Forall_app; auto|].
      destruct f as [u' s'|u' s']; [exact Hf2|].
      destruct Hf2 as [(n' & m' & Hin & Hs') Hval].
      split; [|exact Hval]. exists n', m'. split; [right; exact Hin|exact Hs'].
    + exists (Break u s), st1, (CallSearch m cleaned :: hs), 1.
      unfold ret. split; [reflexivity|].
      split; [exact Hlog|].
      split; [cbn; lia|].
      split; [exact Hs1|].
      split; [exact Hh1|].
      split; [exact Hall1|].
      destruct Hf as [Hs Hval]. split; [|exact Hval].
      exists method_name, m. split; [left; reflexivity|exact Hs].
Qed.

Lemma method_source_in (method_name : string) (m : method) :
  In (method_name, m) search_methods ->
  In (source_of method_name) method_sources.
Proof.
  intros Hin. unfold method_sources.
  apply in_map_iff. exists (method_name, m). auto.
Qed.

(** Everything a run of [fetch_product_image] guarantees about its record
    and its log. *)
Lemma fetch_product_image_trace (product_name : string) (st : state World) :
  exists r st' l k,
    fetch_product_image http product_name st = (Ret r, st') /\
    calls st' = (calls st ++ l)%list /\
    k <= 4 /\
    filter is_search l
    = map (fun entry =>
             CallSearch (snd entry) (clean_product_name product_name))
          (firstn k search_methods) /\
    List.length (filter is_head l) <= k /\
    filter is_sleep l = [] /\
    In (source r) pipeline_sources /\
    (source r = "smart_placeholder" ->
     image_url r = generate_smart_placeholder product_name) /\
    (In (source r) method_sources ->
     exists st_a,
       validate_image_url http (image_url r) st_a = (Ret true, st')).
Proof.
  destruct (for_methods_trace (clean_product_name product_name)
                              search_methods None "placeholder" st)
    as (f & st1 & l & k & Hloop & Hlog & Hk & Hs & Hh & Hall & Hf).
  rewrite (fetch_product_image_run _ _ _ _ _ Hloop).
  assert (Hnosleep : forall l', Forall (fun c => is_search c || is_head c = true) l' ->
                                filter is_sleep l' = []).
  { induction 1 as [|c l' Hc _ IH]; [reflexivity|].
    cbn [filter]. destruct c; cbn in Hc |- *; try discriminate Hc; exact IH. }
  destruct f as [u s|u s].
  - subst s. destruct (truthy u) eqn:Ht.
    + eexists _, st1, l, k. split; [reflexivity|].
      repeat split; auto.
      * cbn. tauto.
      * cbn. discriminate.
      * cbn. intros Hin. exfalso. intuition discriminate.
    + eexists _, _, (l ++ [CallPlaceholder product_name])%list, k.
      split; [reflexivity|]. cbn [calls source image_url].
      split; [rewrite Hlog, <- app_assoc; reflexivity|].
      split; [exact Hk|].
      split; [rewrite filter_app, Hs; cbn; apply app_nil_r|].
      split; [rewrite filter_app, length_app; cbn; lia|].
      split; [rewrite filter_app, (Hnosleep _ Hall); reflexivity|].
      split; [cbn; tauto|].
      split; [reflexivity|].
      cbn. intros Hin. exfalso. intuition discriminate.
  - destruct Hf as [(n & m & Hin & ->) (url & st_a & -> & Hval)].
    assert (Ht : truthy (Some url) = true).
    { destruct (for_methods_spec http (clean_product_name product_name)
                                 search_methods None "placeholder" st)
        as (f' & st1' & l' & Hloop' & _ & _ & Hf').
      rewrite Hloop in Hloop'. injection Hloop' as <- <-.
      exact (proj1 Hf'). }
    rewrite Ht. eexists _, st1, l, k. split; [reflexivity|].
    cbn [source image_url str_value].
    repeat split; auto.
    + unfold pipeline_sources. apply in_or_app. left.
      exact (method_source_in _ _ Hin).
    + intros Heq. exfalso.
      cbn in Hin. destruct Hin as [Hin|[Hin|[Hin|[Hin|[]]]]];
        injection Hin as <- _; discriminate Heq.
    + intros _. exists st_a. exact Hval.
Qed.

(** X9: the source of the record [fetch_product_image] returns is the name
    of one of the four methods, "smart_placeholder" or "placeholder"; it is
    never "error_placeholder"; and a record with the source
    "smart_placeholder" carries the generated URL for the name as given. *)
Theorem fetch_product_image_sources (product_name : string)
        (st : state World) :
  exists r st',
    fetch_product_image http product_name st = (Ret r, st') /\
    In (source r) pipeline_sources /\
    source r <> "error_placeholder" /\
    (source r = "smart_placeholder" ->
     image_url r = generate_smart_placeholder product_name).
Proof.
  destruct (fetch_product_image_trace product_name st)
    as (r & st' & l & k & Hrun & _ & _ & _ & _ & _ & Hsrc & Hsmart & _).
  exists r, st'. repeat split; auto.
  intros Heq. rewrite Heq in Hsrc. cbn in Hsrc. intuition discriminate.
Qed.

(** X10: a record whose source names a search method carries a URL the
    validator accepted: the run ends with the call of the validator on that
    URL, and that call returned [True]. *)
Theorem method_source_means_validated (product_name : string)
        (st st' : state World) (r : ProductImage) :
  fetch_product_image http product_name st = (Ret r, st') ->
  In (source r) method_sources ->
  exists st_a,
    validate_image_url http (image_url r) st_a = (Ret true, st').
Proof.
  intros Hrun Hin.
  destruct (fetch_product_image_trace product_name st)
    as (r0 & st0 & l & k & Hrun0 & _ & _ & _ & _ & _ & _ & _ & Hval).
  rewrite Hrun in Hrun0. injection Hrun0 as <- <-. auto.
Qed.

(** X11: in one run the search methods are called in the order of the
    list, each at most once and each with the cleaned name: the searches of
    the log are those of the first [k] methods for some [k <= 4].  There are
    at most [k] HEAD requests and the run never sleeps. *)
Theorem searches_run_in_order (product_name : string) (st : state World) :
  exists r st' l k,
    fetch_product_image http product_name st = (Ret r, st') /\
    calls st' = (calls st ++ l)%list /\
    k <= 4 /\
    filter is_search l
    = map (fun entry =>
             CallSearch (snd entry) (clean_product_name product_name))
          (firstn k search_methods) /\
    List.length (filter is_head l) <= k /\
    filter is_sleep l = [].
Proof.
  destruct (fetch_product_image_trace product_name st)
    as (r & st' & l & k & Hrun & Hlog & Hk & Hs & Hh & Hsl & _).
  exists r, st', l, k. auto 10.
Qed.

(** What a search method returns is what the network answers. *)
Lemma invoke_barren (m : method) (arg : string) (st : state World) :
  barren http -> finds_nothing (fst (invoke http m arg st)).
Proof.
  intros Hb. destruct (Hb arg (world st)) as (Hd & Hbi & Hs & Hw).
  destruct m; cbn;
    unfold search_duckduckgo_images, search_bing_images,
           search_shopping_sites, search_direct_product_search, perform.
  - destruct (duckduckgo http arg (world st)); exact Hd.
  - destruct (bing http arg (world st)); exact Hbi.
  - destruct (shopping http arg (world st)); exact Hs.
  - destruct (wikimedia http arg (world st)); exact Hw.
Qed.

Lemma for_methods_barren (cleaned : string) :
  barren http ->
  forall (ms : list (string * method)) (image_url : option string)
         (source : string) (st : state World),
    truthy image_url = false ->
    exists u st',
      for_methods http cleaned ms image_url source st
      = (Ret (Continue u source), st') /\
      truthy u = false /\
      calls st'
      = (calls st ++ map (fun entry => CallSearch (snd entry) cleaned) ms)%list.
Proof.
  intros Hb. induction ms as [|[method_name m] ms IH];
    intros image_url source st Hu.
  - exists image_url, st. cbn. rewrite app_nil_r. auto.
  - cbn [for_methods]. unfold bind. rewrite try_method_run.
    pose proof (invoke_barren m cleaned st Hb) as Hnone.
    pose proof (invoke_log http m cleaned st) as Hlog.
    destruct (invoke http m cleaned st) as [[[url|]|] st1];
      cbn [fst snd finds_nothing] in Hnone, Hlog.
    + subst url. cbn [is_empty].
      destruct (IH (Some "") source st1 eq_refl) as (u & st' & Hrun & Ht & Hl).
      exists u, st'. rewrite Hrun, Hl, Hlog, <- app_assoc. auto.
    + destruct (IH None source st1 eq_refl) as (u & st' & Hrun & Ht & Hl).
      exists u, st'. rewrite Hrun, Hl, Hlog, <- app_assoc. auto.
    + destruct (IH image_url source st1 Hu) as (u & st' & Hrun & Ht & Hl).
      exists u, st'. rewrite Hrun, Hl, Hlog, <- app_assoc. auto.
Qed.

(** X12: when no search method ever comes back with a URL (each raises,
    returns [None] or returns the empty string), the record is the smart
    placeholder for the name as given; all four methods have been tried once
    with the cleaned name, and no HEAD request has been made. *)
Theorem barren_network_gives_smart_placeholder (product_name : string)
        (st : state World) :
  barren http ->
  exists w,
    fetch_product_image http product_name st
    = (Ret (mkProductImage product_name
                           (generate_smart_placeholder product_name)
                           "smart_placeholder"
                           ("Image of " ++ product_name)),
       mkState w
         (calls st
          ++ map (fun entry =>
                    CallSearch (snd entry) (clean_product_name product_name))
                 search_methods
          ++ [CallPlaceholder product_name])).
Proof.
  intros Hb.
  destruct (for_methods_barren (clean_product_name product_name) Hb
                               search_methods None "placeholder" st eq_refl)
    as (u & st1 & Hloop & Hu & Hlog).
  exists (world st1).
  rewrite (unresolved_gives_smart_placeholder _ _ _ _ _ _ Hloop Hu).
  rewrite Hlog, <- app_assoc. reflexivity.
Qed.

(** X13: when the methods before the [j]-th have not resolved the product
    and the [j]-th returns a URL the validator accepts, the record has the
    [j]-th method's source and URL, none of the later methods is called and
    the placeholder generator is not used. *)
Theorem first_valid_candidate_ends_search (product_name : string)
        (pre post : list (string * method)) (nj : string) (mj : method)
        (st0 st1 st2 st3 : state World) (u0 : option string)
        (s0 uj : string) :
  search_methods = (pre ++ (nj, mj) :: post)%list ->
  for_methods http (clean_product_name product_name) pre
              None "placeholder" st0 = (Ret (Continue u0 s0), st1) ->
  invoke http mj (clean_product_name product_name) st1
  = (Ret (Some uj), st2) ->
  uj <> "" ->
  validate_image_url http uj st2 = (Ret true, st3) ->
  fetch_product_image http product_name st0
  = (Ret (mkProductImage product_name uj (source_of nj)
                         ("Image of " ++ product_name)), st3) /\
  exists l,
    calls st3 = (calls st0 ++ l)%list /\
    (forall n m arg, In (n, m) post -> ~ In (CallSearch m arg) l) /\
    (forall n, ~ In (CallPlaceholder n) l).
Proof.
  intros Hsplit Hpre Hmj Huj Hacc.
  set (cleaned := clean_product_name product_name) in *.
  assert (Hej : is_empty uj = false)
    by (destruct uj; [contradiction|reflexivity]).
  assert (Hloop : for_methods http cleaned search_methods
                              None "placeholder" st0
                  = (Ret (Break (Some uj) (source_of nj)), st3)).
  { rewrite Hsplit, for_methods_app, Hpre.
    cbn [for_methods]. unfold bind.
    rewrite try_method_run, Hmj, Hej, Hacc. reflexivity. }
  split.
  { rewrite (fetch_product_image_run _ _ _ _ _ Hloop). cbn.
    rewrite Hej. reflexivity. }
  destruct (for_methods_spec http cleaned pre None "placeholder" st0)
    as (f & st1' & l1 & Hrun & Hlog1 & Hl1 & _).
  rewrite Hpre in Hrun. injection Hrun as <- <-.
  pose proof (invoke_log http mj cleaned st1) as Hlog_j.
  rewrite Hmj in Hlog_j. cbn in Hlog_j.
  pose proof search_methods_nodup as Hnodup.
  rewrite Hsplit, map_app in Hnodup. cbn [map] in Hnodup.
  exists (l1 ++ [CallSearch mj cleaned; CallHead uj])%list.
  split; [|split].
  - rewrite (validate_log http _ _ _ _ Hacc), Hlog_j, Hlog1.
    repeat (rewrite <- app_assoc; cbn [app]). reflexivity.
  - intros n m arg Hin Hlogged.
    assert (Hm : In m (map snd post))
      by (apply in_map_iff; exists (n, m); auto).
    apply in_app_or in Hlogged. destruct Hlogged as [Hlogged|Hlogged].
    + rewrite Forall_forall in Hl1. destruct (Hl1 _ Hlogged) as [Hpre_m _].
      apply NoDup_app_remove_r in Hnodup as Hnd_pre.
      clear Hnd_pre.
      revert Hnodup Hpre_m Hm. clear. intros Hnodup Hpre_m Hm.
      induction (map snd pre) as [|x xs IH]; [destruct Hpre_m|].
      cbn in Hnodup. inversion Hnodup as [|? ? Hnotin Hrest]; subst.
      destruct Hpre_m as [->|Hin'].
      * apply Hnotin. apply in_or_app. right. right. exact Hm.
      * exact (IH Hrest Hin').
    + cbn in Hlogged. destruct Hlogged as [Heq|[Heq|[]]]; [|discriminate Heq].
      injection Heq as <- _.
      apply NoDup_remove_2 in Hnodup. apply Hnodup.
      apply in_or_app. right. exact Hm.
  - intros n Hin. apply in_app_or in Hin. destruct Hin as [Hin|Hin].
    + exact (logged_no_placeholder _ _ _ Hl1 n Hin).
    + cbn in Hin. intuition discriminate.
Qed.

End WithHttp.

Lemma fetch_product_image_sources_witness :
  exists r st',
    fetch_product_image Scenario.silent "Toy Tidy Spaceboy" Scenario.start
    = (Ret r, st') /\
    image_url r = generate_smart_placeholder "Toy Tidy Spaceboy".
Proof.
  destruct (fetch_product_image_sources
              Scenario.silent "Toy Tidy Spaceboy" Scenario.start)
    as (r & st' & Hrun & _ & _ & H).
  exists r, st'. split; [exact Hrun|].
  apply H. pose proof Hrun as Hrun'. vm_compute in Hrun'.
  injection Hrun' as Hr _. rewrite <- Hr. reflexivity.
Defined.

Lemma method_source_means_validated_witness :
  exists st_a,
    validate_image_url Scenario.second_try Scenario.good_url st_a
    = (Ret true,
       mkState 4 [CallSearch duckduckgo_images "Mug";
                  CallHead Scenario.gone_url;
                  CallSearch bing_images "Mug";
                  CallHead Scenario.good_url]).
Proof.
  apply (method_source_means_validated
           Scenario.second_try "Large Mug" Scenario.start _
           (mkProductImage "Large Mug" Scenario.good_url "bing_images"
                           "Image of Large Mug")).
  - vm_compute. reflexivity.
  - cbn. tauto.
Defined.

Lemma barren_network_gives_smart_placeholder_witness :
  exists w,
    fetch_product_image Scenario.silent "Toy Tidy Spaceboy" Scenario.start
    = (Ret (mkProductImage "Toy Tidy Spaceboy"
                           (generate_smart_placeholder "Toy Tidy Spaceboy")
                           "smart_placeholder"
                           ("Image of " ++ "Toy Tidy Spaceboy")),
       mkState w
         (calls Scenario.start
          ++ map (fun entry =>
                    CallSearch (snd entry)
                               (clean_product_name "Toy Tidy Spaceboy"))
                 search_methods
          ++ [CallPlaceholder "Toy Tidy Spaceboy"])).
Proof.
  apply (barren_network_gives_smart_placeholder
           Scenario.silent "Toy Tidy Spaceboy" Scenario.start).
  intros arg w. cbn. tauto.
Defined.

Lemma first_valid_candidate_ends_search_witness :
  fetch_product_image first_hit "Popcorn Holder" Scenario.start
  = (Ret (mkProductImage "Popcorn Holder" Scenario.good_url "duckduckgo"
                         "Image of Popcorn Holder"),
     mkState 2 [CallSearch duckduckgo_images "Popcorn";
                CallHead Scenario.good_url]) /\
  exists l,
    [CallSearch duckduckgo_images "Popcorn"; CallHead Scenario.good_url]
    = ([] ++ l)%list /\
    (forall (n : string) (m : method) (arg : string),
        In (n, m) [("Bing Images", bing_images);
                   ("Shopping Sites", shopping_sites);
                   ("Direct Search", direct_product_search)] ->
        ~ In (CallSearch m arg) l) /\
    (forall n, ~ In (CallPlaceholder n) l).
Proof.
  apply (first_valid_candidate_ends_search
           first_hit "Popcorn Holder"
           [] [("Bing Images", bing_images);
               ("Shopping Sites", shopping_sites);
               ("Direct Search", direct_product_search)]
           "DuckDuckGo" duckduckgo_images
           Scenario.start Scenario.start
           (mkState 1 [CallSearch duckduckgo_images "Popcorn"])
           (mkState 2 [CallSearch duckduckgo_images "Popcorn";
                       CallHead Scenario.good_url])
           None "placeholder" Scenario.good_url).
  - reflexivity.
  - vm_compute. reflexivity.
  - vm_compute. reflexivity.
  - discriminate.
  - vm_compute. reflexivity.
Defined.

End PipelineMore.

(* ================================================================= *)
(** ** Further properties of the batch driver and of the summary *)

Module BatchMore.
Import PyStr Fetcher Eff Pipeline Spec Terms Summary.
Import PipelineFacts PipelineMore BatchFacts.

Section WithHttp.
Context {World : Type} (http : Http World).

(** One round of the batch with the real per-product method: the record
    of the pipeline, a sleep exactly when the round is not the last, and
    the error record after it when that sleep raised. *)
Lemma batch_round_trace (total i : nat) (raw : string)
      (results : list ProductImage) (st : state World) :
  exists g st' l,
    batch_round http (fetch_product_image http) total i raw results st
    = (Ret (results ++ g)%list, st') /\
    calls st' = (calls st ++ l)%list /\
    List.length (filter is_sleep l) = (if i <? total then 1 else 0) /\
    round_records raw g /\
    Forall (fun r => In (source r) pipeline_sources \/
                     source r = "error_placeholder") g /\
    1 <= List.length g <= 1 + (if i <? total then 1 else 0) /\
    (calm http ->
     List.length g = 1 /\
     Forall (fun r => In (source r) pipeline_sources) g).
Proof.
  destruct (fetch_product_image_trace http (strip raw) st)
    as (r & st1 & l & k & Hrun & Hlog & _ & _ & _ & Hsl & Hsrc & _).
  destruct (fetch_product_image_name http (strip raw) st)
    as (r0 & st0 & Hrun0 & Hname & Halt & Hne).
  rewrite Hrun in Hrun0. injection Hrun0 as <- <-.
  assert (Hr : pipeline_record raw r) by (repeat split; assumption).
  assert (Hone : round_records raw [r]) by (exists r; auto).
  assert (Htwo : round_records raw [r; error_record raw])
    by (exists r; auto).
  assert (Hs1 : Forall (fun r => In (source r) pipeline_sources \/
                                 source r = "error_placeholder") [r])
    by (constructor; [left; exact Hsrc|constructor]).
  assert (Hs2 : Forall (fun r => In (source r) pipeline_sources \/
                                 source r = "error_placeholder")
                       [r; error_record raw])
    by (constructor;
        [left; exact Hsrc|constructor; [right; reflexivity|constructor]]).
  assert (Hc1 : List.length [r] = 1 /\
                Forall (fun r => In (source r) pipeline_sources) [r])
    by (split; [reflexivity|constructor; [exact Hsrc|constructor]]).
  unfold batch_round, bind, attempt. rewrite Hrun.
  destruct (i <? total).
  - unfold sleep, perform, on_error, call_placeholder, perform, bind, ret.
    destruct (pause http (world st1)) as [[[]|] w] eqn:Hpause;
      cbn [fst snd world calls].
    + exists [r]. eexists _, (l ++ [CallSleep])%list.
      split; [reflexivity|].
      split; [rewrite Hlog, <- app_assoc; reflexivity|].
      split; [rewrite filter_app, Hsl; reflexivity|].
      split; [exact Hone|].
      split; [exact Hs1|].
      split; [cbn [List.length]; lia|].
      intros _. exact Hc1.
    + exists [r; error_record raw].
      eexists _, (l ++ [CallSleep; CallPlaceholder raw])%list.
      rewrite <- app_assoc. split; [reflexivity|].
      split; [rewrite Hlog, <- !app_assoc; reflexivity|].
      split; [rewrite filter_app, Hsl; reflexivity|].
      split; [exact Htwo|].
      split; [exact Hs2|].
      split; [cbn [List.length]; lia|].
      intros Hcalm. specialize (Hcalm (world st1)).
      rewrite Hpause in Hcalm. discriminate Hcalm.
  - exists [r], st1, l. split; [reflexivity|].
    split; [exact Hlog|].
    split; [rewrite Hsl; reflexivity|].
    split; [exact Hone|].
    split; [exact Hs1|].
    split; [cbn [List.length]; lia|].
    intros _. exact Hc1.
Qed.

Lemma batch_loop_trace (total : nat) :
  forall (names : list string) (i : nat)
         (results : list ProductImage) (st : state World),
  exists groups st' l,
    batch_loop http (fetch_product_image http) total i names results st
    = (Ret (results ++ List.concat groups)%list, st') /\
    calls st' = (calls st ++ l)%list /\
    List.length (filter is_sleep l)
    = Nat.min (List.length names) (total - i) /\
    Forall2 round_records names groups /\
    Forall (fun r => In (source r) pipeline_sources \/
                     source r = "error_placeholder") (List.concat groups) /\
    List.length names <= List.length (List.concat groups)
    <= List.length names + Nat.min (List.length names) (total - i) /\
    (calm http ->
     List.length (List.concat groups) = List.length names /\
     Forall (fun r => In (source r) pipeline_sources) (List.concat groups)).
Proof.
  induction names as [|raw names IH]; intros i results st.
  - exists [], st, []. cbn. rewrite !app_nil_r.
    repeat split; try constructor; lia.
  - cbn [batch_loop]. unfold bind.
    destruct (batch_round_trace total i raw results st)
      as (g & st1 & l1 & Hround & Hlog1 & Hsl1 & Hg & Hsrc1 & Hlen1 & Hcalm1).
    rewrite Hround.
    destruct (IH (S i) (results ++ g)%list st1)
      as (groups & st2 & l2 & Hloop & Hlog2 & Hsl2 & Hgroups & Hsrc2
          & Hlen2 & Hcalm2).
    exists (g :: groups), st2, (l1 ++ l2)%list.
    rewrite Hloop. cbn [List.concat List.length]. rewrite <- app_assoc.
    split; [reflexivity|].
    split; [rewrite Hlog2, Hlog1, <- app_assoc; reflexivity|].
    assert (Harith : (if i <? total then 1 else 0)
                     + Nat.min (List.length names) (total - S i)
                     = Nat.min (S (List.length names)) (total - i)).
    { destruct (i <? total) eqn:Hlt.
      - apply Nat.ltb_lt in Hlt. lia.
      - apply Nat.ltb_ge in Hlt. lia. }
    split; [rewrite filter_app, length_app, Hsl1, Hsl2; exact Harith|].
    split; [constructor; assumption|].
    split; [apply Forall_app; auto|].
    split; [rewrite length_app; lia|].
    intros Hcalm. destruct (Hcalm1 Hcalm) as [Hone Hin1].
    destruct (Hcalm2 Hcalm) as [Hrest Hin2].
    split; [rewrite length_app; lia|apply Forall_app; auto].
Qed.

(** X14: a batch over [N] names sleeps [N - 1] times: after every product
    but the last. *)
Theorem batch_sleeps_between_products (names : list string)
        (st : state World) :
  exists results st' l,
    fetch_all_images http names st = (Ret results, st') /\
    calls st' = (calls st ++ l)%list /\
    List.length (filter is_sleep l) = List.length names - 1.
Proof.
  unfold fetch_all_images, fetch_all_images_with.
  destruct (batch_loop_trace (List.length names) names 1 [] st)
    as (groups & st' & l & Hloop & Hlog & Hsl & _).
  exists (List.concat groups), st', l. cbn [app] in Hloop.
  repeat split; auto. lia.
Qed.

(** X15: as long as the sleep between two products does not raise, the
    batch has exactly one record per name and, whatever the search methods
    and the HEAD requests do, none of them has the source
    "error_placeholder": the pipeline absorbs every failure of these
    collaborators, and each source is the name of a search method,
    "smart_placeholder" or "placeholder". *)
Theorem batch_has_no_error_record (names : list string) (st : state World) :
  calm http ->
  exists results st',
    fetch_all_images http names st = (Ret results, st') /\
    List.length results = List.length names /\
    Forall (fun r => In (source r) pipeline_sources /\
                     source r <> "error_placeholder") results.
Proof.
  intros Hcalm. unfold fetch_all_images, fetch_all_images_with.
  destruct (batch_loop_trace (List.length names) names 1 [] st)
    as (groups & st' & l & Hloop & _ & _ & _ & _ & _ & Hc).
  destruct (Hc Hcalm) as [Hlen Hall].
  exists (List.concat groups), st'. cbn [app] in Hloop.
  split; [exact Hloop|]. split; [exact Hlen|].
  eapply Forall_impl; [|exact Hall].
  intros r Hin. cbv beta in Hin. split; [exact Hin|].
  intros Heq. rewrite Heq in Hin. cbn in Hin. intuition discriminate.
Qed.


End WithHttp.

Lemma batch_has_no_error_record_witness :
  exists results st',
    fetch_all_images Scenario.silent ["Mug"; "Toy Tidy"] Scenario.start
    = (Ret results, st') /\
    List.length results = List.length ["Mug"; "Toy Tidy"] /\
    Forall (fun r => In (source r) pipeline_sources /\
                     source r <> "error_placeholder") results.
Proof.
  apply (batch_has_no_error_record
           Scenario.silent ["Mug"; "Toy Tidy"] Scenario.start).
  intros w. reflexivity.
Defined.

(** *** The summary of [main] *)

(** X16: the two counts of the summary add up to the number of records. *)
Theorem summary_counts_add_up (results : list ProductImage) :
  real_images results + placeholders results = List.length results.
Proof.
  unfold real_images, placeholders.
  induction results as [|r results IH]; [reflexivity|].
  cbn [filter]. destruct (contains "placeholder" (source r));
    cbn [negb List.length]; lia.
Qed.

Lemma dict_get_set (d : list (string * nat)) (key key' : string)
      (value : nat) :
  dict_get (dict_set d key value) key' 0
  = if String.eqb key key' then value else dict_get d key' 0.
Proof.
  induction d as [|[k v] d IH]; cbn [dict_set dict_get].
  - destruct (String.eqb key key'); reflexivity.
  - destruct (String.eqb k key) eqn:Hk; cbn [dict_get].
    + apply String.eqb_eq in Hk. subst k.
      destruct (String.eqb key key'); reflexivity.
    + destruct (String.eqb k key') eqn:Hk'; [|exact IH].
      apply String.eqb_eq in Hk'. subst k. now rewrite String.eqb_sym, Hk.
Qed.

Lemma total_count_bump (d : list (string * nat)) (key : string) :
  total_count (dict_set d key (dict_get d key 0 + 1)) = total_count d + 1.
Proof.
  induction d as [|[k v] d IH]; cbn [dict_set dict_get]; [reflexivity|].
  unfold total_count in *.
  destruct (String.eqb k key); cbn [fold_right snd] in *; lia.
Qed.

Lemma dict_set_keys (d : list (string * nat)) (key : string) (value : nat) :
  NoDup (map fst d) -> NoDup (map fst (dict_set d key value)).
Proof.
  assert (Hin : forall d x, In x (map fst (dict_set d key value)) ->
                            x = key \/ In x (map fst d)).
  { clear d. induction d as [|[k v] d IH]; intros x; cbn [dict_set].
    - cbn. intros [<-|[]]. now left.
    - destruct (String.eqb k key); cbn; [tauto|].
      intros [->|H]; [auto|]. apply IH in H. tauto. }
  induction d as [|[k v] d IH]; cbn [dict_set]; intros Hnd.
  - repeat constructor. intros [].
  - destruct (String.eqb k key) eqn:Hk; [exact Hnd|].
    cbn [map fst] in *. inversion Hnd as [|? ? Hnotin Hrest]; subst.
    constructor; [|exact (IH Hrest)].
    intros H. apply Hin in H. destruct H as [->|H]; [|contradiction].
    now rewrite String.eqb_refl in Hk.
Qed.

Lemma tally_spec :
  forall (results : list ProductImage) (d : list (string * nat)),
    NoDup (map fst d) ->
    NoDup (map fst (tally results d)) /\
    total_count (tally results d) = total_count d + List.length results /\
    forall s, dict_get (tally results d) s 0
              = dict_get d s 0 + count_source s results.
Proof.
  induction results as [|r results IH]; intros d Hnd.
  - cbn. repeat split; auto.
  - cbn [tally].
    destruct (IH _ (dict_set_keys d (source r)
                                  (dict_get d (source r) 0 + 1) Hnd))
      as (Hkeys & Htotal & Hget).
    split; [exact Hkeys|]. split.
    + rewrite Htotal, total_count_bump. cbn [List.length]. lia.
    + intros s. rewrite Hget, dict_get_set. unfold count_source.
      cbn [filter]. destruct (String.eqb (source r) s) eqn:Hs.
      * apply String.eqb_eq in Hs. subst s. cbn [List.length]. lia.
      * lia.
Qed.

(** X17: in the breakdown by source every source appears once, its count
    is the number of records with that source (0 for a source that does not
    appear), and the counts add up to the number of records. *)
Theorem sources_breakdown_counts (results : list ProductImage) :
  NoDup (map fst (sources_breakdown results)) /\
  total_count (sources_breakdown results) = List.length results /\
  forall s, dict_get (sources_breakdown results) s 0
            = count_source s results.
Proof.
  destruct (tally_spec results [] (NoDup_nil _)) as (Hkeys & Htotal & Hget).
  repeat split; auto.
Qed.

Lemma filter_length_cons {A : Type} (f : A -> bool) (x : A) (xs : list A) :
  List.length (filter f (x :: xs))
  = (if f x then 1 else 0) + List.length (filter f xs).
Proof. cbn [filter]. destruct (f x); reflexivity. Qed.

Lemma pipeline_sources_eq :
  pipeline_sources
  = ["duckduckgo"; "bing_images"; "shopping_sites"; "direct_search";
     "smart_placeholder"; "placeholder"].
Proof. reflexivity. Qed.

Lemma source_flags (s : string) :
  In s pipeline_sources \/ s = "error_placeholder" ->
  (if negb (contains "placeholder" s) then 1 else 0)
  = (if String.eqb s "duckduckgo" then 1 else 0)
    + (if String.eqb s "bing_images" then 1 else 0)
    + (if String.eqb s "shopping_sites" then 1 else 0)
    + (if String.eqb s "direct_search" then 1 else 0) /\
  (if contains "placeholder" s then 1 else 0)
  = (if String.eqb s "smart_placeholder" then 1 else 0)
    + (if String.eqb s "placeholder" then 1 else 0)
    + (if String.eqb s "error_placeholder" then 1 else 0).
Proof.
  rewrite pipeline_sources_eq. cbn [In].
  intros [[<-|[<-|[<-|[<-|[<-|[<-|[]]]]]]]| ->];
    vm_compute; split; reflexivity.
Qed.

Lemma summary_counts_by_source (results : list ProductImage) :
  Forall (fun r => In (source r) pipeline_sources \/
                   source r = "error_placeholder") results ->
  real_images results
  = count_source "duckduckgo" results + count_source "bing_images" results
    + count_source "shopping_sites" results
    + count_source "direct_search" results /\
  placeholders results
  = count_source "smart_placeholder" results
    + count_source "placeholder" results
    + count_source "error_placeholder" results.
Proof.
  unfold real_images, placeholders, count_source.
  induction 1 as [|r results Hr _ IH]; [split; reflexivity|].
  destruct IH as [IHr IHp].
  destruct (source_flags (source r) Hr) as [Hreal Hph].
  rewrite !filter_length_cons. split; lia.
Qed.

Lemma no_source_count (s : string) (results : list ProductImage) :
  Forall (fun r => source r <> s) results -> count_source s results = 0.
Proof.
  unfold count_source. induction 1 as [|r results Hr _ IH]; [reflexivity|].
  cbn [filter]. destruct (String.eqb (source r) s) eqn:Heq; [|exact IH].
  apply String.eqb_eq in Heq. contradiction.
Qed.

(** X18: in the summary of a batch, "real images" counts exactly the
    records whose source names a search method, and "placeholders" counts
    the records with the source "smart_placeholder", "placeholder" or
    "error_placeholder"; so a record that carries the unvalidated URL of
    the last search is counted as a placeholder.  When the sleep between
    two products does not raise, as with the delay range [main] uses, no
    record has the source "error_placeholder". *)
Theorem summary_of_a_batch {World : Type} (http : Http World)
        (names : list string) (st : state World) :
  exists results st',
    fetch_all_images http names st = (Ret results, st') /\
    real_images results
    = count_source "duckduckgo" results + count_source "bing_images" results
      + count_source "shopping_sites" results
      + count_source "direct_search" results /\
    placeholders results
    = count_source "smart_placeholder" results
      + count_source "placeholder" results
      + count_source "error_placeholder" results /\
    (calm http -> count_source "error_placeholder" results = 0).
Proof.
  unfold fetch_all_images, fetch_all_images_with.
  destruct (batch_loop_trace http (List.length names) names 1 [] st)
    as (groups & st' & l & Hloop & _ & _ & _ & Hall & _ & Hc).
  exists (List.concat groups), st'. cbn [app] in Hloop.
  split; [exact Hloop|].
  destruct (summary_counts_by_source _ Hall) as [Hreal Hph].
  split; [exact Hreal|]. split; [exact Hph|].
  intros Hcalm. destruct (Hc Hcalm) as [_ Hin].
  apply no_source_count. eapply Forall_impl; [|exact Hin].
  intros r Hr Heq. cbv beta in Hr. rewrite Heq in Hr. cbn in Hr.
  intuition discriminate.
Qed.

Lemma summary_of_a_batch_witness :
  exists results st',
    fetch_all_images Scenario.silent ["Mug"; "Toy Tidy"] Scenario.start
    = (Ret results, st') /\
    placeholders results
    = count_source "smart_placeholder" results
      + count_source "placeholder" results
      + count_source "error_placeholder" results /\
    count_source "error_placeholder" results = 0.
Proof.
  destruct (summary_of_a_batch
              Scenario.silent ["Mug"; "Toy Tidy"] Scenario.start)
    as (results & st' & Hrun & _ & Hph & Hcalm).
  exists results, st'. split; [exact Hrun|]. split; [exact Hph|].
  apply Hcalm. intros w. reflexivity.
Defined.

End BatchMore.

(* ================================================================= *)
(** ** Properties of the four search methods *)

Module SearchFacts.
Import PyStr Fetcher Eff Pipeline Json Search Spec Terms.
Import ValidatorFacts.

Section WithWeb.
Context {World Num : Type} (web : Web World Num).

(** *** [search_shopping_sites] *)

Lemma try_site_run (site : Site) (st : state World) :
  try_site web site st
  = match get web (site_url site) [] (world st) with
    | (Ret page, w) =>
        if (page_status page =? 200)%Z then
          match page_select page (img_selector site) with
          | Ret imgs =>
              (Ret (first_shop_src (firstn 3 imgs)), mkState w (calls st))
          | Raise => (Raise, mkState w (calls st))
          end
        else (Ret None, mkState w (calls st))
    | (Raise, w) => (Raise, mkState w (calls st))
    end.
Proof.
  unfold try_site, session_get, bind, pure, ret.
  destruct (get web (site_url site) [] (world st)) as [[page|] w];
    [|reflexivity].
  destruct (page_status page =? 200)%Z; [|reflexivity].
  destruct (page_select page (img_selector site)); reflexivity.
Qed.

Lemma first_shop_src_sound :
  forall (imgs : list (option string * option string)) (src : string),
    first_shop_src imgs = Some src -> shop_src_ok (Some src) = true.
Proof.
  induction imgs as [|[a b] imgs IH]; intros src H; [discriminate H|].
  cbn [first_shop_src] in H.
  destruct (shop_src_ok (py_or a b)) eqn:Hok; [|exact (IH src H)].
  rewrite H in Hok. exact Hok.
Qed.

Lemma for_sites_sound :
  forall (sites : list Site) (st : state World),
  exists r st',
    for_sites web sites st = (Ret r, st') /\
    forall src, r = Some src -> shop_src_ok (Some src) = true.
Proof.
  induction sites as [|site sites IH]; intros st.
  - exists None, st. split; [reflexivity|discriminate].
  - cbn [for_sites]. unfold bind, attempt. rewrite try_site_run.
    destruct (get web (site_url site) [] (world st)) as [[page|] w];
      [|apply IH].
    destruct (page_status page =? 200)%Z; [|apply IH].
    destruct (page_select page (img_selector site)) as [imgs|]; [|apply IH].
    destruct (first_shop_src (firstn 3 imgs)) as [src|] eqn:Hsrc; [|apply IH].
    eexists _, _. split; [reflexivity|].
    intros src' H. injection H as <-.
    exact (first_shop_src_sound _ _ Hsrc).
Qed.

Lemma shop_src_ok_facts (src : string) :
  shop_src_ok (Some src) = true ->
  src <> "" /\
  contains "http" src = true /\
  any_extension_in (lower src) = true /\
  contains "thumb" (lower src) = false /\
  contains "50x50" src = false.
Proof.
  unfold shop_src_ok. intros H.
  apply andb_true_iff in H. destruct H as [H1 H2].
  apply andb_true_iff in H1. destruct H1 as [H1 Hext].
  apply andb_true_iff in H1. destruct H1 as [Hne Hhttp].
  apply andb_true_iff in H2. destruct H2 as [Hthumb Hsmall].
  apply negb_true_iff in Hthumb, Hsmall.
  repeat split; try assumption.
  intros ->. discriminate Hne.
Qed.

Lemma shopping_result_is_filtered_aux (product_name : string)
      (st : state World) :
  exists r st',
    search_shopping_sites web product_name st = (Ret r, st') /\
    forall src, r = Some src -> shop_src_ok (Some src) = true.
Proof. apply for_sites_sound. Qed.

(** X19: [search_shopping_sites] never raises, whatever the two sites do;
    a URL it returns is not empty, contains "http" and, lower-cased, one of
    the image extensions, and contains neither "thumb" (in any case) nor
    "50x50". *)
Theorem shopping_result_is_filtered (product_name : string)
        (st : state World) :
  exists r st',
    search_shopping_sites web product_name st = (Ret r, st') /\
    forall src,
      r = Some src ->
      src <> "" /\
      contains "http" src = true /\
      any_extension_in (lower src) = true /\
      contains "thumb" (lower src) = false /\
      contains "50x50" src = false.
Proof.
  unfold search_shopping_sites.
  destruct (for_sites_sound (shopping_sites product_name) st)
    as (r & st' & Hrun & Hok).
  exists r, st'. split; [exact Hrun|].
  intros src Hr. exact (shop_src_ok_facts src (Hok src Hr)).
Qed.

(** X20: a URL returned by [search_shopping_sites] always passes the
    extension test of the validator, so the validator accepts it exactly
    when the HEAD request answers with status 200, whatever the content
    type. *)
Theorem shopping_result_needs_only_200 (product_name : string)
        (st st' : state World) (src : string)
        {World' : Type} (http : Http World') (st_h : state World')
        (response : Response) (w : World') :
  search_shopping_sites web product_name st = (Ret (Some src), st') ->
  head http src (world st_h) = (Ret response, w) ->
  validate_image_url http src st_h
  = (Ret (status_code response =? 200)%Z,
     mkState w (calls st_h ++ [CallHead src])).
Proof.
  intros Hrun Hhead.
  destruct (shopping_result_is_filtered_aux product_name st)
    as (r & st0 & Hrun0 & Hok).
  rewrite Hrun in Hrun0. injection Hrun0 as <- <-.
  destruct (shop_src_ok_facts src (Hok src eq_refl)) as (_ & _ & Hext & _).
  rewrite validate_image_url_run, Hhead. cbn [fst snd verdict].
  unfold plausible_image. rewrite Hext, orb_true_r, andb_true_r.
  reflexivity.
Qed.

(** X21: when the first three images of the Amazon result page include an
    acceptable one, that one is returned after a single request: eBay is not
    contacted. *)
Theorem amazon_hit_skips_ebay (product_name : string) (st : state World)
        (page : Page Num) (w : World)
        (imgs : list (option string * option string)) (src : string) :
  get web ("https://www.amazon.com/s?k=" ++ quote_plus product_name) []
      (world st) = (Ret page, w) ->
  page_status page = 200%Z ->
  page_select page ".s-image" = Ret imgs ->
  first_shop_src (firstn 3 imgs) = Some src ->
  search_shopping_sites web product_name st
  = (Ret (Some src), mkState w (calls st)).
Proof.
  intros Hget Hstatus Hselect Hsrc.
  unfold search_shopping_sites, shopping_sites.
  cbn [for_sites]. unfold bind at 1, attempt. rewrite try_site_run.
  cbn [site_url img_selector]. rewrite Hget, Hstatus, Hselect, Hsrc.
  reflexivity.
Qed.

(** X22: a failure at Amazon is confined to Amazon: when that request
    raises, eBay is asked next, and an acceptable image among the first
    three of its result page is returned. *)
Theorem amazon_failure_is_isolated (product_name : string) (st : state World)
        (page : Page Num) (w1 w2 : World)
        (imgs : list (option string * option string)) (src : string) :
  get web ("https://www.amazon.com/s?k=" ++ quote_plus product_name) []
      (world st) = (Raise, w1) ->
  get web ("https://www.ebay.com/sch/i.html?_nkw=" ++ quote_plus product_name)
      [] w1 = (Ret page, w2) ->
  page_status page = 200%Z ->
  page_select page ".s-item__image img" = Ret imgs ->
  first_shop_src (firstn 3 imgs) = Some src ->
  search_shopping_sites web product_name st
  = (Ret (Some src), mkState w2 (calls st)).
Proof.
  intros Hamazon Hebay Hstatus Hselect Hsrc.
  unfold search_shopping_sites, shopping_sites.
  cbn [for_sites]. unfold bind, attempt. rewrite try_site_run.
  cbn [site_url img_selector]. rewrite Hamazon.
  rewrite try_site_run. cbn [site_url img_selector world calls].
  rewrite Hebay, Hstatus, Hselect, Hsrc.
  reflexivity.
Qed.

(** *** [search_bing_images] *)

Lemma first_bing_src_sound :
  forall (srcs : list string) (src : string),
    first_bing_src srcs = Some src ->
    In src srcs /\ bing_src_ok src = true.
Proof.
  induction srcs as [|x srcs IH]; intros src H; [discriminate H|].
  cbn [first_bing_src] in H. destruct (bing_src_ok x) eqn:Hok.
  - injection H as <-. split; [left; reflexivity|exact Hok].
  - destruct (IH src H). split; [right|]; assumption.
Qed.

Lemma lookup_in (kvs : list (string * json Num)) (key : string) :
  existsb (fun kv => String.eqb (fst kv) key) kvs = true <->
  exists v, lookup kvs key = Some v.
Proof.
  induction kvs as [|[k v] kvs IH]; cbn [existsb lookup fst].
  - split; [discriminate|intros [v H]; discriminate H].
  - destruct (String.eqb k key); cbn [orb]; [|exact IH].
    split; eauto.
Qed.

Lemma murl_of_sound (m_attr : string) (v : json Num) :
  murl_of web m_attr = Ret (Some v) ->
  exists kvs, json_loads web m_attr = Ret (JObj kvs) /\
              lookup kvs "murl" = Some v.
Proof.
  unfold murl_of, and_then.
  destruct (json_loads web m_attr) as [data|]; [|discriminate].
  destruct data as [| b | n | s | xs | kvs]; cbn [py_in py_getitem];
    try discriminate.
  - destruct (contains "murl" s); discriminate.
  - destruct (existsb (is_str "murl") xs); discriminate.
  - destruct (existsb _ kvs); [|discriminate].
    destruct (lookup kvs "murl") as [x|] eqn:Hx; [|discriminate].
    intros H. injection H as <-. eauto.
Qed.

Lemma first_murl_sound :
  forall (m_attrs : list string) (v : json Num),
    first_murl web m_attrs = Some v ->
    exists m_attr kvs,
      In m_attr m_attrs /\ m_attr <> "" /\
      json_loads web m_attr = Ret (JObj kvs) /\
      lookup kvs "murl" = Some v.
Proof.
  induction m_attrs as [|m m_attrs IH]; intros v H; [discriminate H|].
  cbn [first_murl] in H.
  assert (Hrest : first_murl web m_attrs = Some v ->
                  exists m_attr kvs,
                    In m_attr (m :: m_attrs) /\ m_attr <> "" /\
                    json_loads web m_attr = Ret (JObj kvs) /\
                    lookup kvs "murl" = Some v).
  { intros H'. destruct (IH v H') as (m' & kvs & Hin & Hne & Hl & Hk).
    exists m', kvs. repeat split; auto. right. exact Hin. }
  destruct (is_empty m) eqn:Hempty; cbn [negb] in H; [exact (Hrest H)|].
  destruct (murl_of web m) as [[x|]|] eqn:Hm; try exact (Hrest H).
  injection H as <-. destruct (murl_of_sound m x Hm) as (kvs & Hl & Hk).
  exists m, kvs. repeat split; auto.
  - left. reflexivity.
  - intros ->. discriminate Hempty.
Qed.

(** X23: [search_bing_images] never raises and makes exactly one request.
    What it returns is [None], or the [src] of an [img] element of the
    page it fetched that is not empty, contains an image extension (lower-cased) and "http" and does not
    contain "bing.com", or the [murl] entry of the JSON object held in the
    [m] attribute of one of the first three links of class [m]. *)
Theorem bing_result_is_filtered (product_name : string) (st : state World) :
  exists v,
    search_bing_images web product_name st
    = (Ret v,
       mkState
         (snd (get web
                   ("https://www.bing.com/images/search?q="
                    ++ quote_plus (product_name ++ " product buy shopping")
                    ++ "&form=HDRSC2&first=1&tsc=ImageHoverTitle")
                   [] (world st)))
         (calls st)) /\
    (v = JNull \/
     (exists page srcs src,
         fst (get web
                  ("https://www.bing.com/images/search?q="
                   ++ quote_plus (product_name ++ " product buy shopping")
                   ++ "&form=HDRSC2&first=1&tsc=ImageHoverTitle")
                  [] (world st)) = Ret page /\
         page_imgs page = Ret srcs /\ In src srcs /\
         v = JStr src /\ src <> "" /\
         any_extension_in (lower src) = true /\
         contains "http" src = true /\
         contains "bing.com" src = false) \/
     (exists page links m_attr kvs,
         fst (get web
                  ("https://www.bing.com/images/search?q="
                   ++ quote_plus (product_name ++ " product buy shopping")
                   ++ "&form=HDRSC2&first=1&tsc=ImageHoverTitle")
                  [] (world st)) = Ret page /\
         page_links page = Ret links /\
         In m_attr (firstn 3 links) /\ m_attr <> "" /\
         json_loads web m_attr = Ret (JObj kvs) /\
         lookup kvs "murl" = Some v)).
Proof.
  unfold search_bing_images, try_except, bind, attempt, session_get, pure, ret.
  destruct (get web _ [] (world st)) as [[page|] w]; cbn [fst snd];
    [|exists JNull; auto].
  destruct (page_status page =? 200)%Z; [|exists JNull; auto].
  destruct (page_imgs page) as [srcs|] eqn:Himgs; [|exists JNull; auto].
  destruct (first_bing_src srcs) as [src|] eqn:Hsrc.
  - exists (JStr src). split; [reflexivity|]. right. left.
    destruct (first_bing_src_sound _ _ Hsrc) as [Hin Hok].
    unfold bing_src_ok in Hok.
    apply andb_true_iff in Hok. destruct Hok as [H1 H2].
    apply andb_true_iff in H1. destruct H1 as [Hne Hext].
    apply andb_true_iff in H2. destruct H2 as [Hhttp Hbing].
    apply negb_true_iff in Hbing.
    exists page, srcs, src. repeat split; auto. intros ->. discriminate Hne.
  - destruct (page_links page) as [links|] eqn:Hlinks; [|exists JNull; auto].
    destruct (first_murl web (firstn 3 links)) as [v|] eqn:Hv;
      [|exists JNull; auto].
    exists v. split; [reflexivity|]. right. right.
    destruct (first_murl_sound _ _ Hv) as (m & kvs & Hin & Hne & Hl & Hk).
    exists page, links, m, kvs. auto 10.
Qed.

(** *** [search_duckduckgo_images] *)

Lemma first_image_sound :
  forall (items : list (json Num)) (v : json Num),
    first_image items = Ret (Some v) ->
    exists item, In (JObj item) items /\ lookup item "image" = Some v.
Proof.
  induction items as [|x items IH]; intros v H; [discriminate H|].
  cbn [first_image] in H. unfold and_then in H.
  assert (Hrest : first_image items = Ret (Some v) ->
                  exists item, In (JObj item) (x :: items) /\
                               lookup item "image" = Some v).
  { intros H'. destruct (IH v H') as (item & Hin & Hl).
    exists item. split; [right|]; assumption. }
  destruct x as [| b | n | s | xs | kvs]; cbn [py_in py_getitem] in H;
    try discriminate H.
  - destruct (contains "image" s); [discriminate H|exact (Hrest H)].
  - destruct (existsb (is_str "image") xs); [discriminate H|exact (Hrest H)].
  - destruct (existsb _ kvs); [|exact (Hrest H)].
    destruct (lookup kvs "image") as [y|] eqn:Hy; [|discriminate H].
    injection H as <-. exists kvs. split; [left; reflexivity|exact Hy].
Qed.

(** Iterating over a string yields single characters, none of which
    contains "image". *)
Lemma first_image_chars (t : string) :
  first_image (Num := Num) (chars t) = Ret None.
Proof.
  induction t as [|c t IH]; [reflexivity|].
  cbn [chars first_image py_in and_then].
  assert (Hc : contains "image" (String c EmptyString) = false).
  { cbn [contains startswith]. now rewrite andb_false_r. }
  rewrite Hc. exact IH.
Qed.

Lemma results_image_sound (data v : json Num) :
  results_image web data = Ret (Some v) ->
  exists kvs results item,
    data = JObj kvs /\
    lookup kvs "results" = Some (JArr results) /\
    In (JObj item) (firstn 3 results) /\
    lookup item "image" = Some v.
Proof.
  unfold results_image, and_then.
  destruct data as [| b | n | s | xs | kvs]; cbn [py_in py_getitem];
    try discriminate.
  - destruct (contains "results" s); discriminate.
  - destruct (existsb (is_str "results") xs); discriminate.
  - destruct (existsb _ kvs); [|discriminate].
    destruct (lookup kvs "results") as [results|] eqn:Hres; [|discriminate].
    destruct (py_truth (num_truth web) results); [|discriminate].
    destruct results as [| b | n | s | xs | kvs']; cbn [py_first3 py_iter];
      try discriminate.
    + rewrite first_image_chars. discriminate.
    + intros H. destruct (first_image_sound _ _ H) as (item & Hin & Hl).
      exists kvs, xs, item. auto.
Qed.

(** X24: [search_duckduckgo_images] never raises.  When it returns
    something other than [None], the result page had status 200 and held a
    token, a second request was sent to the image endpoint with that token
    as [vqd], its answer had status 200 and decoded to an object whose
    [results] is a list, and the value returned is the [image] entry of one
    of the first three results. *)
Theorem duckduckgo_result_is_an_image_entry (product_name : string)
        (st : state World) :
  exists v st',
    search_duckduckgo_images web product_name st = (Ret v, st') /\
    (v <> JNull ->
     exists page w vqd answer kvs results item,
       get web ("https://duckduckgo.com/?q=" ++ quote_plus product_name
                ++ "&iax=images&ia=images") [] (world st)
       = (Ret page, w) /\
       page_status page = 200%Z /\
       vqd_token (page_text page) = Some vqd /\
       get web "https://duckduckgo.com/i.js"
           [ ("l", "us-en"); ("o", "json"); ("q", product_name);
             ("vqd", vqd); ("f", ",,,"); ("p", "1"); ("v7exp", "a") ] w
       = (Ret answer, world st') /\
       page_status answer = 200%Z /\
       page_json answer = Ret (JObj kvs) /\
       lookup kvs "results" = Some (JArr results) /\
       In (JObj item) (firstn 3 results) /\
       lookup item "image" = Some v).
Proof.
  unfold search_duckduckgo_images, try_except, bind, attempt,
         session_get, pure, ret.
  destruct (get web _ [] (world st)) as [[page|] w] eqn:Hget;
    [|eexists JNull, _; split; [reflexivity|congruence]].
  destruct (page_status page =? 200)%Z eqn:Hstatus;
    [|eexists JNull, _; split; [reflexivity|congruence]].
  destruct (vqd_token (page_text page)) as [vqd|] eqn:Htoken;
    [|eexists JNull, _; split; [reflexivity|congruence]].
  cbn [world calls].
  destruct (get web "https://duckduckgo.com/i.js" _ w) as [[answer|] w2]
    eqn:Hget2;
    [|eexists JNull, _; split; [reflexivity|congruence]].
  destruct (page_status answer =? 200)%Z eqn:Hstatus2;
    [|eexists JNull, _; split; [reflexivity|congruence]].
  destruct (page_json answer) as [data|] eqn:Hjson;
    [|eexists JNull, _; split; [reflexivity|congruence]].
  destruct (results_image web data) as [[v|]|] eqn:Hfound;
    try (eexists JNull, _; split; [reflexivity|congruence]).
  eexists v, _. split; [reflexivity|]. intros _. cbn [world].
  destruct (results_image_sound data v Hfound)
    as (kvs & results & item & -> & Hres & Hin & Himage).
  apply Z.eqb_eq in Hstatus, Hstatus2.
  exists page, w, vqd, answer, kvs, results, item. auto 10.
Qed.

(** *** [search_direct_product_search] *)

Lemma first_file_url_sound (data : json Num) (url : string) :
  first_file_url data = Ret (Some url) ->
  exists kvs query hit rest title,
    data = JObj kvs /\
    lookup kvs "query" = Some (JObj query) /\
    lookup query "search" = Some (JArr (JObj hit :: rest)) /\
    lookup hit "title" = Some (JStr title) /\
    url = file_path_prefix
          ++ quote_plus (Re.sub (Re.lit false "File:") "" title).
Proof.
  unfold first_file_url, and_then.
  destruct data as [| b | n | s | xs | kvs]; cbn [py_in py_getitem];
    try discriminate.
  - destruct (contains "query" s); discriminate.
  - destruct (existsb (is_str "query") xs); discriminate.
  - destruct (existsb _ kvs); [|discriminate].
    destruct (lookup kvs "query") as [query|] eqn:Hq; [|discriminate].
    destruct query as [| b | n | s | xs | q]; cbn [py_in py_getitem];
      try discriminate.
    + destruct (contains "search" s); discriminate.
    + destruct (existsb (is_str "search") xs); discriminate.
    + destruct (existsb _ q); [|discriminate].
      destruct (lookup q "search") as [hits|] eqn:Hs; [|discriminate].
      destruct hits as [| b | n | s | xs | h]; cbn [py_iter];
        try discriminate.
      * destruct s as [|c s]; cbn [chars py_getitem]; discriminate.
      * destruct xs as [|result rest]; [discriminate|].
        destruct result as [| b | n | s | ys | hit]; cbn [py_getitem];
          try discriminate.
        destruct (lookup hit "title") as [t|] eqn:Ht; [|discriminate].
        destruct t as [| b | n | title | ys | o]; cbn [py_remove];
          try discriminate.
        intros H. injection H as <-.
        exists kvs, q, hit, rest, title. auto 10.
      * destruct h as [|[k x] h]; cbn [map py_getitem]; discriminate.
Qed.

Lemma py_in_key (kvs : list (string * json Num)) (key : string)
      (v : json Num) :
  lookup kvs key = Some v -> py_in key (JObj kvs) = Ret true.
Proof.
  intros H. cbn [py_in]. f_equal. apply lookup_in. eauto.
Qed.

(** X25: [search_direct_product_search] never raises.  When it returns a
    URL, the API answered with status 200 and a JSON object whose
    [query.search] is a list that starts with an object with a string
    [title]; the URL is the [Special:FilePath] address followed by that
    title, without "File:" and quoted. *)
Theorem commons_result_is_first_title (product_name : string)
        (st : state World) :
  exists r st',
    search_direct_product_search web product_name st = (Ret r, st') /\
    forall url,
      r = Some url ->
      exists page kvs query hit rest title,
        get web "https://commons.wikimedia.org/w/api.php"
            [ ("action", "query"); ("format", "json"); ("list", "search");
              ("srsearch", product_name); ("srnamespace", "6");
              ("srlimit", "3") ] (world st)
        = (Ret page, world st') /\
        page_status page = 200%Z /\
        page_json page = Ret (JObj kvs) /\
        lookup kvs "query" = Some (JObj query) /\
        lookup query "search" = Some (JArr (JObj hit :: rest)) /\
        lookup hit "title" = Some (JStr title) /\
        url = file_path_prefix
              ++ quote_plus (Re.sub (Re.lit false "File:") "" title).
Proof.
  unfold search_direct_product_search, try_except, bind, attempt,
         session_get, pure, ret.
  destruct (get web _ _ (world st)) as [[page|] w] eqn:Hget;
    [|eexists None, _; split; [reflexivity|discriminate]].
  destruct (page_status page =? 200)%Z eqn:Hstatus;
    [|eexists None, _; split; [reflexivity|discriminate]].
  destruct (page_json page) as [data|] eqn:Hjson;
    [|eexists None, _; split; [reflexivity|discriminate]].
  destruct (first_file_url data) as [[url|]|] eqn:Hurl;
    try (eexists None, _; split; [reflexivity|discriminate]).
  eexists (Some url), _. split; [reflexivity|].
  intros url' H. injection H as <-. cbn [world].
  destruct (first_file_url_sound data url Hurl)
    as (kvs & query & hit & rest & title & -> & Hq & Hs & Ht & Heq).
  apply Z.eqb_eq in Hstatus.
  exists page, kvs, query, hit, rest, title. auto 10.
Qed.

(** X26: conversely, an answer of that shape always yields the URL built
    from the title of the first hit; the hits after the first and the other
    entries of the answer play no part. *)
Theorem commons_first_hit_decides (product_name : string) (st : state World)
        (page : Page Num) (w : World)
        (kvs query hit : list (string * json Num)) (rest : list (json Num))
        (title : string) :
  get web "https://commons.wikimedia.org/w/api.php"
      [ ("action", "query"); ("format", "json"); ("list", "search");
        ("srsearch", product_name); ("srnamespace", "6");
        ("srlimit", "3") ] (world st)
  = (Ret page, w) ->
  page_status page = 200%Z ->
  page_json page = Ret (JObj kvs) ->
  lookup kvs "query" = Some (JObj query) ->
  lookup query "search" = Some (JArr (JObj hit :: rest)) ->
  lookup hit "title" = Some (JStr title) ->
  search_direct_product_search web product_name st
  = (Ret (Some (file_path_prefix
                ++ quote_plus (Re.sub (Re.lit false "File:") "" title))),
     mkState w (calls st)).
Proof.
  intros Hget Hstatus Hjson Hq Hs Ht.
  unfold search_direct_product_search, try_except, bind, attempt,
         session_get, pure, ret.
  rewrite Hget, Hstatus, Hjson. cbn [Z.eqb Pos.eqb].
  unfold first_file_url.
  rewrite (py_in_key _ _ _ Hq). cbn [and_then py_getitem]. rewrite Hq.
  cbn [and_then].
  rewrite (py_in_key _ _ _ Hs). cbn [and_then py_getitem]. rewrite Hs.
  cbn [py_iter and_then py_getitem]. rewrite Ht.
  reflexivity.
Qed.

End WithWeb.

Lemma shopping_result_needs_only_200_witness :
  validate_image_url Scenario.no_content Pages.picture Scenario.start
  = (Ret (204 =? 200)%Z, mkState 1 [CallHead Pages.picture]).
Proof.
  apply (shopping_result_needs_only_200
           Pages.shops_up "Mug" (mkState 0 []) (mkState 1 []) Pages.picture
           Scenario.no_content Scenario.start
           (mkResponse 204 (Some "image/png")) 1).
  - vm_compute. reflexivity.
  - reflexivity.
Defined.

Lemma amazon_hit_skips_ebay_witness :
  search_shopping_sites Pages.shops_up "Gin And Tonic Mug" (mkState 0 [])
  = (Ret (Some Pages.picture), mkState 1 []).
Proof.
  apply (amazon_hit_skips_ebay
           Pages.shops_up "Gin And Tonic Mug" (mkState 0 []) Pages.shelf 1
           [(Some Pages.thumbnail, None); (None, Some Pages.picture)]
           Pages.picture).
  - reflexivity.
  - reflexivity.
  - reflexivity.
  - vm_compute. reflexivity.
Defined.

Lemma amazon_failure_is_isolated_witness :
  search_shopping_sites Pages.amazon_down "Gin And Tonic Mug" (mkState 0 [])
  = (Ret (Some Pages.picture), mkState 2 []).
Proof.
  apply (amazon_failure_is_isolated
           Pages.amazon_down "Gin And Tonic Mug" (mkState 0 [])
           Pages.shelf 1 2
           [(Some Pages.thumbnail, None); (None, Some Pages.picture)]
           Pages.picture).
  - vm_compute. reflexivity.
  - vm_compute. reflexivity.
  - reflexivity.
  - reflexivity.
  - vm_compute. reflexivity.
Defined.

Lemma commons_first_hit_decides_witness :
  search_direct_product_search Pages.commons_up "Popcorn" (mkState 0 [])
  = (Ret (Some (file_path_prefix
                ++ quote_plus (Re.sub (Re.lit false "File:") ""
                                      "File:Popcorn bowl.jpg"))),
     mkState 1 []).
Proof.
  apply (commons_first_hit_decides
           Pages.commons_up "Popcorn" (mkState 0 []) Pages.commons_hits 1
           [("batchcomplete", JStr "");
            ("query",
             JObj [("search",
                    JArr [JObj [("ns", JNum tt);
                                ("title", JStr "File:Popcorn bowl.jpg")];
                          JObj [("title", JStr "File:Other.png")]])])]
           [("search",
             JArr [JObj [("ns", JNum tt);
                         ("title", JStr "File:Popcorn bowl.jpg")];
                   JObj [("title", JStr "File:Other.png")]])]
           [("ns", JNum tt); ("title", JStr "File:Popcorn bowl.jpg")]
           [JObj [("title", JStr "File:Other.png")]]
           "File:Popcorn bowl.jpg");
    reflexivity.
Defined.

Lemma shopping_result_is_filtered_witness :
  Pages.picture <> "" /\
  contains "http" Pages.picture = true /\
  any_extension_in (lower Pages.picture) = true /\
  contains "thumb" (lower Pages.picture) = false /\
  contains "50x50" Pages.picture = false.
Proof.
  destruct (shopping_result_is_filtered Pages.shops_up "Mug" (mkState 0 []))
    as (r & st' & Hrun & H).
  vm_compute in Hrun. injection Hrun as <- <-.
  exact (H Pages.picture eq_refl).
Defined.

Lemma duckduckgo_result_is_an_image_entry_witness :
  exists page w vqd answer kvs results item,
    get Pages.duck_up
        ("https://duckduckgo.com/?q=" ++ quote_plus "Mug"
         ++ "&iax=images&ia=images") [] 0
    = (Ret page, w) /\
    page_status page = 200%Z /\
    vqd_token (page_text page) = Some vqd /\
    get Pages.duck_up "https://duckduckgo.com/i.js"
        [ ("l", "us-en"); ("o", "json"); ("q", "Mug");
          ("vqd", vqd); ("f", ",,,"); ("p", "1"); ("v7exp", "a") ] w
    = (Ret answer, 2) /\
    page_status answer = 200%Z /\
    page_json answer = Ret (JObj kvs) /\
    lookup kvs "results" = Some (JArr results) /\
    In (JObj item) (firstn 3 results) /\
    lookup item "image" = Some (JStr Pages.picture).
Proof.
  destruct (duckduckgo_result_is_an_image_entry
              Pages.duck_up "Mug" (mkState 0 []))
    as (v & st' & Hrun & H).
  vm_compute in Hrun. injection Hrun as <- <-.
  apply H. discriminate.
Defined.

Lemma commons_result_is_first_title_witness :
  exists page kvs query hit rest title,
    get Pages.commons_up "https://commons.wikimedia.org/w/api.php"
        [ ("action", "query"); ("format", "json"); ("list", "search");
          ("srsearch", "Popcorn"); ("srnamespace", "6");
          ("srlimit", "3") ] 0
    = (Ret page, 1) /\
    page_status page = 200%Z /\
    page_json page = Ret (JObj kvs) /\
    lookup kvs "query" = Some (JObj query) /\
    lookup query "search" = Some (JArr (JObj hit :: rest)) /\
    lookup hit "title" = Some (JStr title) /\
    "https://commons.wikimedia.org/wiki/Special:FilePath/Popcorn+bowl.jpg"
    = file_path_prefix
      ++ quote_plus (Re.sub (Re.lit false "File:") "" title).
Proof.
  destruct (commons_result_is_first_title
              Pages.commons_up "Popcorn" (mkState 0 []))
    as (r & st' & Hrun & H).
  vm_compute in Hrun. injection Hrun as <- <-.
  exact (H _ eq_refl).
Defined.

(** The scripted pages, run through the methods. *)
Example duckduckgo_on_scripted_pages :
  vqd_token (page_text Pages.token_page) = Some "4-1234567" /\
  search_duckduckgo_images Pages.duck_up "Mug" (mkState 0 [])
  = (Ret (JStr Pages.picture), mkState 2 []).
Proof. split; vm_compute; reflexivity. Qed.

Example commons_on_scripted_page :
  search_direct_product_search Pages.commons_up "Popcorn" (mkState 0 [])
  = (Ret (Some "https://commons.wikimedia.org/wiki/Special:FilePath/Popcorn+bowl.jpg"),
     mkState 1 []).
Proof. vm_compute. reflexivity. Qed.

End SearchFacts.

(* ================================================================= *)
(** ** The leading pattern of the normaliser *)

Module PrefixFacts.
Import PyStr Re Fetcher Spec Terms.

Lemma rmatch_seq (a b : regex) (pos : nat) (s : string)
      (k : nat -> string -> option nat) :
  rmatch (Seq a b) pos s k
  = rmatch a pos s (fun pos' s' => rmatch b pos' s' k).
Proof. reflexivity. Qed.

Lemma rmatch_alt (a b : regex) (pos : nat) (s : string)
      (k : nat -> string -> option nat) :
  rmatch (Alt a b) pos s k
  = match rmatch a pos s k with
    | Some e => Some e
    | None => rmatch b pos s k
    end.
Proof. reflexivity. Qed.

Lemma rmatch_bol (pos : nat) (s : string)
      (k : nat -> string -> option nat) :
  rmatch Bol pos s k = if pos =? 0 then k pos s else None.
Proof. reflexivity. Qed.

Lemma rmatch_plus_class (q : ascii -> bool) (pos : nat) (s : string)
      (k : nat -> string -> option nat) :
  rmatch (Plus (Chr q)) pos s k
  = class_rounds_then q k (S (String.length s)) pos s.
Proof. reflexivity. Qed.

Lemma string_app_length (a b : string) :
  String.length (a ++ b) = String.length a + String.length b.
Proof.
  induction a as [|c a IH]; [reflexivity|].
  cbn [append String.length]. now rewrite IH.
Qed.

Lemma append_assoc_string (a b c : string) : a ++ (b ++ c) = (a ++ b) ++ c.
Proof.
  induction a as [|x a IH]; [reflexivity|].
  cbn [append]. now rewrite IH.
Qed.

Lemma lower_app (a b : string) : lower (a ++ b) = lower a ++ lower b.
Proof.
  induction a as [|c a IH]; [reflexivity|].
  cbn [append lower]. now rewrite IH.
Qed.

Lemma lower_length (s : string) : String.length (lower s) = String.length s.
Proof.
  induction s as [|c s IH]; [reflexivity|]. cbn [lower String.length].
  now rewrite IH.
Qed.

(** A literal under [re.IGNORECASE] matches the text whose lower-case form
    is that of the literal. *)
Lemma rmatch_lit_match :
  forall (w0 w t : string) (pos : nat) (k : nat -> string -> option nat),
    lower w = lower w0 ->
    rmatch (lit true w0) pos (w ++ t) k = k (pos + String.length w) t.
Proof.
  induction w0 as [|c0 w0 IH]; intros w t pos k Hlow.
  - destruct w; [|discriminate Hlow]. cbn. now rewrite Nat.add_0_r.
  - destruct w as [|c w]; [discriminate Hlow|].
    cbn [lower] in Hlow. injection Hlow as Hc Hw.
    cbn [lit]. rewrite rmatch_seq. unfold lit_char. cbn [rmatch append].
    rewrite Hc, Ascii.eqb_refl. rewrite (IH w t (S pos) k Hw).
    cbn [String.length]. now rewrite Nat.add_succ_r.
Qed.

Lemma rmatch_lit_mismatch :
  forall (w0 s : string) (pos : nat) (k : nat -> string -> option nat),
    startswith (lower w0) (lower s) = false ->
    rmatch (lit true w0) pos s k = None.
Proof.
  induction w0 as [|c0 w0 IH]; intros s pos k H; [discriminate H|].
  cbn [lit]. rewrite rmatch_seq. unfold lit_char. cbn [rmatch].
  destruct s as [|c s]; [reflexivity|].
  cbn [lower startswith] in H.
  rewrite Ascii.eqb_sym.
  destruct (Ascii.eqb (lower_char c0) (lower_char c)); [|reflexivity].
  cbn [andb] in H. exact (IH s (S pos) k H).
Qed.

Lemma class_rounds_then_stop (q : ascii -> bool)
      (k : nat -> string -> option nat) (fuel pos : nat) (s : string) :
  no_head q s -> class_rounds_then q k fuel pos s = None.
Proof.
  intros H. destruct fuel; [reflexivity|].
  destruct s as [|c s]; [reflexivity|].
  cbn in H |- *. now rewrite H.
Qed.

(** The greedy repetition takes a whole run of the class when what follows
    the run can be matched from there. *)
Lemma class_rounds_then_run (q : ascii -> bool)
      (k : nat -> string -> option nat) (tail : string) (e : nat) :
  no_head q tail ->
  forall (d : string) (fuel pos : nat),
    d <> "" -> all_chars q d = true ->
    String.length d < fuel ->
    k (pos + String.length d) tail = Some e ->
    class_rounds_then q k fuel pos (d ++ tail) = Some e.
Proof.
  intros Htail. induction d as [|c d IH]; intros fuel pos Hne Hall Hfuel Hk;
    [contradiction|].
  cbn [all_chars] in Hall. apply andb_true_iff in Hall.
  destruct Hall as [Hc Hd].
  destruct fuel as [|fuel]; [cbn in Hfuel; lia|].
  cbn [class_rounds_then append rmatch]. rewrite Hc.
  assert (Hlt : (pos <? S pos) = true) by (apply Nat.ltb_lt; lia).
  rewrite Hlt. fold (class_rounds_then q k).
  cbn [String.length] in Hfuel, Hk.
  destruct d as [|c' d'].
  - cbn [append]. rewrite (class_rounds_then_stop q k fuel (S pos) tail Htail).
    rewrite <- Hk. f_equal. cbn. lia.
  - rewrite (IH fuel (S pos)); [reflexivity|discriminate|exact Hd|lia|].
    rewrite <- Hk. f_equal. cbn [String.length]. lia.
Qed.

Lemma space_is_no_digit (c : ascii) : is_space c = true -> is_digit c = false.
Proof.
  destruct c as [[] [] [] [] [] [] [] []]; vm_compute; intros H;
    first [reflexivity | discriminate H].
Qed.

Lemma run_head (q : ascii -> bool) (d t : string) :
  d <> "" -> all_chars q d = true ->
  exists c r, d ++ t = String c r /\ q c = true.
Proof.
  destruct d as [|c d]; [contradiction|]. intros _ H.
  cbn [all_chars] in H. apply andb_true_iff in H.
  exists c, (d ++ t). split; [reflexivity|tauto].
Qed.

(** The whitespace after the prefix, up to the rest of the name. *)
Lemma spaces_then_rest (gap rest : string) (pos : nat) :
  gap <> "" -> all_chars is_space gap = true -> no_head is_space rest ->
  rmatch (Plus (Chr is_space)) pos (gap ++ rest) (fun e _ => Some e)
  = Some (pos + String.length gap).
Proof.
  intros Hne Hall Hrest. rewrite rmatch_plus_class.
  apply class_rounds_then_run; auto.
  rewrite string_app_length. lia.
Qed.

(** The leading pattern matches a size prefix followed by whitespace, and
    takes all of the whitespace. *)
Lemma prefix_pattern_matches (p gap rest : string) :
  is_size_prefix p ->
  gap <> "" -> all_chars is_space gap = true -> no_head is_space rest ->
  match_at prefix_pattern 0 (p ++ gap ++ rest)
  = Some (String.length p + String.length gap).
Proof.
  intros Hp Hne Hall Hrest.
  unfold match_at, prefix_pattern.
  rewrite rmatch_seq, rmatch_bol. cbn [Nat.eqb]. rewrite rmatch_seq.
  cbn [alts]. rewrite rmatch_alt, rmatch_seq.
  destruct Hp as [Hword|(w & d & -> & Hw & Hd & Hdigits)].
  - assert (Hlow : forall t, lower (p ++ t) = lower p ++ lower t)
      by (intros t; apply lower_app).
    rewrite rmatch_lit_mismatch
      by (rewrite Hlow;
          cbn [In] in Hword;
          destruct Hword as [<-|[<-|[<-|[]]]]; reflexivity).
    rewrite rmatch_alt.
    cbn [In] in Hword. destruct Hword as [Hw|[Hw|[Hw|[]]]].
    + rewrite (rmatch_lit_match "Large" p _ 0 _ (eq_sym Hw)).
      rewrite (spaces_then_rest gap rest _ Hne Hall Hrest). reflexivity.
    + rewrite rmatch_lit_mismatch by (rewrite Hlow, <- Hw; reflexivity).
      rewrite rmatch_alt.
      rewrite (rmatch_lit_match "Medium" p _ 0 _ (eq_sym Hw)).
      rewrite (spaces_then_rest gap rest _ Hne Hall Hrest). reflexivity.
    + rewrite rmatch_lit_mismatch by (rewrite Hlow, <- Hw; reflexivity).
      rewrite rmatch_alt.
      rewrite rmatch_lit_mismatch by (rewrite Hlow, <- Hw; reflexivity).
      rewrite (rmatch_lit_match "Small" p _ 0 _ (eq_sym Hw)).
      rewrite (spaces_then_rest gap rest _ Hne Hall Hrest). reflexivity.
  - rewrite <- append_assoc_string.
    rewrite (rmatch_lit_match "Set Of " w _ 0 _ Hw).
    rewrite rmatch_plus_class.
    assert (Hhead : no_head is_digit (gap ++ rest)).
    { destruct (run_head is_space gap rest Hne Hall) as (c & r & -> & Hc).
      cbn. now apply space_is_no_digit. }
    rewrite (class_rounds_then_run
               is_digit _ (gap ++ rest)
               (0 + String.length w + String.length d + String.length gap)
               Hhead d);
      [ rewrite string_app_length; f_equal; lia
      | exact Hd
      | exact Hdigits
      | rewrite string_app_length; lia
      | apply (spaces_then_rest gap rest _ Hne Hall Hrest) ].
Qed.

Lemma sub_from_skip (r : regex) (repl : string) :
  forall (a b : string) (pos : nat),
    sub_from r repl pos (String.length a) (a ++ b)
    = sub_from r repl (pos + String.length a) 0 b.
Proof.
  induction a as [|c a IH]; intros b pos.
  - cbn [String.length append]. now rewrite Nat.add_0_r.
  - cbn [String.length append sub_from]. rewrite IH.
    f_equal. lia.
Qed.

(** The leading pattern is anchored: it matches nowhere but at the start. *)
Lemma prefix_pattern_anchored (repl : string) :
  forall (s : string) (pos : nat),
    0 < pos -> sub_from prefix_pattern repl pos 0 s = s.
Proof.
  induction s as [|c s IH]; intros pos Hpos; [reflexivity|].
  cbn [sub_from].
  assert (Hnone : match_at prefix_pattern pos (String c s) = None).
  { unfold match_at, prefix_pattern. rewrite rmatch_seq, rmatch_bol.
    destruct pos; [lia|reflexivity]. }
  rewrite Hnone, IH by lia. reflexivity.
Qed.

Lemma sub_prefix_pattern (p gap rest : string) :
  is_size_prefix p ->
  gap <> "" -> all_chars is_space gap = true -> no_head is_space rest ->
  Re.sub prefix_pattern "" (p ++ gap ++ rest) = rest.
Proof.
  intros Hp Hne Hall Hrest.
  pose proof (prefix_pattern_matches p gap rest Hp Hne Hall Hrest) as Hm.
  unfold Re.sub. rewrite append_assoc_string in Hm |- *.
  rewrite <- string_app_length in Hm.
  assert (Hcons : exists c a, p ++ gap = String c a).
  { destruct p as [|c p]; [|cbn; eauto].
    destruct gap as [|c gap]; [contradiction|cbn; eauto]. }
  destruct Hcons as (c & a & Hcons). rewrite Hcons in Hm |- *.
  cbn [append sub_from] in Hm |- *. rewrite Hm.
  cbn [String.length Nat.ltb Nat.leb].
  replace (S (String.length a) - 0 - 1) with (String.length a) by lia.
  cbn [append]. rewrite sub_from_skip.
  apply prefix_pattern_anchored. lia.
Qed.

(** X3: a name that starts with "Large", "Medium", "Small" or "Set Of "
    and a number, in any case of the letters, followed by whitespace, is
    cleaned like the rest of the name after that whitespace, from which
    only a trailing descriptor is still to be removed. *)
Theorem clean_product_name_drops_size_prefix (p gap rest : string) :
  is_size_prefix p ->
  gap <> "" -> all_chars is_space gap = true -> no_head is_space rest ->
  clean_product_name (p ++ gap ++ rest)
  = strip (Re.sub suffix_pattern "" rest).
Proof.
  intros Hp Hne Hall Hrest. unfold clean_product_name.
  now rewrite (sub_prefix_pattern p gap rest Hp Hne Hall Hrest).
Qed.

Lemma clean_product_name_drops_size_prefix_witness :
  clean_product_name ("sEt oF 12" ++ "  " ++ "Fairy Cake Baking Cases")
  = strip (Re.sub suffix_pattern "" "Fairy Cake Baking Cases").
Proof.
  apply (clean_product_name_drops_size_prefix
           "sEt oF 12" "  " "Fairy Cake Baking Cases").
  - right. exists "sEt oF ", "12". repeat split. discriminate.
  - discriminate.
  - reflexivity.
  - reflexivity.
Defined.

End PrefixFacts.
